(** * Query-suggestion ranking service: a shallow embedding of [app.py]

    The development follows the source file top to bottom:

    - [Py]: the fragment of Python's dynamic values the service relies on
      (JSON values, truthiness, [dict.get], [str.strip], [str.lower],
      [str.split], [in] on strings, [float()], [round()]) together with an
      exception type and its error monad;
    - [Collab]: the external collaborators (math library, embedding model,
      BM25 scorer, NER, JSON serialiser, SQL reads) as a record of
      functions;
    - the candidate builder, the hybrid ranker, the suggestion rewriter, the
      ranking pipeline with its result cache, and the [/suggest] endpoint;
    - the properties of the specification, stated over these definitions.

    Floats are modelled as exact rationals ([Q]); strings are byte strings
    and the case mapping is the ASCII one. *)

From Stdlib Require Import ZArith QArith Qround Qminmax Lqa Lia List String Ascii Bool Sorted.
From stdpp Require Import gmap strings list fin_maps pretty.
Import ListNotations.

Set Warnings "-register-all".
Close Scope Q_scope.
Open Scope string_scope.
Open Scope list_scope.

(* ===================================================================== *)
(** ** Python values, exceptions and string primitives                    *)
(* ===================================================================== *)

Module Py.

(** The exceptions the modelled code can raise. [UpstreamError] stands for a
    failure of the embedding provider or of the lexical scorer,
    [OperationalError] for [sqlite3.OperationalError], and [BindingError]
    for the error [sqlite3] raises on a parameter of a type it cannot bind
    ([InterfaceError] or [ProgrammingError], depending on its version). *)
Inductive pyerr : Type :=
| AttributeError | TypeError | ValueError | KeyError | OverflowError
| UpstreamError | OperationalError | BindingError.

Inductive exc (A : Type) : Type :=
| Ok (a : A)
| Raise (e : pyerr).
Arguments Ok {A} a.
Arguments Raise {A} e.

Definition bind {A B : Type} (m : exc A) (k : A -> exc B) : exc B :=
  match m with
  | Ok a => k a
  | Raise e => Raise e
  end.

(** [try: m except Exception: h] *)
Definition try_except {A : Type} (m : exc A) (h : A) : A :=
  match m with
  | Ok a => a
  | Raise _ => h
  end.

Definition is_ok {A : Type} (m : exc A) : bool :=
  match m with Ok _ => true | Raise _ => false end.

(** [for x in l: f x], collecting the results; the first exception aborts. *)
Fixpoint mapM {A B : Type} (f : A -> exc B) (l : list A) : exc (list B) :=
  match l with
  | [] => Ok []
  | x :: l' =>
      match f x with
      | Raise e => Raise e
      | Ok y =>
          match mapM f l' with
          | Raise e => Raise e
          | Ok ys => Ok (y :: ys)
          end
      end
  end.

(** A JSON document as [json.loads] returns it. Integers and floats are kept
    apart (they serialise differently); floats are rationals. *)
Inductive pyval : Type :=
| PNone
| PBool (b : bool)
| PInt (z : Z)
| PFloat (q : Q)
| PStr (s : string)
| PList (l : list pyval)
| PDict (d : list (string * pyval)).

(** [bool(v)] *)
Definition truthy (v : pyval) : bool :=
  match v with
  | PNone => false
  | PBool b => b
  | PInt z => negb (Z.eqb z 0)
  | PFloat q => negb (Qeq_bool q 0)
  | PStr s => negb (String.eqb s "")
  | PList l => match l with [] => false | _ => true end
  | PDict d => match d with [] => false | _ => true end
  end.

(** [v is not None] *)
Definition is_not_none (v : pyval) : bool :=
  match v with PNone => false | _ => true end.

Fixpoint assoc {A : Type} (k : string) (d : list (string * A)) : option A :=
  match d with
  | [] => None
  | (k', v) :: d' => if String.eqb k k' then Some v else assoc k d'
  end.

(** [v.get(k, default)]: only dictionaries have [get]. *)
Definition dict_get (v : pyval) (k : string) (default : pyval) : exc pyval :=
  match v with
  | PDict d => Ok (match assoc k d with Some x => x | None => default end)
  | _ => Raise AttributeError
  end.

(** [for x in v]: lists yield their items, strings their characters,
    dictionaries their keys; nothing else is iterable. *)
Definition py_iter (v : pyval) : exc (list pyval) :=
  match v with
  | PList l => Ok l
  | PStr s => Ok (map (fun c => PStr (String c "")) (list_ascii_of_string s))
  | PDict d => Ok (map (fun kv => PStr (fst kv)) d)
  | _ => Raise TypeError
  end.

(** *** Strings *)

Definition lower_ascii (c : ascii) : ascii :=
  let n := nat_of_ascii c in
  if (65 <=? n)%nat && (n <=? 90)%nat then ascii_of_nat (n + 32) else c.

(** [s.lower()] *)
Fixpoint lower (s : string) : string :=
  match s with
  | EmptyString => EmptyString
  | String c s' => String (lower_ascii c) (lower s')
  end.

(** The characters [str.strip()] removes. *)
Definition is_space (c : ascii) : bool :=
  let n := nat_of_ascii c in
  ((9 <=? n)%nat && (n <=? 13)%nat) || ((28 <=? n)%nat && (n <=? 32)%nat).

Fixpoint lstrip (s : string) : string :=
  match s with
  | EmptyString => EmptyString
  | String c s' => if is_space c then lstrip s' else s
  end.

Definition rev_string (s : string) : string :=
  string_of_list_ascii (List.rev (list_ascii_of_string s)).

(** [s.strip()] *)
Definition strip (s : string) : string :=
  rev_string (lstrip (rev_string (lstrip s))).

(** [s.split(sep)] for a one-character separator. *)
Fixpoint split (sep : ascii) (s : string) : list string :=
  match s with
  | EmptyString => [EmptyString]
  | String c s' =>
      if Ascii.eqb c sep then EmptyString :: split sep s'
      else match split sep s' with
           | h :: t => String c h :: t
           | [] => [String c EmptyString]
           end
  end.

(** [needle in hay] on strings. *)
Fixpoint contains (needle hay : string) : bool :=
  if String.prefix needle hay then true
  else match hay with
       | EmptyString => false
       | String _ hay' => contains needle hay'
       end.

(** [sep.join(parts)] *)
Fixpoint join (sep : string) (parts : list string) : string :=
  match parts with
  | [] => ""
  | [p] => p
  | p :: rest => p ++ sep ++ join sep rest
  end.

(** [v.strip()], [v.lower()], [v.split(",")]: string methods on a dynamic
    value raise [AttributeError] on anything but a string. *)
Definition py_strip (v : pyval) : exc string :=
  match v with PStr s => Ok (strip s) | _ => Raise AttributeError end.

Definition py_lower (v : pyval) : exc string :=
  match v with PStr s => Ok (lower s) | _ => Raise AttributeError end.

Definition py_split (v : pyval) (sep : ascii) : exc (list string) :=
  match v with PStr s => Ok (split sep s) | _ => Raise AttributeError end.

(** [v or default] *)
Definition py_or (v default : pyval) : pyval :=
  if truthy v then v else default.

(** *** Numbers *)

(** [round(q, nd)]: to the nearest multiple of [10^-nd], ties to even. *)
Definition py_round (q : Q) (nd : nat) : Q :=
  let scale := (10 ^ Z.of_nat nd)%Z in
  let x := Qmult q (inject_Z scale) in
  let f := Qfloor x in
  let r := Qminus x (inject_Z f) in
  let n :=
    match Qcompare r (1 # 2) with
    | Lt => f
    | Gt => (f + 1)%Z
    | Eq => if Z.even f then f else (f + 1)%Z
    end in
  Qred (Qmake n (Z.to_pos scale)).

(** [a >= b] between a dynamic value and a float: numbers and booleans
    compare, everything else raises [TypeError]. *)
Definition py_ge (v : pyval) (b : Q) : exc bool :=
  match v with
  | PBool x => Ok (Qle_bool b (if x then 1 else 0))
  | PInt z => Ok (Qle_bool b (inject_Z z))
  | PFloat q => Ok (Qle_bool b q)
  | _ => Raise TypeError
  end.

End Py.
Export Py.

Declare Scope exc_scope.
Delimit Scope exc_scope with exc.
Notation "x <- c1 ;; c2" := (Py.bind c1 (fun x => c2))
  (at level 100, c1 at next level, right associativity) : exc_scope.
Open Scope exc_scope.

(* ===================================================================== *)
(** ** External collaborators and per-request environment                 *)
(* ===================================================================== *)

(** A call to one of the two scoring collaborators, as recorded by the
    model (the source does not log them; the record lets properties speak
    about whether a request invoked them). *)
Inductive ProviderCall : Type :=
| EmbedCall (texts : list string)
| LexicalCall (query : string) (corpus : list string).

(** One row of the [search_history] table. [row_location] is the value
    bound to the [location] parameter of the INSERT; the column has TEXT
    affinity, so SQLite keeps a string or NULL as it is and stores a number
    as its decimal text. No code of the service reads the column. *)
Record Row : Type := mkRow {
  row_user_id : string;
  row_query : string;
  row_suggestions : list string;
  row_selected : option string;
  row_location : pyval;
  row_success_rating : Z;
  row_ab_variant : option string;
  (** [timestamp], filled in by [CURRENT_TIMESTAMP]: whole seconds *)
  row_timestamp : Z
}.

(** What the service consumes through library calls. Every field is a
    function of its arguments, so one request is deterministic given the
    collaborators. *)
Record Collab : Type := mkCollab {
  (** [math.radians], [math.sin], [math.cos] *)
  radians : Q -> Q;
  sin : Q -> Q;
  cos : Q -> Q;
  (** [math.sqrt], [math.asin]: [ValueError] outside their domain *)
  sqrt : Q -> exc Q;
  asin : Q -> exc Q;
  (** [float(s)] on a string *)
  float_of_str : string -> exc Q;
  (** [json.dumps(v, sort_keys=True)] *)
  json_dumps : pyval -> string;
  (** [cosine_similarity(q_vec, c_vecs).ravel()] for
      [model.encode([expanded_query] + texts)] *)
  semantic_scores : string -> list string -> exc (list Q);
  (** [BM25Okapi(tokenized corpus).get_scores(tokenize(expanded_query))] *)
  bm25_scores : string -> list string -> exc (list Q);
  (** spaCy entities labelled GPE or LOC *)
  detect_locations : string -> list string;
  (** the two SQL aggregations over [search_history] *)
  sql_user_preferences : list Row -> string -> gmap string Z;
  sql_user_negative_preferences : list Row -> string -> gmap string Z;
  (** [SUGGESTION_CACHE_TTL_SECONDS] (environment variable, default 300) *)
  SUGGESTION_CACHE_TTL_SECONDS : Q
}.

(** What one request reads from the outside world. *)
Record Env : Type := mkEnv {
  (** [datetime.utcnow().timestamp()] *)
  now_ts : Q;
  (** [datetime.now()]: weekday key and ["HH:MM"] *)
  weekday : string;
  hhmm : string;
  (** whether the database refuses the INSERT of [save_search_interaction]
      (it cannot be opened, or the statement cannot be prepared) *)
  db_write_fails : bool;
  (** [CURRENT_TIMESTAMP] of the database, in whole seconds *)
  db_second : Z;
  (** whether the UPDATE that records the A/B variant raises *)
  ab_write_fails : bool
}.

(* ===================================================================== *)
(** ** Data model                                                         *)
(* ===================================================================== *)

(** A candidate dictionary. [text] and [type] are always present; the other
    keys (rating, location, coordinates, business fields) are kept as the
    dictionary the source builds. *)
Record Candidate : Type := mkCand {
  text : string;
  type : string;
  attrs : list (string * pyval)
}.

(** [cand.get(k, default)] *)
Definition cand_get (c : Candidate) (k : string) (default : pyval) : pyval :=
  match assoc k (attrs c) with
  | Some v => v
  | None => default
  end.

Record Card : Type := mkCard {
  title : string;
  member_id : pyval;
  card_profile_url : pyval;
  card_thumbnail_url : pyval;
  card_rating : pyval;
  card_location : pyval;
  distance_km : option Q;
  card_promo_badge : pyval;
  card_featured : pyval
}.

Record DebugCandidate : Type := mkDebugCandidate {
  dbg_text : string;
  dbg_type : string;
  dbg_score : Q;
  dbg_distance_km : option Q
}.

Record DebugInfo : Type := mkDebugInfo {
  dbg_intent : string;
  dbg_city : option string;
  top_candidates : list DebugCandidate
}.

(** The third component of what [rank_candidates] returns. On the cache-hit
    and cold-start returns the conditional expression binds tighter than
    the tuple comma, so with [debug] off the third component is itself the
    triple [(suggestions, cards, None)]. *)
Inductive DebugRet : Type :=
| DbgNone
| DbgTrace (d : DebugInfo)
| DbgReason (reason : string)
| DbgTriple (suggestions : list string) (cards : list Card).

Record CacheEntry : Type := mkEntry {
  ts : Q;
  c_suggestions : list string;
  c_cards : list Card;
  c_debug : option DebugInfo
}.

(** The process-wide globals and the database. *)
Record State : Type := mkState {
  SUGGESTION_CACHE : gmap string CacheEntry;
  USER_HISTORY_CACHE : gmap string (list string);
  POPULAR_QUERIES : gmap string Z;
  query_patterns : gmap string Z;
  successful_suggestions : gmap string Z;
  location_patterns : gmap string Z;
  (** active rows of [manual_data]: type and decoded content *)
  manual_data : list (string * pyval);
  search_history : list Row;
  provider_log : list ProviderCall
}.

(** The state of a freshly started process over a given database. *)
Definition init_state (manual : list (string * pyval)) (rows : list Row) : State :=
  mkState ∅ ∅ ∅ ∅ ∅ ∅ manual rows [].

(** [defaultdict(list)] lookup *)
Definition history_of (st : State) (user_id : string) : list string :=
  default [] (USER_HISTORY_CACHE st !! user_id).

(** [d[k] += n] on a [defaultdict(int)] *)
Definition bump (k : string) (n : Z) (d : gmap string Z) : gmap string Z :=
  <[k := (default 0%Z (d !! k) + n)%Z]> d.

(* ===================================================================== *)
(** ** Weights                                                            *)
(* ===================================================================== *)

Definition WEIGHT_SEMANTIC : Q := 0.7.
Definition WEIGHT_BM25 : Q := 0.3.
Definition BOOST_HISTORY : Q := 0.1.
Definition BOOST_HIGH_RATING : Q := 0.1.
Definition BOOST_LOCATION_MATCH : Q := 0.1.
Definition BOOST_LEARNED_PATTERN : Q := 0.15.

(* ===================================================================== *)
(** ** Database reads and quality controls                                *)
(* ===================================================================== *)

(** [get_manual_data(data_type)]: the contents of the rows of that type. *)
Definition get_manual_data (manual : list (string * pyval)) (data_type : string)
  : list pyval :=
  map snd (List.filter (fun r => String.eqb (fst r) data_type) manual).

(** [(item.get("term") or "").lower() for item in rows if item.get("term")] *)
Definition term_of (item : pyval) : exc (option string) :=
  t <- dict_get item "term" PNone ;;
  if truthy t then (s <- py_lower (py_or t (PStr "")) ;; Ok (Some s))
  else Ok None.

Fixpoint terms_of (items : list pyval) : exc (list string) :=
  match items with
  | [] => Ok []
  | item :: rest =>
      o <- term_of item ;;
      ts <- terms_of rest ;;
      Ok (match o with Some s => s :: ts | None => ts end)
  end.

Definition get_blacklist (manual : list (string * pyval)) : exc (list string) :=
  terms_of (get_manual_data manual "blacklist").

Definition get_whitelist (manual : list (string * pyval)) : exc (list string) :=
  terms_of (get_manual_data manual "whitelist").

(** [maps[base] = terms]: a later row for the same base replaces the terms
    and keeps the position of the first. *)
Fixpoint dict_set {A : Type} (k : string) (v : A) (d : list (string * A))
  : list (string * A) :=
  match d with
  | [] => [(k, v)]
  | (k', v') :: d' =>
      if String.eqb k k' then (k, v) :: d' else (k', v') :: dict_set k v d'
  end.

Definition synonym_entry (item : pyval) : exc (string * list string) :=
  b <- dict_get item "base" PNone ;;
  base <- py_lower (py_or b (PStr "")) ;;
  tv <- dict_get item "terms" (PList []) ;;
  tl <- py_iter tv ;;
  terms <- mapM py_lower tl ;;
  Ok (base, terms).

Fixpoint synonyms_from (items : list pyval) (maps : list (string * list string))
  : exc (list (string * list string)) :=
  match items with
  | [] => Ok maps
  | item :: rest =>
      e <- synonym_entry item ;;
      synonyms_from rest
        (if String.eqb (fst e) "" then maps else dict_set (fst e) (snd e) maps)
  end.

Definition get_synonyms_map (manual : list (string * pyval))
  : exc (list (string * list string)) :=
  synonyms_from (get_manual_data manual "synonym") [].

(* ===================================================================== *)
(** ** Utilities                                                          *)
(* ===================================================================== *)

(** The least integer that does not round to a finite double: halfway
    between the largest double, [2^1024 - 2^971], and [2^1024]. *)
Definition float_overflow : Z := (2 ^ 1024 - 2 ^ 970)%Z.

Section Service.

Variable C : Collab.

(** [float(v)]. An integer converts when it rounds to a finite double,
    that is when it is below [float_overflow] in absolute value; beyond
    that [float] raises [OverflowError]. *)
Definition py_float (v : pyval) : exc Q :=
  match v with
  | PBool b => Ok (if b then 1 else 0)%Q
  | PInt z =>
      if (Z.abs z <? float_overflow)%Z then Ok (inject_Z z)
      else Raise OverflowError
  | PFloat q => Ok q
  | PStr s => float_of_str C s
  | _ => Raise TypeError
  end.

(** Haversine distance in kilometres. *)
Definition calculate_distance (lat1 lon1 lat2 lon2 : Q) : exc Q :=
  let lat1 := radians C lat1 in
  let lon1 := radians C lon1 in
  let lat2 := radians C lat2 in
  let lon2 := radians C lon2 in
  let dlat := (lat2 - lat1)%Q in
  let dlon := (lon2 - lon1)%Q in
  let a := (sin C (dlat / 2) ^ 2
            + cos C lat1 * cos C lat2 * sin C (dlon / 2) ^ 2)%Q in
  s <- sqrt C a ;;
  h <- asin C s ;;
  let c := (2 * h)%Q in
  let r := 6371%Q in
  Ok (c * r)%Q.

Definition location_keywords : list string :=
  ["near"; "nearby"; "close"; "local"; "around"].

(** Keyword heuristic used when the candidate has a location string but no
    coordinates. *)
Definition get_location_boost (user_lat user_lon candidate_location : pyval)
  : exc Q :=
  if negb (truthy user_lat) || negb (truthy user_lon)
     || negb (truthy candidate_location)
  then Ok 0%Q
  else
    loc <- py_lower candidate_location ;;
    let boost :=
      fold_left
        (fun boost keyword =>
           if contains keyword loc then (boost + 0.05)%Q else boost)
        location_keywords 0%Q in
    Ok (Qmin boost 0.2).

(* ===================================================================== *)
(** ** Candidate building                                                 *)
(* ===================================================================== *)

Definition nonempty (s : string) : bool := negb (String.eqb s "").

(** The [text] of a candidate has to be a string: the deduplication loop
    evaluates [c["text"].lower()] on every candidate it is given, which
    raises [AttributeError] for any other value. *)
Definition text_of (v : pyval) : exc string :=
  match v with PStr s => Ok s | _ => Raise AttributeError end.

Definition category_candidates (cat : pyval) : exc (list Candidate) :=
  topv <- dict_get cat "top_category" (PStr "") ;;
  top <- py_strip topv ;;
  subv <- dict_get cat "sub_category" (PStr "") ;;
  sub <- py_strip subv ;;
  subsubv <- dict_get cat "sub_sub_category" (PStr "") ;;
  subsub <- py_strip subsubv ;;
  Ok ((if nonempty top then [mkCand top "category" []] else [])
      ++ (if nonempty top && nonempty sub
          then [mkCand (top ++ " - " ++ sub)%string "subcategory" []]
          else [])
      ++ (if nonempty top && nonempty sub && nonempty subsub
          then [mkCand (top ++ " - " ++ sub ++ " - " ++ subsub)%string
                       "subsubcategory" []]
          else [])).

Definition member_candidates (mem : pyval) : exc (list Candidate) :=
  namev <- dict_get mem "name" (PStr "") ;;
  name <- py_strip namev ;;
  tagsv <- dict_get mem "tags" PNone ;;
  tags <- py_split (py_or tagsv (PStr "")) ","%char ;;
  locationv <- dict_get mem "location" (PStr "") ;;
  location <- py_strip locationv ;;
  reviews <- dict_get mem "reviews" (PStr "") ;;
  ratingv <- dict_get mem "rating" (PInt 0) ;;
  rating <- py_float ratingv ;;
  profile_url <- dict_get mem "profile_url" PNone ;;
  thumbnail_url <- dict_get mem "thumbnail_url" PNone ;;
  member_id <- dict_get mem "id" PNone ;;
  latitude <- dict_get mem "latitude" PNone ;;
  longitude <- dict_get mem "longitude" PNone ;;
  featuredv <- dict_get mem "featured" (PBool false) ;;
  let featured := truthy featuredv in
  plan_level <- dict_get mem "plan_level" PNone ;;
  priorityv <- dict_get mem "priority_score" (PInt 0) ;;
  priority_score <- py_float priorityv ;;
  last_updated <- dict_get mem "last_updated" PNone ;;
  promo_badge <- dict_get mem "promo_badge" PNone ;;
  hours <- dict_get mem "hours" PNone ;;
  let base_cand :=
    [("rating", PFloat rating);
     ("location", PStr location);
     ("profile_url", profile_url);
     ("thumbnail_url", thumbnail_url);
     ("id", member_id);
     ("latitude", latitude);
     ("longitude", longitude);
     ("featured", PBool featured);
     ("plan_level", plan_level);
     ("priority_score", PFloat priority_score);
     ("last_updated", last_updated);
     ("promo_badge", promo_badge);
     ("hours", hours)] in
  review_cands <-
    (if truthy reviews
     then (r <- text_of reviews ;; Ok [mkCand r "review" base_cand])
     else Ok []) ;;
  Ok ((if nonempty name then [mkCand name "member" base_cand] else [])
      ++ map (fun t => mkCand t "tag" base_cand)
             (List.filter nonempty (map strip tags))
      ++ review_cands).

Definition manual_candidates (item : string * pyval) : exc (list Candidate) :=
  let data_type := fst item in
  let content := snd item in
  if String.eqb data_type "category" then
    n <- dict_get content "name" (PStr "") ;;
    t <- text_of n ;;
    Ok [mkCand t "manual_category" []]
  else if String.eqb data_type "member" then
    name <- dict_get content "name" (PStr "") ;;
    location <- dict_get content "location" (PStr "") ;;
    rating <- dict_get content "rating" (PInt 0) ;;
    if truthy name
    then (t <- text_of name ;;
          Ok [mkCand t "manual_member"
                     [("rating", rating); ("location", location)]])
    else Ok []
  else if String.eqb data_type "profession" then
    n <- dict_get content "name" (PStr "") ;;
    t <- text_of n ;;
    Ok [mkCand t "manual_profession" []]
  else if String.eqb data_type "location" then
    n <- dict_get content "name" (PStr "") ;;
    t <- text_of n ;;
    Ok [mkCand t "manual_location" []]
  else Ok [].

(** The deduplication loop: [seen] holds the lowercased texts kept so far. *)
Fixpoint dedup_from (seen : gset string) (cs : list Candidate)
  : list Candidate :=
  match cs with
  | [] => []
  | c :: cs' =>
      if bool_decide (lower (text c) ∈ seen)
      then dedup_from seen cs'
      else c :: dedup_from ({[lower (text c)]} ∪ seen) cs'
  end.

Definition dedup (cs : list Candidate) : list Candidate := dedup_from ∅ cs.

(** The three sources, in the order in which the source walks them. *)
Definition category_part (site_data : pyval) : exc (list Candidate) :=
  catsv <- dict_get site_data "categories" (PList []) ;;
  cats <- py_iter catsv ;;
  cat_cands <- mapM category_candidates cats ;;
  Ok (concat cat_cands).

Definition member_part (site_data : pyval) : exc (list Candidate) :=
  memsv <- dict_get site_data "members" (PList []) ;;
  mems <- py_iter memsv ;;
  mem_cands <- mapM member_candidates mems ;;
  Ok (concat mem_cands).

Definition manual_part (manual : list (string * pyval)) : exc (list Candidate) :=
  man_cands <- mapM manual_candidates manual ;;
  Ok (concat man_cands).

(** The candidates in emission order, before deduplication: categories,
    then members with their tags and reviews, then manual data. *)
Definition emit_candidates (manual : list (string * pyval)) (site_data : pyval)
  : exc (list Candidate) :=
  cats <- category_part site_data ;;
  mems <- member_part site_data ;;
  mans <- manual_part manual ;;
  Ok (cats ++ mems ++ mans).

Definition build_candidates (manual : list (string * pyval)) (site_data : pyval)
  : exc (list Candidate) :=
  candidates <- emit_candidates manual site_data ;;
  Ok (dedup candidates).

(* ===================================================================== *)
(** ** Hybrid ranking                                                     *)
(* ===================================================================== *)

(** [expanded_query]: the query followed by the terms of every synonym base
    that occurs in the lowercased query. *)
Definition expand_query (query : string) (synonyms_map : list (string * list string))
  : string :=
  join " "
       (query :: flat_map
                   (fun bt => if contains (fst bt) (lower query) then snd bt else [])
                   synonyms_map).

(** [WEIGHT_SEMANTIC * semantic_scores + WEIGHT_BM25 * bm25_scores] *)
Fixpoint combine_scores (semantic bm25 : list Q) : list Q :=
  match semantic, bm25 with
  | s :: semantic', b :: bm25' =>
      (WEIGHT_SEMANTIC * s + WEIGHT_BM25 * b)%Q :: combine_scores semantic' bm25'
  | _, _ => []
  end.

(** Both collaborators answer with one score per candidate; an answer of
    another length is a shape error. The calls are logged in the order in
    which they are made, also when the second one fails. *)
Definition hybrid_rank (query : string) (candidates : list Candidate) (st : State)
  : exc (list (Candidate * Q)) * list ProviderCall :=
  match get_synonyms_map (manual_data st) with
  | Raise e => (Raise e, provider_log st)
  | Ok synonyms_map =>
      let expanded_query := expand_query query synonyms_map in
      let texts := map text candidates in
      let log1 := provider_log st ++ [EmbedCall (expanded_query :: texts)] in
      match semantic_scores C expanded_query texts with
      | Raise e => (Raise e, log1)
      | Ok semantic =>
          let log2 := log1 ++ [LexicalCall expanded_query texts] in
          match bm25_scores C expanded_query texts with
          | Raise e => (Raise e, log2)
          | Ok bm25 =>
              if (length semantic =? length candidates)%nat
                 && (length bm25 =? length candidates)%nat
              then (Ok (combine candidates (combine_scores semantic bm25)), log2)
              else (Raise ValueError, log2)
          end
      end
  end.

(* ===================================================================== *)
(** ** Suggestion rewriting                                               *)
(* ===================================================================== *)

(** A format string with [{base}] and [{city}] placeholders. *)
Inductive piece : Type :=
| Lit (s : string)
| Base
| City.

Definition template : Type := list piece.

(** [tpl.format(base=base, city=city)] *)
Fixpoint format (tpl : template) (base city : string) : string :=
  match tpl with
  | [] => ""
  | Lit s :: tpl' => (s ++ format tpl' base city)%string
  | Base :: tpl' => (base ++ format tpl' base city)%string
  | City :: tpl' => (city ++ format tpl' base city)%string
  end.

Definition TEMPLATES : list template :=
  [ [Lit "Top-rated "; Base; Lit " near you"];
    [Lit "Affordable "; Base; Lit " in "; City];
    [Lit "Trusted "; Base; Lit " nearby"];
    [Lit "Best "; Base; Lit " in "; City];
    [Lit "Experienced "; Base; Lit " near me"] ].

Definition any_in (words : list string) (q : string) : bool :=
  existsb (fun w => contains w q) words.

Definition detect_intent (query : string) : string :=
  let q := lower query in
  if any_in ["book"; "schedule"; "reserve"] q then "book"
  else if any_in ["hire"; "find"; "near me"; "nearby"] q then "hire"
  else if any_in ["review"; "reviews"; "rating"] q then "review"
  else if any_in ["compare"; "vs"; "best"] q then "compare"
  else "generic".

Definition INTENT_TEMPLATES : list (string * list template) :=
  [ ("book",
     [ [Lit "Book "; Base; Lit " in "; City];
       [Lit "Schedule with "; Base; Lit " near you"];
       [Lit "Reserve "; Base; Lit " today"] ]);
    ("hire",
     [ [Lit "Top-rated "; Base; Lit " near you"];
       [Lit "Best "; Base; Lit " in "; City];
       [Lit "Trusted "; Base; Lit " nearby"] ]);
    ("review",
     [ [Lit "Highest-rated "; Base; Lit " in "; City];
       [Base; Lit " with great reviews"];
       [Lit "Most trusted "; Base; Lit " near you"] ]);
    ("compare",
     [ [Lit "Compare "; Base; Lit " in "; City];
       [Lit "Top "; Base; Lit " options near you"];
       [Lit "Best "; Base; Lit " nearby"] ]);
    ("generic", TEMPLATES) ].

(** [city or "[City]"] *)
Definition city_or_placeholder (city : option string) : string :=
  match city with
  | Some c => if nonempty c then c else "[City]"
  | None => "[City]"
  end.

Definition rewrite_with_intent (base : string) (city : option string)
           (intent : string) : list string :=
  let templates := default TEMPLATES (assoc intent INTENT_TEMPLATES) in
  map (fun tpl => format tpl base (city_or_placeholder city)) templates.

(* ===================================================================== *)
(** ** Main ranking pipeline                                              *)
(* ===================================================================== *)

(** [for start, end in intervals: if start <= current <= end: return True].
    Unpacking needs exactly two items; the chained comparison evaluates
    [current <= end] only when [start <= current] holds. *)
Fixpoint open_in (current : string) (intervals : list pyval) : exc bool :=
  match intervals with
  | [] => Ok false
  | iv :: rest =>
      items <- py_iter iv ;;
      match items with
      | [PStr start; e] =>
          if String.leb start current then
            match e with
            | PStr stop =>
                if String.leb current stop then Ok true
                else open_in current rest
            | _ => Raise TypeError
            end
          else open_in current rest
      | [_; _] => Raise TypeError
      | _ => Raise ValueError
      end
  end.

Definition _is_open_now (E : Env) (hours : pyval) : exc bool :=
  match hours with
  | PDict d =>
      if truthy hours then
        intervals <- py_iter (default (PList []) (assoc (weekday E) d)) ;;
        open_in (hhmm E) intervals
      else Ok false
  | _ => Ok false
  end.

(** One entry of [scores]: candidate, final score, distance. *)
Definition Scored : Type := (Candidate * Q * option Q)%type.

Definition scored_cand (x : Scored) : Candidate := fst (fst x).
Definition scored_score (x : Scored) : Q := snd (fst x).
Definition scored_dist (x : Scored) : option Q := snd x.

(** [any(b in text.lower() for b in blacklist)] *)
Definition blacklisted (blacklist : list string) (txt : string) : bool :=
  existsb (fun b => contains b (lower txt)) blacklist.

(** The history loop: every term that occurs in the text adds
    [BOOST_HISTORY]. *)
Definition history_boost (terms : list string) (txt : string) (boost : Q) : Q :=
  fold_left
    (fun boost h =>
       if contains (lower h) (lower txt) then (boost + BOOST_HISTORY)%Q else boost)
    terms boost.

(** The outcome of the coordinate step of the loop. *)
Inductive GeoStep : Type :=
| GeoDrop
| GeoKeep (boost : Q) (distance : option Q).

(** [calculate_distance(float(user_lat), float(user_lon),
    float(cand["latitude"]), float(cand["longitude"]))] *)
Definition candidate_distance (user_lat user_lon : pyval) (cand : Candidate)
  : exc Q :=
  lat1 <- py_float user_lat ;;
  lon1 <- py_float user_lon ;;
  lat2 <- py_float (cand_get cand "latitude" PNone) ;;
  lon2 <- py_float (cand_get cand "longitude" PNone) ;;
  calculate_distance lat1 lon1 lat2 lon2.

Definition geo_step (user_lat user_lon : pyval) (radius_km : option Q)
           (cand : Candidate) (boost : Q) : exc GeoStep :=
  if truthy user_lat && truthy user_lon
     && is_not_none (cand_get cand "latitude" PNone)
     && is_not_none (cand_get cand "longitude" PNone)
  then
    match candidate_distance user_lat user_lon cand with
    | Ok d =>
        let boost :=
          if Qle_bool d 5 then (boost + 0.15)%Q
          else if Qle_bool d 20 then (boost + 0.08)%Q
          else (boost + 0.0)%Q in
        match radius_km with
        | Some r => if negb (Qle_bool d r) then Ok GeoDrop
                    else Ok (GeoKeep boost (Some d))
        | None => Ok (GeoKeep boost (Some d))
        end
    | Raise _ => Ok (GeoKeep boost None)
    end
  else if truthy user_lat && truthy user_lon
          && truthy (cand_get cand "location" PNone)
  then
    b <- get_location_boost user_lat user_lon (cand_get cand "location" PNone) ;;
    Ok (GeoKeep (boost + b)%Q None)
  else Ok (GeoKeep boost None).

(** What the loop reads besides the candidate and its base score. *)
Record LoopCtx : Type := mkLoopCtx {
  lc_env : Env;
  lc_city : option string;
  lc_history : list string;
  lc_user_lat : pyval;
  lc_user_lon : pyval;
  lc_radius_km : option Q;
  lc_blacklist : list string;
  lc_whitelist : list string;
  lc_user_prefs : gmap string Z;
  lc_user_negs : gmap string Z;
  lc_successful : gmap string Z
}.

(** The boosts computed before the coordinate step: whitelist test (a
    no-op), history, rating, textual location. *)
Definition pre_geo_boost (L : LoopCtx) (cand : Candidate) : exc Q :=
  let boost := 0.0%Q in
  let txt := text cand in
  let boost :=
    if match lc_whitelist L with [] => false | _ => true end
       && negb (existsb (fun w => contains w (lower txt)) (lc_whitelist L))
    then boost (* pass *)
    else boost in
  let boost := history_boost (lc_history L) txt boost in
  high <- py_ge (cand_get cand "rating" (PInt 0)) 4.5 ;;
  let boost := if high then (boost + BOOST_HIGH_RATING)%Q else boost in
  loc_match <-
    (match lc_city L with
     | Some city =>
         if nonempty city && truthy (cand_get cand "location" PNone)
         then (l <- py_lower (cand_get cand "location" PNone) ;;
               Ok (contains (lower city) l))
         else Ok false
     | None => Ok false
     end) ;;
  let boost := if loc_match then (boost + BOOST_LOCATION_MATCH)%Q else boost in
  Ok boost.

(** The boosts computed after the coordinate step (learned preferences,
    success patterns, business rules, availability, promotion) and the
    entry appended to [scores]. *)
Definition post_geo (L : LoopCtx) (cand : Candidate) (sc : Q) (boost : Q)
           (distance_km : option Q) : exc (option Scored) :=
  let txt := text cand in
  let boost :=
    match lc_user_prefs L !! lower txt with
    | Some w => (boost + BOOST_LEARNED_PATTERN * (inject_Z w / 10.0))%Q
    | None => boost
    end in
  let boost :=
    match lc_user_negs L !! lower txt with
    | Some w => (boost - BOOST_LEARNED_PATTERN * (inject_Z w / 5.0))%Q
    | None => boost
    end in
  let boost :=
    match lc_successful L !! lower txt with
    | Some _ => (boost + BOOST_LEARNED_PATTERN * 0.5)%Q
    | None => boost
    end in
  let boost :=
    if truthy (cand_get cand "featured" PNone)
    then (boost + 0.1)%Q else boost in
  let boost :=
    match cand_get cand "plan_level" PNone with
    | PStr p =>
        if existsb (String.eqb p) ["premium"; "gold"; "platinum"]
        then (boost + 0.08)%Q else boost
    | _ => boost
    end in
  priority <- py_float (cand_get cand "priority_score" (PInt 0)) ;;
  let boost := (boost + priority * 0.05)%Q in
  is_open <- _is_open_now (lc_env L) (cand_get cand "hours" PNone) ;;
  let boost := if is_open then (boost + 0.05)%Q else boost in
  let boost :=
    if truthy (cand_get cand "promo_badge" PNone)
    then (boost + 0.03)%Q else boost in
  Ok (Some (cand, (sc + boost)%Q, distance_km)).

(** The body of [for cand, sc in ranked]; [Ok None] is [continue]. *)
Definition score_candidate (L : LoopCtx) (cand : Candidate) (sc : Q)
  : exc (option Scored) :=
  if blacklisted (lc_blacklist L) (text cand) then Ok None
  else
    boost <- pre_geo_boost L cand ;;
    g <- geo_step (lc_user_lat L) (lc_user_lon L) (lc_radius_km L) cand boost ;;
    match g with
    | GeoDrop => Ok None
    | GeoKeep boost distance_km => post_geo L cand sc boost distance_km
    end.

(** The whole loop: [scores] in the order of [ranked]. *)
Fixpoint score_all (L : LoopCtx) (ranked : list (Candidate * Q))
  : exc (list Scored) :=
  match ranked with
  | [] => Ok []
  | (cand, sc) :: rest =>
      o <- score_candidate L cand sc ;;
      scores <- score_all L rest ;;
      Ok (match o with Some x => x :: scores | None => scores end)
  end.

(** [scores.sort(key=lambda x: -x[1])]: stable, descending by score. *)
Fixpoint insert_by_score (x : Scored) (l : list Scored) : list Scored :=
  match l with
  | [] => [x]
  | y :: l' =>
      if negb (Qle_bool (scored_score y) (scored_score x))
      then y :: insert_by_score x l'
      else x :: l
  end.

Definition sort_scores (l : list Scored) : list Scored :=
  fold_right insert_by_score [] l.

(** [cards.append({...})] for a member-derived candidate that carries a
    profile reference or an identifier. *)
Definition card_of (x : Scored) : list Card :=
  let cand := scored_cand x in
  if existsb (String.eqb (type cand)) ["member"; "tag"; "review"]
     && (truthy (cand_get cand "profile_url" PNone)
         || truthy (cand_get cand "id" PNone))
  then [ {| title := text cand;
            member_id := cand_get cand "id" PNone;
            card_profile_url := cand_get cand "profile_url" PNone;
            card_thumbnail_url := cand_get cand "thumbnail_url" PNone;
            card_rating := cand_get cand "rating" PNone;
            card_location := cand_get cand "location" PNone;
            distance_km := option_map (fun d => py_round d 2) (scored_dist x);
            card_promo_badge := cand_get cand "promo_badge" PNone;
            card_featured := cand_get cand "featured" (PBool false) |} ]
  else [].

(** The final loop over [suggestions]: skip what was seen (lowercased),
    stop as soon as five are kept. *)
Fixpoint dedup_limit (seen : gset string) (final : list string)
         (suggestions : list string) : list string :=
  match suggestions with
  | [] => final
  | s :: rest =>
      let seen_final :=
        if bool_decide (lower s ∈ seen) then (seen, final)
        else ({[lower s]} ∪ seen, final ++ [s]) in
      if (5 <=? length (snd seen_final))%nat then snd seen_final
      else dedup_limit (fst seen_final) (snd seen_final) rest
  end.

Definition debug_candidate (x : Scored) : DebugCandidate :=
  {| dbg_text := text (scored_cand x);
     dbg_type := type (scored_cand x);
     dbg_score := py_round (scored_score x) 4;
     dbg_distance_km := scored_dist x |}.

(** The cache key: the six fields, serialised with sorted keys. *)
Definition cache_key (query : string) (site_data : pyval) (user_id : string)
           (user_lat user_lon : pyval) : exc string :=
  settings <- dict_get site_data "settings" (PDict []) ;;
  radius <- dict_get settings "radius_km" PNone ;;
  Ok (json_dumps C
        (PDict [("intent", PStr (detect_intent query));
                ("lat", user_lat);
                ("lon", user_lon);
                ("q", PStr query);
                ("radius", radius);
                ("uid", PStr user_id)])).

(** [cached and (now_ts - cached.get("ts", 0) <= TTL)] *)
Definition cache_lookup (E : Env) (st : State) (key : string) : option CacheEntry :=
  match SUGGESTION_CACHE st !! key with
  | Some cached =>
      if Qle_bool (now_ts E - ts cached) (SUGGESTION_CACHE_TTL_SECONDS C)
      then Some cached else None
  | None => None
  end.

(** [float(site_data.get("settings", {}).get("radius_km"))], [None] on any
    exception. *)
Definition radius_of (site_data : pyval) : option Q :=
  try_except
    (settings <- dict_get site_data "settings" (PDict []) ;;
     radius <- dict_get settings "radius_km" PNone ;;
     r <- py_float radius ;;
     Ok (Some r))
    None.

(** The names collected on the cold-start path. A truthy name that is not a
    string would be returned as it is by the source; the suggestion list of
    the model holds strings, and [cold_start_rows_empty] below shows that
    the path is taken only when there is no such row at all. *)
Fixpoint cold_names (items : list pyval) : exc (list string) :=
  match items with
  | [] => Ok []
  | item :: rest =>
      name <- dict_get item "name" PNone ;;
      here <- (if truthy name then (s <- text_of name ;; Ok [s]) else Ok []) ;;
      more <- cold_names rest ;;
      Ok (here ++ more)
  end.

Definition RankResult : Type := (list string * list Card * DebugRet)%type.

Definition set_provider_log (st : State) (log : list ProviderCall) : State :=
  {| SUGGESTION_CACHE := SUGGESTION_CACHE st;
     USER_HISTORY_CACHE := USER_HISTORY_CACHE st;
     POPULAR_QUERIES := POPULAR_QUERIES st;
     query_patterns := query_patterns st;
     successful_suggestions := successful_suggestions st;
     location_patterns := location_patterns st;
     manual_data := manual_data st;
     search_history := search_history st;
     provider_log := log |}.

(** The three updates at the end of a scored run: the user's history cache,
    the popularity counter and the result cache. *)
Definition record_result (st : State) (key query user_id : string)
           (entry : CacheEntry) : State :=
  {| SUGGESTION_CACHE := <[key := entry]> (SUGGESTION_CACHE st);
     USER_HISTORY_CACHE :=
       (if existsb (String.eqb query) (history_of st user_id)
        then <[user_id := history_of st user_id]> (USER_HISTORY_CACHE st)
        else <[user_id := history_of st user_id ++ [query]]>
               (USER_HISTORY_CACHE st));
     POPULAR_QUERIES := bump (lower query) 1 (POPULAR_QUERIES st);
     query_patterns := query_patterns st;
     successful_suggestions := successful_suggestions st;
     location_patterns := location_patterns st;
     manual_data := manual_data st;
     search_history := search_history st;
     provider_log := provider_log st |}.

(** The sorted [scores] of a run that misses the cache and has candidates,
    together with the provider log after the hybrid ranking. *)
Definition pipeline_scores (E : Env) (query : string) (site_data : pyval)
           (user_id : string) (history : list string) (user_lat user_lon : pyval)
           (candidates : list Candidate) (st : State)
  : exc (list Scored) * list ProviderCall :=
  match hybrid_rank query candidates st with
  | (Raise e, log) => (Raise e, log)
  | (Ok ranked, log) =>
      let locs := detect_locations C query in
      let city := head locs in
      let user_prefs := sql_user_preferences C (search_history st) user_id in
      let user_negs :=
        sql_user_negative_preferences C (search_history st) user_id in
      let radius_km := radius_of site_data in
      (blacklist <- get_blacklist (manual_data st) ;;
       whitelist <- get_whitelist (manual_data st) ;;
       scores <-
         score_all
           {| lc_env := E;
              lc_city := city;
              lc_history := history ++ history_of st user_id;
              lc_user_lat := user_lat;
              lc_user_lon := user_lon;
              lc_radius_km := radius_km;
              lc_blacklist := blacklist;
              lc_whitelist := whitelist;
              lc_user_prefs := user_prefs;
              lc_user_negs := user_negs;
              lc_successful := successful_suggestions st |}
           ranked ;;
       Ok (sort_scores scores),
       log)
  end.

Definition rank_candidates (E : Env) (query : string) (site_data : pyval)
           (user_id : string) (history : list string) (user_lat user_lon : pyval)
           (debug : bool) (st : State) : exc RankResult * State :=
  match cache_key query site_data user_id user_lat user_lon with
  | Raise e => (Raise e, st)
  | Ok key =>
      match cache_lookup E st key with
      | Some cached =>
          (Ok (c_suggestions cached, c_cards cached,
               if debug
               then match c_debug cached with
                    | Some d => DbgTrace d
                    | None => DbgNone
                    end
               else DbgTriple (c_suggestions cached) (c_cards cached)),
           st)
      | None =>
          match build_candidates (manual_data st) site_data with
          | Raise e => (Raise e, st)
          | Ok [] =>
              (* Cold-start: return top manual categories/professions *)
              match cold_names (get_manual_data (manual_data st) "category"
                                ++ get_manual_data (manual_data st) "profession")
              with
              | Raise e => (Raise e, st)
              | Ok names =>
                  let cold :=
                    match firstn 5 names with
                    | [] => ["Popular services near you"]
                    | l => l
                    end in
                  (Ok (cold, [],
                       if debug then DbgReason "cold_start"
                       else DbgTriple cold []),
                   st)
              end
          | Ok candidates =>
              match pipeline_scores E query site_data user_id history
                                    user_lat user_lon candidates st with
              | (Raise e, log) => (Raise e, set_provider_log st log)
              | (Ok scores, log) =>
                  let city := head (detect_locations C query) in
                  let intent := detect_intent query in
                  let top := firstn 5 scores in
                  let suggestions :=
                    flat_map
                      (fun x => rewrite_with_intent (text (scored_cand x)) city intent)
                      top in
                  let cards := flat_map card_of top in
                  let final := dedup_limit ∅ [] suggestions in
                  let debug_info :=
                    if debug
                    then Some {| dbg_intent := intent;
                                 dbg_city := city;
                                 top_candidates :=
                                   map debug_candidate (firstn 10 scores) |}
                    else None in
                  (Ok (final, cards,
                       match debug_info with
                       | Some d => DbgTrace d
                       | None => DbgNone
                       end),
                   record_result (set_provider_log st log) key query user_id
                     {| ts := now_ts E;
                        c_suggestions := final;
                        c_cards := cards;
                        c_debug := debug_info |})
              end
          end
      end
  end.

(* ===================================================================== *)
(** ** The [/suggest] endpoint                                            *)
(* ===================================================================== *)

(** What [require_api_key] answers. *)
Inductive Auth : Type :=
| AuthFalse
| AuthRateLimited
| AuthTrue.

(** The decoded request body and the [X-AB-Variant] header. *)
Record Request : Type := mkRequest {
  current_query : string;
  user_id : string;
  user_search_history : list string;
  site_data : pyval;
  user_location : pyval;
  user_latitude : pyval;
  user_longitude : pyval;
  debug : bool;
  ab_variant : option string
}.

Inductive Response : Type :=
| Resp200 (original_query : string) (suggestions : list string)
          (cards : list Card) (uid : string) (dbg : option DebugRet)
| Resp400
| Resp401
| Resp429
| Resp500 (e : pyerr).

(** What [sqlite3] accepts as a parameter: [None], an integer that fits in
    64 signed bits (booleans are integers), a float, a string. *)
Definition sqlite_bind (v : pyval) : exc unit :=
  match v with
  | PNone | PBool _ | PFloat _ | PStr _ => Ok tt
  | PInt z =>
      if ((- 2 ^ 63 <=? z) && (z <? 2 ^ 63))%Z then Ok tt
      else Raise OverflowError
  | PList _ | PDict _ => Raise BindingError
  end.

(** The INSERT followed by the updates of the learning counters. The
    parameters are bound before the row is written: when the location
    cannot be bound, nothing is written and no counter moves. *)
Definition save_search_interaction (E : Env) (uid query : string)
           (suggestions : list string) (location : pyval) (st : State)
  : exc unit * State :=
  if db_write_fails E then (Raise OperationalError, st)
  else
    match sqlite_bind location with
    | Raise e => (Raise e, st)
    | Ok _ =>
        let st1 :=
          {| SUGGESTION_CACHE := SUGGESTION_CACHE st;
             USER_HISTORY_CACHE := USER_HISTORY_CACHE st;
             POPULAR_QUERIES := POPULAR_QUERIES st;
             query_patterns := bump (lower query) 1 (query_patterns st);
             successful_suggestions := successful_suggestions st;
             location_patterns := location_patterns st;
             manual_data := manual_data st;
             search_history :=
               search_history st
               ++ [mkRow uid query suggestions None location 0 None (db_second E)];
             provider_log := provider_log st |} in
        if truthy location then
          match py_lower location with
          | Raise e => (Raise e, st1)
          | Ok l =>
              (Ok tt,
               {| SUGGESTION_CACHE := SUGGESTION_CACHE st1;
                  USER_HISTORY_CACHE := USER_HISTORY_CACHE st1;
                  POPULAR_QUERIES := POPULAR_QUERIES st1;
                  query_patterns := query_patterns st1;
                  successful_suggestions := successful_suggestions st1;
                  location_patterns := bump l 1 (location_patterns st1);
                  manual_data := manual_data st1;
                  search_history := search_history st1;
                  provider_log := provider_log st1 |})
          end
        else (Ok tt, st1)
    end.

(** [WHERE user_id = ? AND query = ?] *)
Definition same_search (uid query : string) (r : Row) : bool :=
  String.eqb (row_user_id r) uid && String.eqb (row_query r) query.

(** [SELECT MAX(timestamp) FROM search_history WHERE user_id = ? AND
    query = ?]; [None] is SQL's NULL over no row. *)
Fixpoint latest_timestamp (uid query : string) (rows : list Row) : option Z :=
  match rows with
  | [] => None
  | r :: rest =>
      if same_search uid query r
      then Some (match latest_timestamp uid query rest with
                 | Some t => Z.max (row_timestamp r) t
                 | None => row_timestamp r
                 end)
      else latest_timestamp uid query rest
  end.

Definition with_variant (variant : string) (r : Row) : Row :=
  mkRow (row_user_id r) (row_query r) (row_suggestions r) (row_selected r)
        (row_location r) (row_success_rating r) (Some variant) (row_timestamp r).

(** The UPDATE that records the A/B variant: it rewrites every row of this
    user and query whose timestamp is the latest one of this user and
    query, so also the rows written earlier within the same second. *)
Definition set_variant_of_latest (variant uid query : string) (rows : list Row)
  : list Row :=
  match latest_timestamp uid query rows with
  | None => rows
  | Some t =>
      map (fun r =>
             if same_search uid query r && Z.eqb (row_timestamp r) t
             then with_variant variant r else r)
          rows
  end.

(** The UPDATE sits in its own [try] whose handler is [pass]: when it
    raises, nothing is recorded and the request goes on. *)
Definition record_variant (update_fails : bool) (variant : option string)
           (uid query : string) (st : State) : State :=
  match variant with
  | Some v =>
      if nonempty v && negb update_fails then
        {| SUGGESTION_CACHE := SUGGESTION_CACHE st;
           USER_HISTORY_CACHE := USER_HISTORY_CACHE st;
           POPULAR_QUERIES := POPULAR_QUERIES st;
           query_patterns := query_patterns st;
           successful_suggestions := successful_suggestions st;
           location_patterns := location_patterns st;
           manual_data := manual_data st;
           search_history :=
             set_variant_of_latest v uid query (search_history st);
           provider_log := provider_log st |}
      else st
  | None => st
  end.

Definition suggest (auth : Auth) (E : Env) (req : Request) (st : State)
  : Response * State :=
  match auth with
  | AuthFalse => (Resp401, st)
  | AuthRateLimited => (Resp429, st)
  | AuthTrue =>
      let query := strip (current_query req) in
      if negb (nonempty query) then (Resp400, st)
      else
        (* try: *)
        match rank_candidates E query (site_data req) (user_id req)
                (user_search_history req) (user_latitude req)
                (user_longitude req) (debug req) st with
        | (Raise e, st1) => (Resp500 e, st1)
        | (Ok (suggestions, cards, debug_info), st1) =>
            (* Save the search interaction for learning *)
            match save_search_interaction E (user_id req) query suggestions
                    (user_location req) st1 with
            | (Raise e, st2) => (Resp500 e, st2)
            | (Ok _, st2) =>
                let st3 :=
                  record_variant (ab_write_fails E) (ab_variant req)
                    (user_id req) query st2 in
                (Resp200 query suggestions cards (user_id req)
                   (if debug req
                    then match debug_info with
                         | DbgNone => None
                         | d => Some d
                         end
                    else None),
                 st3)
            end
        end
  end.

End Service.

(* ===================================================================== *)
(** ** A concrete set of collaborators                                    *)
(* ===================================================================== *)

(** The properties below hold for every [Collab]. To run the service on
    concrete requests one instance is fixed here: rational approximations of
    the math functions (truncated to fifteen decimals), a decimal parser for
    [float], a printer for [json.dumps], word-overlap scores in place of the
    embedding model and of BM25, a three-city gazetteer in place of the NER,
    and the two SQL aggregations without their LIMIT. *)
Module Sample.

Definition truncate (digits : Z) (q : Q) : Q :=
  Qred (Qmake (Qfloor (q * inject_Z (10 ^ digits))) (Z.to_pos (10 ^ digits))).

Definition pi : Q := 3.141592653589793.

Definition approx_radians (x : Q) : Q := truncate 15 (x * pi / 180)%Q.

Definition approx_sin (x : Q) : Q :=
  let x2 := truncate 15 (x * x)%Q in
  truncate 15
    (x * (1 - x2 / 6 * (1 - x2 / 20 * (1 - x2 / 42 * (1 - x2 / 72
     * (1 - x2 / 110))))))%Q.

Definition approx_cos (x : Q) : Q :=
  let x2 := truncate 15 (x * x)%Q in
  truncate 15
    (1 - x2 / 2 * (1 - x2 / 12 * (1 - x2 / 30 * (1 - x2 / 56
     * (1 - x2 / 90)))))%Q.

Definition approx_sqrt (a : Q) : exc Q :=
  if Qle_bool 0 a
  then Ok (Qred (Qmake (Z.sqrt (Qfloor (a * inject_Z (10 ^ 24)))) (Z.to_pos (10 ^ 12))))
  else Raise ValueError.

Definition approx_asin (s : Q) : exc Q :=
  if Qle_bool (-1) s && Qle_bool s 1
  then
    let s2 := truncate 15 (s * s)%Q in
    Ok (truncate 15
          (s * (1 + s2 * (1 / 6 + s2 * (3 / 40 + s2 * (15 / 336
           + s2 * (105 / 3456 + s2 * (945 / 42240)))))))%Q)
  else Raise ValueError.

Definition digit_of (c : ascii) : option Z :=
  let n := nat_of_ascii c in
  if (48 <=? n)%nat && (n <=? 57)%nat then Some (Z.of_nat (n - 48)) else None.

(** Reads the digits at the head of [s]: their value on top of [acc], how
    many there were, and what follows them. *)
Fixpoint digits (s : string) (acc : Z) (count : nat) : Z * nat * string :=
  match s with
  | EmptyString => (acc, count, s)
  | String c s' =>
      match digit_of c with
      | Some d => digits s' (acc * 10 + d)%Z (S count)
      | None => (acc, count, s)
      end
  end.

Definition unsigned_decimal (s : string) : exc Q :=
  match digits s 0 0 with
  | (_, O, _) => Raise ValueError
  | (whole, _, EmptyString) => Ok (inject_Z whole)
  | (whole, _, String "." rest) =>
      match digits rest 0 0 with
      | (frac, k, EmptyString) =>
          Ok (Qred (inject_Z whole + Qmake frac (Z.to_pos (10 ^ Z.of_nat k))))%Q
      | _ => Raise ValueError
      end
  | _ => Raise ValueError
  end.

(** Decimal literals with an optional sign; other spellings that Python
    accepts (exponents, surrounding blanks) are answered with [ValueError]. *)
Definition approx_float_of_str (s : string) : exc Q :=
  match s with
  | String "-" s' => q <- unsigned_decimal s' ;; Ok (Qopp q)
  | _ => unsigned_decimal s
  end.

Definition quote : string := String (ascii_of_nat 34) EmptyString.

Fixpoint approx_json_dumps (v : pyval) : string :=
  match v with
  | PNone => "null"
  | PBool true => "true"
  | PBool false => "false"
  | PInt z => pretty z
  | PFloat q => (pretty (Qnum (Qred q)) ++ "/" ++ pretty (Zpos (Qden (Qred q))))%string
  | PStr s => (quote ++ s ++ quote)%string
  | PList l => ("[" ++ join ", " (map approx_json_dumps l) ++ "]")%string
  | PDict d =>
      ("{" ++ join ", "
                (map (fun kv =>
                        match kv with
                        | (k, x) => (quote ++ k ++ quote ++ ": " ++ approx_json_dumps x)%string
                        end) d)
           ++ "}")%string
  end.

Definition overlap (query txt : string) : Q :=
  if contains (lower txt) (lower query) || contains (lower query) (lower txt)
  then 1%Q else 0%Q.

Definition approx_semantic_scores (query : string) (texts : list string) : exc (list Q) :=
  Ok (map (overlap query) texts).

Definition approx_bm25_scores (query : string) (texts : list string) : exc (list Q) :=
  Ok (map (fun t => if contains (lower t) (lower query) then 1%Q else 0%Q) texts).

Definition approx_detect_locations (txt : string) : list string :=
  List.filter (fun city => contains city txt) ["New York"; "Boston"; "Chicago"].

Definition approx_sql_user_preferences (rows : list Row) (uid : string) : gmap string Z :=
  fold_left
    (fun prefs r =>
       match row_selected r with
       | Some s =>
           if String.eqb (row_user_id r) uid && (3 <? row_success_rating r)%Z
              && nonempty s
           then bump (lower s) (row_success_rating r) prefs
           else prefs
       | None => prefs
       end)
    rows ∅.

Definition approx_sql_user_negative_preferences (rows : list Row) (uid : string)
  : gmap string Z :=
  fold_left
    (fun negs r =>
       match row_selected r with
       | Some s =>
           if String.eqb (row_user_id r) uid && (row_success_rating r <=? 2)%Z
           then bump (lower s) (3 - row_success_rating r) negs
           else negs
       | None => negs
       end)
    rows ∅.

Definition collab : Collab :=
  {| radians := approx_radians;
     sin := approx_sin;
     cos := approx_cos;
     sqrt := approx_sqrt;
     asin := approx_asin;
     float_of_str := approx_float_of_str;
     json_dumps := approx_json_dumps;
     semantic_scores := approx_semantic_scores;
     bm25_scores := approx_bm25_scores;
     detect_locations := approx_detect_locations;
     sql_user_preferences := approx_sql_user_preferences;
     sql_user_negative_preferences := approx_sql_user_negative_preferences;
     SUGGESTION_CACHE_TTL_SECONDS := 300 |}.

(** Monday at noon, 1000 seconds after the epoch, database writable. *)
Definition env : Env :=
  {| now_ts := 1000; weekday := "mon"; hhmm := "12:00"; db_write_fails := false;
     db_second := 1000; ab_write_fails := false |}.

End Sample.

(* ===================================================================== *)
(** ** Vocabulary of the properties                                       *)
(* ===================================================================== *)

(** The deduplication key of a candidate. *)
Definition key (c : Candidate) : string := lower (text c).

(** What the specification asks of a suggestion list. *)
Definition suggestions_ok (l : list string) : Prop :=
  length l <= 5 /\ NoDup (map lower l).

(** Every stored result is a well-formed suggestion list. *)
Definition cache_ok (st : State) : Prop :=
  forall k e, SUGGESTION_CACHE st !! k = Some e -> suggestions_ok (c_suggestions e).

(** The states a running process can be in: it starts with empty globals,
    serves rank requests, and between them anything may happen to the
    database, the history cache and the learning counters.
    [rank_candidates] is the only function that writes [SUGGESTION_CACHE]. *)
Inductive reachable (C : Collab) : State -> Prop :=
| reach_init manual rows : reachable C (init_state manual rows)
| reach_rank st E q site uid hist lat lon dbg r st' :
    reachable C st ->
    rank_candidates C E q site uid hist lat lon dbg st = (r, st') ->
    reachable C st'
| reach_other st st' :
    reachable C st ->
    SUGGESTION_CACHE st' = SUGGESTION_CACHE st ->
    reachable C st'.

(** *** Catalog records with missing fields *)

(** A field is well-typed when it is missing or holds what the builder
    expects of it: a string; a string or anything falsy; a value [float]
    accepts. *)
Definition str_or_missing (d : list (string * pyval)) (k : string) : bool :=
  match assoc k d with
  | None => true
  | Some (PStr _) => true
  | Some _ => false
  end.

Definition str_falsy_or_missing (d : list (string * pyval)) (k : string) : bool :=
  match assoc k d with
  | None => true
  | Some (PStr _) => true
  | Some v => negb (truthy v)
  end.

Definition num_or_missing (C : Collab) (d : list (string * pyval)) (k : string)
  : bool :=
  match assoc k d with
  | None => true
  | Some v => is_ok (py_float C v)
  end.

Definition category_typed (cat : pyval) : bool :=
  match cat with
  | PDict d =>
      str_or_missing d "top_category" && str_or_missing d "sub_category"
      && str_or_missing d "sub_sub_category"
  | _ => false
  end.

Definition member_typed (C : Collab) (mem : pyval) : bool :=
  match mem with
  | PDict d =>
      str_or_missing d "name" && str_falsy_or_missing d "tags"
      && str_or_missing d "location" && str_falsy_or_missing d "reviews"
      && num_or_missing C d "rating" && num_or_missing C d "priority_score"
  | _ => false
  end.

Definition records_typed (d : list (string * pyval)) (k : string)
           (typed : pyval -> bool) : bool :=
  match assoc k d with
  | None => true
  | Some (PList l) => forallb typed l
  | Some _ => false
  end.

Definition site_typed (C : Collab) (site_data : pyval) : bool :=
  match site_data with
  | PDict d =>
      records_typed d "categories" category_typed
      && records_typed d "members" (member_typed C)
  | _ => false
  end.

Definition manual_typed (row : string * pyval) : bool :=
  if existsb (String.eqb (fst row)) ["category"; "profession"; "location"]
  then match snd row with PDict d => str_or_missing d "name" | _ => false end
  else if String.eqb (fst row) "member"
  then match snd row with PDict d => str_falsy_or_missing d "name" | _ => false end
  else true.

(** The value each field takes when it is missing. *)
Definition category_defaults : list (string * pyval) :=
  [("top_category", PStr ""); ("sub_category", PStr "");
   ("sub_sub_category", PStr "")].

Definition member_defaults : list (string * pyval) :=
  [("name", PStr ""); ("tags", PStr ""); ("location", PStr "");
   ("reviews", PStr ""); ("rating", PInt 0); ("featured", PBool false);
   ("priority_score", PInt 0)].

(** [fill defaults record]: the record with every missing field of
    [defaults] written out. *)
Definition set_default (d : list (string * pyval)) (kv : string * pyval)
  : list (string * pyval) :=
  match assoc (fst kv) d with
  | Some _ => d
  | None => d ++ [kv]
  end.

Definition fill (defaults : list (string * pyval)) (record : pyval) : pyval :=
  match record with
  | PDict d => PDict (fold_left set_default defaults d)
  | _ => record
  end.

Definition fill_records (defaults : list (string * pyval)) (v : pyval) : pyval :=
  match v with
  | PList l => PList (map (fill defaults) l)
  | _ => v
  end.

Definition fill_site (site_data : pyval) : pyval :=
  match site_data with
  | PDict d =>
      PDict (map (fun kv =>
                    if String.eqb (fst kv) "categories"
                    then (fst kv, fill_records category_defaults (snd kv))
                    else if String.eqb (fst kv) "members"
                    then (fst kv, fill_records member_defaults (snd kv))
                    else kv) d)
  | _ => site_data
  end.

(** *** The result cache *)

(** The radius setting as the cache key records it (the raw JSON value). *)
Definition radius_setting (site_data : pyval) : exc pyval :=
  settings <- dict_get site_data "settings" (PDict []) ;;
  dict_get settings "radius_km" PNone.

(** A request is answered by the cold-start path when it misses the cache
    and the builder finds no candidate. *)
Definition cold_start (C : Collab) (E : Env) (q : string) (site_data : pyval)
           (uid : string) (lat lon : pyval) (st : State) : Prop :=
  exists k, cache_key C q site_data uid lat lon = Ok k /\
            cache_lookup C E st k = None /\
            build_candidates C (manual_data st) site_data = Ok [].

(** The cache property as the specification words it: any two requests
    that agree on query, user, coordinates and radius (hence on intent),
    the second served within the TTL of the first, get the same lists, and
    the second calls neither scoring collaborator. *)
Definition cache_property_as_stated (C : Collab) : Prop :=
  forall E1 E2 q site1 site2 uid hist1 hist2 lat lon dbg1 dbg2
         st sugs1 cards1 d1 st1 r2 st2,
    reachable C st ->
    radius_setting site2 = radius_setting site1 ->
    rank_candidates C E1 q site1 uid hist1 lat lon dbg1 st
    = (Ok (sugs1, cards1, d1), st1) ->
    (0 <= now_ts E2 - now_ts E1)%Q ->
    (now_ts E2 - now_ts E1 <= SUGGESTION_CACHE_TTL_SECONDS C)%Q ->
    rank_candidates C E2 q site2 uid hist2 lat lon dbg2 st1 = (r2, st2) ->
    (exists d2, r2 = Ok (sugs1, cards1, d2))
    /\ provider_log st2 = provider_log st1.

(** *** Hard filters *)

(** A candidate shows in a response when a card carries its text as title
    or one of the suggestion strings is a rendering of its text. *)
Definition shows_in (C : Collab) (q : string) (cand : Candidate)
           (sugs : list string) (cards : list Card) : Prop :=
  (exists card, In card cards /\ title card = text cand)
  \/ (exists s, In s sugs /\
                In s (rewrite_with_intent (text cand)
                        (head (detect_locations C q)) (detect_intent q))).

(** The same, as a test. *)
Definition shows_inb (C : Collab) (q : string) (cand : Candidate)
           (sugs : list string) (cards : list Card) : bool :=
  existsb (fun card => String.eqb (title card) (text cand)) cards
  || existsb (fun s =>
                existsb (String.eqb s)
                  (rewrite_with_intent (text cand)
                     (head (detect_locations C q)) (detect_intent q)))
             sugs.

(** The database after an administrator has changed the manual data. *)
Definition set_manual_data (st : State) (manual : list (string * pyval)) : State :=
  {| SUGGESTION_CACHE := SUGGESTION_CACHE st;
     USER_HISTORY_CACHE := USER_HISTORY_CACHE st;
     POPULAR_QUERIES := POPULAR_QUERIES st;
     query_patterns := query_patterns st;
     successful_suggestions := successful_suggestions st;
     location_patterns := location_patterns st;
     manual_data := manual;
     search_history := search_history st;
     provider_log := provider_log st |}.

(** The blacklist filter as the specification words it: on every rank
    request, a candidate whose text contains a blacklist term is absent
    from what is returned. *)
Definition blacklist_filter_as_stated (C : Collab) : Prop :=
  forall E q site uid hist lat lon dbg st sugs cards d st' cands cand bl b,
    reachable C st ->
    rank_candidates C E q site uid hist lat lon dbg st = (Ok (sugs, cards, d), st') ->
    build_candidates C (manual_data st) site = Ok cands ->
    In cand cands ->
    get_blacklist (manual_data st) = Ok bl ->
    In b bl ->
    contains b (lower (text cand)) = true ->
    ~ shows_in C q cand sugs cards.

(** The radius filter as the specification words it: whenever the caller
    supplies coordinates and the settings configure a radius, a candidate
    whose distance exceeds the radius is absent from what is returned. *)
Definition radius_filter_as_stated (C : Collab) : Prop :=
  forall E q site uid hist lat lon dbg st sugs cards d st' cands cand r dist,
    reachable C st ->
    is_not_none lat = true ->
    is_not_none lon = true ->
    radius_of C site = Some r ->
    rank_candidates C E q site uid hist lat lon dbg st = (Ok (sugs, cards, d), st') ->
    build_candidates C (manual_data st) site = Ok cands ->
    In cand cands ->
    candidate_distance C lat lon cand = Ok dist ->
    (r < dist)%Q ->
    ~ shows_in C q cand sugs cards.

(** The loop context of a caller who supplies no coordinates. *)
Definition without_coordinates (L : LoopCtx) : LoopCtx :=
  {| lc_env := lc_env L;
     lc_city := lc_city L;
     lc_history := lc_history L;
     lc_user_lat := PNone;
     lc_user_lon := PNone;
     lc_radius_km := lc_radius_km L;
     lc_blacklist := lc_blacklist L;
     lc_whitelist := lc_whitelist L;
     lc_user_prefs := lc_user_prefs L;
     lc_user_negs := lc_user_negs L;
     lc_successful := lc_successful L |}.

(** *** History boost *)

(** How many history terms occur in a text, each counted as often as it is
    listed. *)
Definition history_matches (terms : list string) (txt : string) : nat :=
  length (List.filter (fun h => contains (lower h) (lower txt)) terms).

(** The loop context with another list of history terms. *)
Definition with_history (L : LoopCtx) (terms : list string) : LoopCtx :=
  {| lc_env := lc_env L;
     lc_city := lc_city L;
     lc_history := terms;
     lc_user_lat := lc_user_lat L;
     lc_user_lon := lc_user_lon L;
     lc_radius_km := lc_radius_km L;
     lc_blacklist := lc_blacklist L;
     lc_whitelist := lc_whitelist L;
     lc_user_prefs := lc_user_prefs L;
     lc_user_negs := lc_user_negs L;
     lc_successful := lc_successful L |}.

(** The history boost as the specification words it: 0.10 as soon as one
    term matches, however many do. *)
Definition history_boost_as_stated : Prop :=
  forall terms txt,
    (exists h, In h terms /\ contains (lower h) (lower txt) = true) ->
    (history_boost terms txt 0 == 0.10)%Q.

(** *** Whitelist *)

(** The manual rows other than whitelist terms. *)
Definition non_whitelist (manual : list (string * pyval)) : list (string * pyval) :=
  List.filter (fun r => negb (String.eqb (fst r) "whitelist")) manual.

(** Independence from the whitelist as the specification words it: two
    runs of the ranking pipeline that differ only in the whitelist rows of
    the manual data produce the same output. *)
Definition whitelist_independence_as_stated (C : Collab) : Prop :=
  forall E q site uid hist lat lon dbg st md1 md2,
    reachable C st ->
    non_whitelist md1 = non_whitelist md2 ->
    fst (rank_candidates C E q site uid hist lat lon dbg (set_manual_data st md1))
    = fst (rank_candidates C E q site uid hist lat lon dbg (set_manual_data st md2)).

(* ===================================================================== *)
(** ** API keys and rate limiting                                         *)
(* ===================================================================== *)

(** [set([k.strip() for k in os.environ.get("API_KEYS", "demo-key").split(",")
          if k.strip()])], as a list. *)
Definition parse_api_keys (env : string) : list string :=
  List.filter nonempty (map strip (split ","%char env)).

(** One entry of [_rate_limit_state]: the minute the window started in and
    the number of requests counted in it. *)
Record RateEntry : Type := mkRate {
  rl_window : Z;
  rl_count : Z
}.

(** [require_api_key()]: [key] is the [X-API-Key] header, [window] the
    current time truncated to the minute. The counter of a key is
    incremented on every request with that key, also on those that are
    answered ["rate_limited"]. *)
Definition require_api_key (API_KEYS : list string) (RATE_LIMIT_PER_MINUTE : Z)
           (key : option string) (window : Z) (rl : gmap string RateEntry)
  : Auth * gmap string RateEntry :=
  match key with
  | None => (AuthFalse, rl)
  | Some k =>
      if negb (nonempty k) || negb (existsb (String.eqb k) API_KEYS)
      then (AuthFalse, rl)
      else
        let entry :=
          match rl !! k with
          | Some state =>
              if negb (Z.eqb (rl_window state) window)
              then mkRate window 1
              else mkRate window (rl_count state + 1)
          | None => mkRate window 1
          end in
        (if (RATE_LIMIT_PER_MINUTE <? rl_count entry)%Z
         then AuthRateLimited else AuthTrue,
         <[k := entry]> rl)
  end.

(** [n] requests in a row with the same header in the same minute: the
    answers, first to last, and the limiter state after the last. *)
Fixpoint requests (API_KEYS : list string) (RATE_LIMIT_PER_MINUTE : Z)
         (key : option string) (window : Z) (n : nat)
         (rl : gmap string RateEntry) : list Auth * gmap string RateEntry :=
  match n with
  | O => ([], rl)
  | S n' =>
      let (a, rl1) := require_api_key API_KEYS RATE_LIMIT_PER_MINUTE key window rl in
      let (answers, rl2) :=
        requests API_KEYS RATE_LIMIT_PER_MINUTE key window n' rl1 in
      (a :: answers, rl2)
  end.

(* ===================================================================== *)
(** ** Tokenizer and generic rewriting                                    *)
(* ===================================================================== *)

Definition is_letter (c : ascii) : bool :=
  let n := nat_of_ascii c in
  ((65 <=? n)%nat && (n <=? 90)%nat) || ((97 <=? n)%nat && (n <=? 122)%nat).

(** The class [[a-zA-Z-']]. *)
Definition is_word_char (c : ascii) : bool :=
  is_letter c || Ascii.eqb c "-"%char || Ascii.eqb c "'"%char.

(** What a finished run contributes to [findall]: the pattern asks for one
    letter followed by at least one character of the class. *)
Definition emit_word (cur : option string) : list string :=
  match cur with
  | Some w => if (2 <=? String.length w)%nat then [w] else []
  | None => []
  end.

(** [_word_re.findall(s)] for [_word_re = [a-zA-Z][a-zA-Z-']+], as one
    pass from left to right: a match starts at a letter, extends greedily
    over the class, and the search resumes after it; a letter followed by a
    character outside the class starts no match, and neither does that
    character. [cur] is the run being read. *)
Fixpoint findall_words (cur : option string) (s : string) : list string :=
  match s with
  | EmptyString => emit_word cur
  | String c s' =>
      match cur with
      | None =>
          if is_letter c then findall_words (Some (String c EmptyString)) s'
          else findall_words None s'
      | Some w =>
          if is_word_char c
          then findall_words (Some (w ++ String c EmptyString)%string) s'
          else emit_word cur ++ findall_words None s'
      end
  end.

(** [[w.lower() for w in _word_re.findall(text or "")]] *)
Definition tokenize (text : string) : list string :=
  map lower (findall_words None text).

(** [rewrite_suggestion(base, city)] *)
Definition rewrite_suggestion (base : string) (city : option string) : list string :=
  map (fun tpl => format tpl base (city_or_placeholder city)) TEMPLATES.

(* ===================================================================== *)
(** ** Manual data endpoints                                              *)
(* ===================================================================== *)

(** [add_manual_data(data_type, data_content, added_by)]: the INSERT of an
    active row. [db_ok] tells whether the database accepts the write. The
    content is stored as [json.dumps] writes it and read back with
    [json.loads], which returns the JSON value that was written. *)
Definition add_manual_data (db_ok : bool) (data_type : string) (content : pyval)
           (manual : list (string * pyval))
  : exc unit * list (string * pyval) :=
  if db_ok then (Ok tt, manual ++ [(data_type, content)])
  else (Raise OperationalError, manual).

(** What the two write endpoints answer. *)
Inductive AdminResponse : Type :=
| Unauthorized401
| TooManyRequests429
| FieldsRequired400
| InvalidType400
| DataAdded (data_type : string)
| BatchOk (imported failed : nat)
| ServerError500 (e : pyerr).

Definition valid_types : list string :=
  ["category"; "member"; "profession"; "location"; "synonym"; "blacklist";
   "whitelist"].

(** [POST /data]. The fields are read before the [try]: an exception there
    leaves the view function ([Raise]). *)
Definition add_data (auth : Auth) (db_ok : bool) (data : pyval) (st : State)
  : exc AdminResponse * State :=
  match auth with
  | AuthFalse => (Ok Unauthorized401, st)
  | AuthRateLimited => (Ok TooManyRequests429, st)
  | AuthTrue =>
      match (tv <- dict_get data "type" (PStr "") ;;
             data_type <- py_strip tv ;;
             content <- dict_get data "content" (PDict []) ;;
             Ok (data_type, content)) with
      | Raise e => (Raise e, st)
      | Ok (data_type, content) =>
          if negb (nonempty data_type) || negb (truthy content)
          then (Ok FieldsRequired400, st)
          else if negb (existsb (String.eqb data_type) valid_types)
          then (Ok InvalidType400, st)
          else
            (* try: *)
            match add_manual_data db_ok data_type content (manual_data st) with
            | (Ok _, manual) => (Ok (DataAdded data_type), set_manual_data st manual)
            | (Raise e, manual) => (Ok (ServerError500 e), set_manual_data st manual)
            end
      end
  end.

(** The types [POST /batch_import] accepts. *)
Definition batch_types : list string :=
  ["category"; "member"; "profession"; "location"].

(** The body of the loop of [batch_import], inside its [try]: [true] counts
    as imported, [false] as failed. *)
Definition import_item (db_ok : bool) (it : pyval) (manual : list (string * pyval))
  : bool * list (string * pyval) :=
  match (tv <- dict_get it "type" PNone ;;
         t <- py_strip (py_or tv (PStr "")) ;;
         c <- dict_get it "content" (PDict []) ;;
         Ok (t, c)) with
  | Raise _ => (false, manual)
  | Ok (t, c) =>
      if negb (existsb (String.eqb t) batch_types) || negb (truthy c)
      then (false, manual)
      else
        match add_manual_data db_ok t c manual with
        | (Ok _, manual') => (true, manual')
        | (Raise _, manual') => (false, manual')
        end
  end.

(** [for it in items]; [db_ok i] tells whether the database accepts the
    write made for the item at position [i]. *)
Fixpoint import_items (db_ok : nat -> bool) (i : nat) (items : list pyval)
         (success failed : nat) (manual : list (string * pyval))
  : nat * nat * list (string * pyval) :=
  match items with
  | [] => (success, failed, manual)
  | it :: rest =>
      match import_item (db_ok i) it manual with
      | (true, manual') =>
          import_items db_ok (S i) rest (S success) failed manual'
      | (false, manual') =>
          import_items db_ok (S i) rest success (S failed) manual'
      end
  end.

(** [POST /batch_import] *)
Definition batch_import (auth : Auth) (db_ok : nat -> bool) (data : pyval)
           (st : State) : exc AdminResponse * State :=
  match auth with
  | AuthFalse => (Ok Unauthorized401, st)
  | AuthRateLimited => (Ok TooManyRequests429, st)
  | AuthTrue =>
      match dict_get data "items" (PList []) with
      | Raise e => (Raise e, st)
      | Ok (PList (it :: its)) =>
          match import_items db_ok 0 (it :: its) 0 0 (manual_data st) with
          | (success, failed, manual) =>
              (Ok (BatchOk success failed), set_manual_data st manual)
          end
      | Ok _ => (Ok FieldsRequired400, st)
      end
  end.

(* ===================================================================== *)
(** ** Vocabulary of the further properties                               *)
(* ===================================================================== *)



(** An opening interval as the JSON of a member's [hours] carries it. *)
Definition interval_of (p : string * string) : pyval :=
  PList [PStr (fst p); PStr (snd p)].

(** [start <= current <= end] *)
Definition within (current : string) (p : string * string) : bool :=
  String.leb (fst p) current && String.leb current (snd p).

(** The requests already counted for a key in the minute [window]. *)
Definition counted (rl : gmap string RateEntry) (k : string) (window : Z) : Z :=
  match rl !! k with
  | Some state => if Z.eqb (rl_window state) window then rl_count state else 0%Z
  | None => 0%Z
  end.

(** The answer to the request that brings the count of its key to [n]. *)
Definition answer_at (limit n : Z) : Auth :=
  if (limit <? n)%Z then AuthRateLimited else AuthTrue.

(** A letter followed by characters of the class [[a-zA-Z-']]. *)
Definition is_word (w : string) : bool :=
  match w with
  | String c r => is_letter c && forallb is_word_char (list_ascii_of_string r)
  | EmptyString => false
  end.





(** Every stored result carries at most five cards. *)
Definition cards_ok (st : State) : Prop :=
  forall k e, SUGGESTION_CACHE st !! k = Some e -> length (c_cards e) <= 5.

(** The candidate types that can be shown as a member card. *)
Definition card_types : list string := ["member"; "tag"; "review"].

(** The candidate types of manual rows that are emitted whether or not the
    row has a name. *)
Definition unnamed_types : list string :=
  ["manual_category"; "manual_profession"; "manual_location"].

(** The ten candidate types the builder emits. *)
Definition candidate_types : list string :=
  ["category"; "subcategory"; "subsubcategory"; "member"; "tag"; "review";
   "manual_category"; "manual_member"; "manual_profession"; "manual_location"].

(** What the builder guarantees of a candidate: a known type, and a text
    that is empty only for a manual row emitted without a name. *)
Definition well_formed_candidate (c : Candidate) : Prop :=
  In (type c) candidate_types /\ (text c = "" -> In (type c) unnamed_types).

(* ===================================================================== *)
(** ** Concrete requests                                                  *)
(* ===================================================================== *)

(** The requests and catalogs on which the properties are run, served by
    the [Sample] collaborators. *)
Module Scenario.

Definition start : State := init_state [] [].

(** A caller in lower Manhattan. *)
Definition nyc_lat : pyval := PFloat 40.7128.
Definition nyc_lon : pyval := PFloat (-74.0060).

Definition mike (latitude longitude : Q) : pyval :=
  PDict [("id", PInt 1); ("name", PStr "Mike's Plumbing");
         ("tags", PStr "plumber, drain cleaning"); ("rating", PFloat 4.7);
         ("location", PStr "New York, NY");
         ("latitude", PFloat latitude); ("longitude", PFloat longitude);
         ("profile_url", PStr "https://example.com/m/1")].

Definition catalog (members : list pyval) : pyval :=
  PDict [("settings", PDict [("radius_km", PInt 50)]);
         ("members", PList members)].

(** The member a few blocks from the caller, and the same member after a
    move to Los Angeles. *)
Definition catalog_near : pyval := catalog [mike 40.713 (-74.005)].
Definition catalog_far : pyval := catalog [mike 34.05 (-118.24)].

Definition far_candidates : list Candidate :=
  try_except (build_candidates Sample.collab [] catalog_far) [].

Definition far_mike : Candidate :=
  hd (mkCand "" "" []) far_candidates.

Definition far_distance : Q :=
  try_except (candidate_distance Sample.collab nyc_lat nyc_lon far_mike) 0%Q.

Definition near_mike : Candidate :=
  hd (mkCand "" "" [])
     (try_except (build_candidates Sample.collab [] catalog_near) []).

Definition near_distance : Q :=
  try_except (candidate_distance Sample.collab nyc_lat nyc_lon near_mike) 0%Q.

(** A caller on the equator and a member 84 degrees of longitude away. *)
Definition equator_lat : pyval := PFloat 0.
Definition equator_lon : pyval := PFloat (-74.0060).
Definition catalog_equator : pyval := catalog [mike 0 10].

Definition equator_mike : Candidate :=
  hd (mkCand "" "" [])
     (try_except (build_candidates Sample.collab [] catalog_equator) []).

(** The loop context of the Manhattan caller. *)
Definition nyc_ctx : LoopCtx :=
  {| lc_env := Sample.env;
     lc_city := None;
     lc_history := ["plumb"; "plumbing"; "dentist"];
     lc_user_lat := nyc_lat;
     lc_user_lon := nyc_lon;
     lc_radius_km := Some 50%Q;
     lc_blacklist := [];
     lc_whitelist := [];
     lc_user_prefs := ∅;
     lc_user_negs := ∅;
     lc_successful := ∅ |}.

(** An empty catalog, and one with a single category. *)
Definition catalog_empty : pyval := PDict [].
Definition catalog_plumbers : pyval :=
  PDict [("categories", PList [PDict [("top_category", PStr "Plumbers")]])].

(** A category that an administrator blacklists later on. *)
Definition catalog_spam : pyval :=
  PDict [("categories", PList [PDict [("top_category", PStr "Spam Cleaners")]])].
Definition blacklist_spam : list (string * pyval) :=
  [("blacklist", PDict [("term", PStr "spam")])].
Definition spam_candidate : Candidate := mkCand "Spam Cleaners" "category" [].

(** Two members, the first with a null name; and the second alone. *)
Definition catalog_null_name : pyval :=
  PDict [("members", PList [PDict [("name", PNone)];
                            PDict [("name", PStr "Anna's Bakery")]])].
Definition catalog_anna : pyval :=
  PDict [("members", PList [PDict [("name", PStr "Anna's Bakery")]])].

(** Records with missing fields only. *)
Definition catalog_sparse : pyval :=
  PDict [("categories", PList [PDict [("top_category", PStr "Plumbers")];
                               PDict [("sub_category", PStr "Drains")]]);
         ("members", PList [PDict [("name", PStr "Anna's Bakery")];
                            PDict [("tags", PStr "bread, cakes")]])].

(** The same text from three sources, in three spellings. *)
Definition catalog_duplicates : pyval :=
  PDict [("categories", PList [PDict [("top_category", PStr "Plumber")]]);
         ("members", PList [PDict [("name", PStr "plumber");
                                   ("tags", PStr "PLUMBER, drains")]])].
Definition manual_duplicates : list (string * pyval) :=
  [("category", PDict [("name", PStr "Drains")])].

(** Two whitelists. *)
Definition whitelist_a : list (string * pyval) :=
  [("whitelist", PDict [("term", PStr "plumber")])].
Definition whitelist_b : list (string * pyval) :=
  [("whitelist", PDict [("term", PStr "dentist")]);
   ("whitelist", PDict [("term", PStr "bakery")])].

(** A whitelist row whose term is a number, as the admin endpoint stores
    it when the body carries [{"term": 5}]. *)
Definition whitelist_number : list (string * pyval) :=
  [("whitelist", PDict [("term", PInt 5)])].

(** The interaction log cannot be written. *)
Definition env_log_down : Env :=
  {| now_ts := 1000; weekday := "mon"; hhmm := "12:00"; db_write_fails := true;
     db_second := 1000; ab_write_fails := false |}.

Definition request_plumber : Request :=
  {| current_query := "plumber near me";
     user_id := "u1";
     user_search_history := ["plumber"];
     site_data := catalog_near;
     user_location := PStr "New York";
     user_latitude := nyc_lat;
     user_longitude := nyc_lon;
     debug := false;
     ab_variant := None |}.

(** The first request of the Manhattan caller on a fresh process. *)
Definition first_run : exc RankResult * State :=
  rank_candidates Sample.collab Sample.env "plumber near me" catalog_near "u1"
    ["plumber"] nyc_lat nyc_lon false start.

(** A catalog in which one of two categories is blacklisted from the
    start. *)
Definition catalog_two : pyval :=
  PDict [("categories", PList [PDict [("top_category", PStr "Spam Cleaners")];
                               PDict [("top_category", PStr "Plumbers")]])].

Definition duplicates_out : list Candidate :=
  try_except (build_candidates Sample.collab manual_duplicates catalog_duplicates) [].

(** A request for a category that is blacklisted only afterwards. *)
Definition spam_run : exc RankResult * State :=
  rank_candidates Sample.collab Sample.env "cleaners" catalog_spam "u1"
    [] PNone PNone false start.

Definition spam_state : State := set_manual_data (snd spam_run) blacklist_spam.

(** The same request on a process that starts with the blacklist. *)
Definition two_run : exc RankResult * State :=
  rank_candidates Sample.collab Sample.env "cleaners" catalog_two "u1"
    [] PNone PNone false (init_state blacklist_spam []).

(** A second member, in Los Angeles, next to the one in Manhattan. *)
Definition lara : pyval :=
  PDict [("id", PInt 2); ("name", PStr "Lara's Plumbing");
         ("rating", PFloat 4.9); ("location", PStr "Los Angeles, CA");
         ("latitude", PFloat 34.05); ("longitude", PFloat (-118.24));
         ("profile_url", PStr "https://example.com/m/2")].

Definition catalog_both : pyval := catalog [mike 40.713 (-74.005); lara].

Definition both_candidates : list Candidate :=
  try_except (build_candidates Sample.collab [] catalog_both) [].

Definition lara_candidate : Candidate :=
  List.last both_candidates (mkCand "" "" []).

Definition lara_distance : Q :=
  try_except (candidate_distance Sample.collab nyc_lat nyc_lon lara_candidate) 0%Q.

Definition both_run : exc RankResult * State :=
  rank_candidates Sample.collab Sample.env "plumber near me" catalog_both "u1"
    ["plumber"] nyc_lat nyc_lon false start.

(** The Manhattan member scored with and without the caller's
    coordinates, on a base score of one half. *)
Definition near_scored : Scored :=
  match score_candidate Sample.collab nyc_ctx near_mike 0.5%Q with
  | Ok (Some x) => x
  | _ => (near_mike, 0%Q, None)
  end.

Definition near_blind : Scored :=
  match score_candidate Sample.collab (without_coordinates nyc_ctx) near_mike 0.5%Q with
  | Ok (Some x) => x
  | _ => (near_mike, 0%Q, None)
  end.

(** The same request under two whitelists. *)
Definition run_whitelist_a : exc RankResult * State :=
  rank_candidates Sample.collab Sample.env "plumber near me" catalog_near "u1"
    ["plumber"] nyc_lat nyc_lon true (set_manual_data start whitelist_a).

Definition run_whitelist_b : exc RankResult * State :=
  rank_candidates Sample.collab Sample.env "plumber near me" catalog_near "u1"
    ["plumber"] nyc_lat nyc_lon true (set_manual_data start whitelist_b).

Definition run_whitelist_number : exc RankResult * State :=
  rank_candidates Sample.collab Sample.env "plumber near me" catalog_near "u1"
    ["plumber"] nyc_lat nyc_lon true (set_manual_data start whitelist_number).

(** Rows of the quality lists, some of them without a usable term or
    base. *)
Definition manual_quality : list (string * pyval) :=
  [("blacklist", PDict [("term", PStr "Spam")]);
   ("blacklist", PDict []);
   ("blacklist", PDict [("term", PStr "")]);
   ("whitelist", PDict [("term", PStr "Plumber")]);
   ("synonym", PDict [("base", PStr "Plumber");
                      ("terms", PList [PStr "Pipe fitter"])]);
   ("synonym", PDict [("base", PStr ""); ("terms", PList [PStr "anything"])]);
   ("synonym", PDict [("base", PStr "plumber");
                      ("terms", PList [PStr "Drain"])])].

(** A location string with four of the five keywords. *)
Definition location_nearby : pyval := PStr "Nearby, close to the local market".

(** A member open on Monday morning and on Monday afternoon. *)
Definition monday_hours : list (string * pyval) :=
  [("mon", PList (map interval_of [("08:00", "11:30"); ("12:00", "18:00")]));
   ("tue", PList [])].

(** Bodies of the two write endpoints. *)
Definition body_blacklist : pyval :=
  PDict [("type", PStr " blacklist ");
         ("content", PDict [("term", PStr "Spam")])].

Definition body_batch : pyval :=
  PDict [("items",
          PList [PDict [("type", PStr "category");
                        ("content", PDict [("name", PStr "Roofers")])];
                 PDict [("type", PStr "blacklist");
                        ("content", PDict [("term", PStr "roof")])];
                 PInt 5;
                 PDict [("type", PStr "member"); ("content", PDict [])];
                 PDict [("type", PStr " location ");
                        ("content", PDict [("name", PStr "Queens")])]])].

(** A request over a catalog whose first member has a null name. *)
Definition request_null_name : Request :=
  {| current_query := " plumber ";
     user_id := "u1";
     user_search_history := [];
     site_data := catalog_null_name;
     user_location := PStr "";
     user_latitude := PNone;
     user_longitude := PNone;
     debug := false;
     ab_variant := None |}.




(** Seventeen minutes after [Sample.env]. *)
Definition env_later : Env :=
  {| now_ts := 2020; weekday := "mon"; hhmm := "12:17"; db_write_fails := false;
     db_second := 2020; ab_write_fails := false |}.

Definition near_candidates : list Candidate :=
  try_except (build_candidates Sample.collab [] catalog_near) [].

(** The request of the Manhattan caller with the ZIP code, a number, as
    location. *)
Definition request_zip : Request :=
  {| current_query := "plumber near me";
     user_id := "u1";
     user_search_history := ["plumber"];
     site_data := catalog_near;
     user_location := PInt 10001;
     user_latitude := nyc_lat;
     user_longitude := nyc_lon;
     debug := false;
     ab_variant := None |}.


End Scenario.


(* ===================================================================== *)
(** ** Basic facts                                                        *)
(* ===================================================================== *)

Lemma bind_Ok {A B : Type} (m : exc A) (k : A -> exc B) (b : B) :
  (x <- m ;; k x) = Ok b -> exists a, m = Ok a /\ k a = Ok b.
Proof. destruct m as [a|e]; simpl; intros H; [eauto | discriminate]. Qed.

Lemma mapM_Ok_Forall2 {A B : Type} (f : A -> exc B) (l : list A) (ys : list B) :
  mapM f l = Ok ys <-> Forall2 (fun x y => f x = Ok y) l ys.
Proof.
  revert ys. induction l as [|x l IH]; intros ys; simpl.
  - split.
    + intros H. injection H as <-. constructor.
    + intros H. inversion H. reflexivity.
  - split.
    + destruct (f x) as [y|e] eqn:Hx; [|discriminate].
      destruct (mapM f l) as [ys'|e] eqn:Hl; [|discriminate].
      intros H. injection H as <-. constructor; [exact Hx|]. now apply IH.
    + intros H. inversion H as [|x0 y l0 ys' Hx Hl]; subst.
      rewrite Hx. apply IH in Hl. now rewrite Hl.
Qed.

Section Properties.

Variable C : Collab.

(* ===================================================================== *)
(** ** The candidate builder: deduplication                               *)
(* ===================================================================== *)

Lemma dedup_from_not_seen seen l c :
  In c (dedup_from seen l) -> key c ∉ seen.
Proof.
  revert seen. induction l as [|x l IH]; intros seen; simpl; [tauto|].
  case_bool_decide as Hx.
  - apply IH.
  - intros [<- | Hin]; [exact Hx|].
    apply IH in Hin. intros Hs. apply Hin, elem_of_union. now right.
Qed.

Lemma dedup_from_NoDup seen l : NoDup (map key (dedup_from seen l)).
Proof.
  revert seen. induction l as [|x l IH]; intros seen; simpl.
  - constructor.
  - case_bool_decide as Hx; [apply IH|].
    simpl. apply NoDup_cons_2; [|apply IH].
    rewrite list_elem_of_In, in_map_iff. intros (c & Hk & Hin).
    apply dedup_from_not_seen in Hin. apply Hin, elem_of_union. left.
    apply elem_of_singleton. exact Hk.
Qed.

Lemma dedup_from_sublist seen l : sublist (dedup_from seen l) l.
Proof.
  revert seen. induction l as [|x l IH]; intros seen; simpl.
  - constructor.
  - case_bool_decide; [apply sublist_cons | apply sublist_skip]; apply IH.
Qed.

(** The candidates kept are exactly the first occurrences of their key. *)
Lemma dedup_from_In seen l c :
  In c (dedup_from seen l) <->
  exists pre post, l = pre ++ c :: post /\ (key c ∉ seen) /\
                   forall c', In c' pre -> key c' <> key c.
Proof.
  revert seen. induction l as [|x l IH]; intros seen; simpl.
  - split; [tauto|]. intros (pre & post & H & _). destruct pre; discriminate.
  - case_bool_decide as Hx.
    + rewrite IH. split.
      * intros (pre & post & -> & Hc & Hpre). exists (x :: pre), post.
        split; [reflexivity|]. split; [exact Hc|].
        intros c' [<- | Hin]; [|auto]. intros Heq. unfold key in *. congruence.
      * intros (pre & post & Hl & Hc & Hpre). destruct pre as [|y pre].
        -- simpl in Hl. injection Hl as -> ->. contradiction.
        -- simpl in Hl. injection Hl as -> ->. exists pre, post.
           split; [reflexivity|]. split; [exact Hc|]. intros c' Hin.
           apply Hpre. now right.
    + simpl. rewrite IH. split.
      * intros [<- | (pre & post & -> & Hc & Hpre)].
        -- exists [], l. split; [reflexivity|]. split; [exact Hx|]. intros c' [].
        -- rewrite not_elem_of_union, not_elem_of_singleton in Hc.
           destruct Hc as [Hne Hc].
           exists (x :: pre), post. split; [reflexivity|].
           split; [exact Hc|]. intros c' [<- | Hin]; [|auto].
           unfold key in *. congruence.
      * intros (pre & post & Hl & Hc & Hpre). destruct pre as [|y pre].
        -- simpl in Hl. injection Hl as -> ->. now left.
        -- simpl in Hl. injection Hl as -> ->. right. exists pre, post.
           split; [reflexivity|]. split.
           ++ assert (key y <> key c) by (apply Hpre; now left).
              rewrite not_elem_of_union, not_elem_of_singleton.
              unfold key in *. split; [congruence | exact Hc].
           ++ intros c' Hin. apply Hpre. now right.
Qed.

(** C7. Whenever the builder returns, no two of its candidates have the
    same lowercased text; the result is a subsequence of the emission
    order (categories, then members with their tags and reviews, then
    manual data), and a candidate is kept exactly when no earlier emitted
    candidate has the same lowercased text: the first occurrence wins. *)
Theorem build_candidates_unique_first_wins manual site_data out :
  build_candidates C manual site_data = Ok out ->
  NoDup (map (fun c => lower (text c)) out) /\
  exists cats mems mans,
    category_part site_data = Ok cats /\
    member_part C site_data = Ok mems /\
    manual_part manual = Ok mans /\
    sublist out (cats ++ mems ++ mans) /\
    forall c, In c out <->
              exists pre post,
                cats ++ mems ++ mans = pre ++ c :: post /\
                forall c', In c' pre -> lower (text c') <> lower (text c).
Proof.
  unfold build_candidates, emit_candidates. intros H.
  apply bind_Ok in H as (emitted & He & Hout).
  apply bind_Ok in He as (cats & Hcats & He).
  apply bind_Ok in He as (mems & Hmems & He).
  apply bind_Ok in He as (mans & Hmans & He).
  injection He as <-. injection Hout as <-.
  split; [apply (dedup_from_NoDup ∅)|].
  exists cats, mems, mans. repeat split; try assumption.
  - apply dedup_from_sublist.
  - intros Hin. apply dedup_from_In in Hin as (pre & post & Hl & _ & Hpre).
    exists pre, post. split; [exact Hl | exact Hpre].
  - intros (pre & post & Hl & Hpre). apply dedup_from_In.
    exists pre, post. split; [exact Hl|]. split; [apply not_elem_of_empty | exact Hpre].
Qed.

(* ===================================================================== *)
(** ** The candidate builder: missing and malformed fields                *)
(* ===================================================================== *)

Lemma assoc_app {A : Type} k (d d' : list (string * A)) :
  assoc k (d ++ d') =
  match assoc k d with Some v => Some v | None => assoc k d' end.
Proof.
  induction d as [|[k' v] d IH]; simpl; [reflexivity|].
  destruct (String.eqb k k'); [reflexivity | exact IH].
Qed.

Lemma assoc_set_default k d kv :
  assoc k (set_default d kv) =
  match assoc k d with
  | Some v => Some v
  | None => if String.eqb k (fst kv) then Some (snd kv) else None
  end.
Proof.
  unfold set_default. destruct kv as [k' v']. simpl.
  destruct (assoc k' d) as [x|] eqn:Hk'.
  - destruct (assoc k d) eqn:Hk; [reflexivity|].
    destruct (String.eqb k k') eqn:He; [|reflexivity].
    apply String.eqb_eq in He. subst k'. congruence.
  - rewrite assoc_app. simpl. destruct (assoc k d); reflexivity.
Qed.

Lemma assoc_fill k defaults d :
  assoc k (fold_left set_default defaults d) =
  match assoc k d with Some v => Some v | None => assoc k defaults end.
Proof.
  revert d. induction defaults as [|[k' v'] defaults IH]; intros d; simpl.
  - destruct (assoc k d); reflexivity.
  - rewrite IH, assoc_set_default. simpl.
    destruct (assoc k d); [reflexivity|].
    destruct (String.eqb k k'); reflexivity.
Qed.

(** Reading a field of a filled record: the record's own value, else the
    default written into it, else the default of the call. *)
Lemma get_fill k defaults d dflt :
  match assoc k (fold_left set_default defaults d) with
  | Some x => x
  | None => dflt
  end =
  match assoc k d with
  | Some x => x
  | None => match assoc k defaults with Some x => x | None => dflt end
  end.
Proof. rewrite assoc_fill. destruct (assoc k d); reflexivity. Qed.

Lemma category_candidates_fill cat :
  category_candidates (fill category_defaults cat) = category_candidates cat.
Proof.
  destruct cat as [| | | | | |d]; try reflexivity.
  unfold category_candidates, fill. cbn [dict_get bind].
  rewrite !get_fill. reflexivity.
Qed.

Lemma member_candidates_fill mem :
  member_candidates C (fill member_defaults mem) = member_candidates C mem.
Proof.
  destruct mem as [| | | | | |d]; try reflexivity.
  unfold member_candidates, fill. cbn [dict_get bind].
  rewrite !get_fill.
  change (assoc "tags" member_defaults) with (Some (PStr "")).
  destruct (assoc "tags" d); reflexivity.
Qed.

Lemma mapM_map_ext {A B : Type} (f : A -> exc B) (g : A -> A) l :
  (forall x, f (g x) = f x) -> mapM f (map g l) = mapM f l.
Proof.
  intros H. induction l as [|x l IH]; simpl; [reflexivity|].
  now rewrite H, IH.
Qed.

Lemma assoc_fill_site k d :
  assoc k (map (fun kv =>
                  if String.eqb (fst kv) "categories"
                  then (fst kv, fill_records category_defaults (snd kv))
                  else if String.eqb (fst kv) "members"
                  then (fst kv, fill_records member_defaults (snd kv))
                  else kv) d) =
  option_map (fun v =>
                if String.eqb k "categories" then fill_records category_defaults v
                else if String.eqb k "members" then fill_records member_defaults v
                else v) (assoc k d).
Proof.
  induction d as [|[k' v] d IH]; simpl; [reflexivity|].
  destruct (String.eqb k' "categories") eqn:Hc; simpl.
  - destruct (String.eqb k k') eqn:He; [|exact IH].
    apply String.eqb_eq in He. subst k'. now rewrite Hc.
  - destruct (String.eqb k' "members") eqn:Hm; simpl.
    + destruct (String.eqb k k') eqn:He; [|exact IH].
      apply String.eqb_eq in He. subst k'. now rewrite Hc, Hm.
    + destruct (String.eqb k k') eqn:He; [|exact IH].
      apply String.eqb_eq in He. subst k'. now rewrite Hc, Hm.
Qed.

Lemma category_part_fill site : category_part (fill_site site) = category_part site.
Proof.
  destruct site as [| | | | | |d]; try reflexivity.
  unfold category_part, fill_site. cbn [dict_get bind].
  rewrite assoc_fill_site. destruct (assoc "categories" d) as [v|]; [|reflexivity].
  cbn [option_map String.eqb Ascii.eqb Bool.eqb].
  destruct v; try reflexivity. cbn [fill_records py_iter bind].
  now rewrite (mapM_map_ext _ _ _ category_candidates_fill).
Qed.

Lemma member_part_fill site : member_part C (fill_site site) = member_part C site.
Proof.
  destruct site as [| | | | | |d]; try reflexivity.
  unfold member_part, fill_site. cbn [dict_get bind].
  rewrite assoc_fill_site. destruct (assoc "members" d) as [v|]; [|reflexivity].
  cbn [option_map String.eqb Ascii.eqb Bool.eqb].
  destruct v; try reflexivity. cbn [fill_records py_iter bind].
  now rewrite (mapM_map_ext _ _ _ member_candidates_fill).
Qed.

Lemma build_candidates_fill manual site :
  build_candidates C manual (fill_site site) = build_candidates C manual site.
Proof.
  unfold build_candidates, emit_candidates.
  now rewrite category_part_fill, member_part_fill.
Qed.

(** *** Totality on well-typed records *)

Lemma mapM_total {A B : Type} (f : A -> exc B) l :
  (forall x, In x l -> exists y, f x = Ok y) -> exists ys, mapM f l = Ok ys.
Proof.
  induction l as [|x l IH]; intros H; simpl; [eauto|].
  destruct (H x) as [y Hy]; [now left|]. rewrite Hy.
  destruct IH as [ys Hys]; [intros x' Hx'; apply H; now right|].
  rewrite Hys. eauto.
Qed.

Lemma strip_field d k :
  str_or_missing d k = true ->
  exists s, py_strip (match assoc k d with Some x => x | None => PStr "" end) = Ok s.
Proof.
  unfold str_or_missing. destruct (assoc k d) as [[]|]; try discriminate;
    intros _; simpl; eauto.
Qed.

Lemma float_field d k :
  num_or_missing C d k = true ->
  exists q, py_float C (match assoc k d with Some x => x | None => PInt 0 end) = Ok q.
Proof.
  unfold num_or_missing. destruct (assoc k d) as [v|].
  - destruct (py_float C v); [eauto | discriminate].
  - intros _. simpl. eauto.
Qed.

Lemma split_field d k :
  str_falsy_or_missing d k = true ->
  exists l, py_split (py_or (match assoc k d with Some x => x | None => PNone end)
                            (PStr "")) ","%char = Ok l.
Proof.
  unfold str_falsy_or_missing, py_or.
  destruct (assoc k d) as [v|]; [|intros _; simpl; eauto].
  destruct v; try (intros H; apply negb_true_iff in H; rewrite H; simpl; eauto).
  intros _. destruct (truthy (PStr s)); simpl; eauto.
Qed.

Lemma review_field d base_cand :
  str_falsy_or_missing d "reviews" = true ->
  exists l,
    (let reviews := match assoc "reviews" d with Some x => x | None => PStr "" end in
     if truthy reviews
     then (r <- text_of reviews ;; Ok [mkCand r "review" base_cand])
     else Ok []) = Ok l.
Proof.
  unfold str_falsy_or_missing.
  destruct (assoc "reviews" d) as [v|]; [|intros _; simpl; eauto].
  destruct v; try (intros H; apply negb_true_iff in H; cbv zeta; rewrite H; eauto).
  intros _. cbv zeta. destruct (truthy (PStr s)); simpl; eauto.
Qed.

Lemma category_candidates_total cat :
  category_typed cat = true -> exists l, category_candidates cat = Ok l.
Proof.
  destruct cat as [| | | | | |d]; try discriminate. simpl.
  intros H. apply andb_true_iff in H as [H H3]. apply andb_true_iff in H as [H1 H2].
  unfold category_candidates. cbn [dict_get bind].
  destruct (strip_field _ _ H1) as [s1 ->].
  destruct (strip_field _ _ H2) as [s2 ->].
  destruct (strip_field _ _ H3) as [s3 ->].
  cbn [bind]. eauto.
Qed.

Lemma member_candidates_total mem :
  member_typed C mem = true -> exists l, member_candidates C mem = Ok l.
Proof.
  destruct mem as [| | | | | |d]; try discriminate. simpl.
  intros H. repeat (apply andb_true_iff in H as [H ?]).
  unfold member_candidates. cbn [dict_get bind].
  destruct (strip_field d "name") as [s1 ->]; [assumption|]. cbn [bind].
  destruct (split_field d "tags") as [tl ->]; [assumption|]. cbn [bind].
  destruct (strip_field d "location") as [s2 ->]; [assumption|]. cbn [bind].
  destruct (float_field d "rating") as [q1 ->]; [assumption|]. cbn [bind].
  destruct (float_field d "priority_score") as [q2 ->]; [assumption|]. cbn [bind].
  match goal with
  | |- context [mkCand _ "review" ?b] =>
      destruct (review_field d b) as [rl Hrl]; [assumption|]
  end.
  cbv zeta in Hrl. rewrite Hrl. cbn [bind]. eauto.
Qed.

Lemma manual_candidates_total row :
  manual_typed row = true -> exists l, manual_candidates row = Ok l.
Proof.
  destruct row as [ty content]. unfold manual_typed, manual_candidates.
  cbn [fst snd existsb].
  destruct (String.eqb ty "category") eqn:Hc.
  { cbn [orb]. destruct content; try discriminate. intros H.
    cbn [dict_get bind]. unfold str_or_missing in H.
    destruct (assoc "name" d) as [[]|]; try discriminate; simpl; eauto. }
  destruct (String.eqb ty "profession") eqn:Hp.
  { cbn [orb]. destruct content; try discriminate. intros H.
    apply String.eqb_eq in Hp. subst ty. simpl.
    unfold str_or_missing in H.
    destruct (assoc "name" d) as [[]|]; try discriminate; simpl; eauto. }
  destruct (String.eqb ty "location") eqn:Hl.
  { cbn [orb]. destruct content; try discriminate. intros H.
    apply String.eqb_eq in Hl. subst ty. simpl.
    unfold str_or_missing in H.
    destruct (assoc "name" d) as [[]|]; try discriminate; simpl; eauto. }
  cbn [orb].
  destruct (String.eqb ty "member") eqn:Hm; [|eauto].
  destruct content; try discriminate. intros H.
  cbn [dict_get bind]. unfold str_falsy_or_missing in H.
  destruct (assoc "name" d) as [v|]; [|simpl; eauto].
  destruct v; try (apply negb_true_iff in H; rewrite H; eauto).
  destruct (truthy (PStr s)); simpl; eauto.
Qed.

Lemma records_total d k (typed : pyval -> bool) (f : pyval -> exc (list Candidate)) :
  (forall x, typed x = true -> exists l, f x = Ok l) ->
  records_typed d k typed = true ->
  exists ls, (v <- dict_get (PDict d) k (PList []) ;;
              items <- py_iter v ;;
              cands <- mapM f items ;;
              Ok (concat cands)) = Ok ls.
Proof.
  intros Hf. unfold records_typed. cbn [dict_get bind].
  destruct (assoc k d) as [v|]; [|intros _; simpl; eauto].
  destruct v; try discriminate. intros H. cbn [py_iter bind].
  destruct (mapM_total f l) as [ys ->]; [|simpl; eauto].
  intros x Hx. apply Hf. rewrite forallb_forall in H. now apply H.
Qed.

(** A missing field never aborts the build: on a catalog and manual rows
    whose present fields have the expected types, whichever fields are
    missing, every record yields its candidates and the build returns
    their deduplication; and a missing field is read exactly as if it were
    present with its empty or zero default. (A field that is present with
    another type, such as a null name or a rating [float] rejects, raises
    and aborts the whole build.) *)
Lemma build_candidates_defaults_missing_fields manual site_data :
  site_typed C site_data = true ->
  forallb manual_typed manual = true ->
  (exists cats mems mans,
      category_part site_data = Ok cats /\
      member_part C site_data = Ok mems /\
      manual_part manual = Ok mans /\
      build_candidates C manual site_data = Ok (dedup (cats ++ mems ++ mans)))
  /\ build_candidates C manual (fill_site site_data)
     = build_candidates C manual site_data.
Proof.
  intros Hs Hm. split; [|apply build_candidates_fill].
  destruct site_data as [| | | | | |d]; try discriminate.
  simpl in Hs. apply andb_true_iff in Hs as [Hc Hmem].
  destruct (records_total d "categories" _ _ category_candidates_total Hc)
    as [cats Hcats].
  destruct (records_total d "members" _ _ member_candidates_total Hmem)
    as [mems Hmems].
  destruct (mapM_total manual_candidates manual) as [ls Hls].
  { intros r Hr. apply manual_candidates_total.
    rewrite forallb_forall in Hm. now apply Hm. }
  exists cats, mems, (concat ls).
  unfold build_candidates, emit_candidates.
  change (category_part (PDict d)) with
    (v <- dict_get (PDict d) "categories" (PList []) ;;
     items <- py_iter v ;; cands <- mapM category_candidates items ;;
     Ok (concat cands)).
  change (member_part C (PDict d)) with
    (v <- dict_get (PDict d) "members" (PList []) ;;
     items <- py_iter v ;; cands <- mapM (member_candidates C) items ;;
     Ok (concat cands)).
  unfold manual_part. rewrite Hcats, Hmems, Hls. cbn [bind]. auto.
Qed.

(* ===================================================================== *)
(** ** The shape of a rank request                                        *)
(* ===================================================================== *)

(** A returning call took one of three paths: cache hit, cold start, or a
    scored run that stored its result. *)
Lemma rank_candidates_cases E q site uid hist lat lon dbg st sugs cards d st' :
  rank_candidates C E q site uid hist lat lon dbg st = (Ok (sugs, cards, d), st') ->
  exists k, cache_key C q site uid lat lon = Ok k /\
    ((exists e, cache_lookup C E st k = Some e /\
                sugs = c_suggestions e /\ cards = c_cards e /\ st' = st)
     \/ (cache_lookup C E st k = None /\
         build_candidates C (manual_data st) site = Ok [] /\
         (exists names,
             cold_names (get_manual_data (manual_data st) "category"
                         ++ get_manual_data (manual_data st) "profession")
             = Ok names /\
             sugs = match firstn 5 names with
                    | [] => ["Popular services near you"]
                    | l => l
                    end) /\
         cards = [] /\ st' = st)
     \/ (cache_lookup C E st k = None /\
         exists cands scores log dbg_info,
           cands <> [] /\
           build_candidates C (manual_data st) site = Ok cands /\
           pipeline_scores C E q site uid hist lat lon cands st = (Ok scores, log) /\
           sugs = dedup_limit ∅ []
                    (flat_map
                       (fun x => rewrite_with_intent (text (scored_cand x))
                                   (head (detect_locations C q)) (detect_intent q))
                       (firstn 5 scores)) /\
           cards = flat_map card_of (firstn 5 scores) /\
           st' = record_result (set_provider_log st log) k q uid
                   {| ts := now_ts E; c_suggestions := sugs;
                      c_cards := cards; c_debug := dbg_info |})).
Proof.
  unfold rank_candidates.
  destruct (cache_key C q site uid lat lon) as [k|e] eqn:Hk; [|discriminate].
  intros H. exists k. split; [reflexivity|].
  destruct (cache_lookup C E st k) as [cached|] eqn:Hl.
  - left. exists cached. injection H as <- <- _ <-. auto.
  - right.
    destruct (build_candidates C (manual_data st) site) as [[|c cs]|e] eqn:Hb;
      [| |discriminate].
    + left.
      destruct (cold_names _) as [names|e] eqn:Hn; [|discriminate].
      injection H as <- <- _ <-. repeat split; eauto.
    + right. split; [reflexivity|].
      destruct (pipeline_scores C E q site uid hist lat lon (c :: cs) st)
        as [[scores|e] log] eqn:Hp; [|discriminate].
      injection H as <- <- _ <-.
      eexists (c :: cs), scores, log, _.
      repeat split; try reflexivity; [discriminate | exact Hp].
Qed.

(** Whatever a call does, it leaves the cache alone, or it missed the cache
    and stores the result it returns under the key of the request. *)
Lemma rank_candidates_cache E q site uid hist lat lon dbg st r st' :
  rank_candidates C E q site uid hist lat lon dbg st = (r, st') ->
  SUGGESTION_CACHE st' = SUGGESTION_CACHE st
  \/ exists k sugs cards d dbg_info,
       cache_key C q site uid lat lon = Ok k /\
       cache_lookup C E st k = None /\
       r = Ok (sugs, cards, d) /\
       SUGGESTION_CACHE st' =
         <[k := {| ts := now_ts E; c_suggestions := sugs;
                   c_cards := cards; c_debug := dbg_info |}]> (SUGGESTION_CACHE st).
Proof.
  destruct r as [[[sugs cards] d]|e].
  - intros H. apply rank_candidates_cases in H
      as (k & Hk & [(e & _ & _ & _ & ->) | [(_ & _ & _ & _ & ->)
                  | (Hl & cands & scores & log & di & _ & _ & _ & _ & _ & ->)]]);
      [now left | now left |].
    right. exists k, sugs, cards, d, di. repeat split; assumption.
  - unfold rank_candidates.
    destruct (cache_key C q site uid lat lon) as [k|e0]; [|intros [= _ <-]; now left].
    destruct (cache_lookup C E st k); [discriminate|].
    destruct (build_candidates C (manual_data st) site) as [[|c cs]|e0];
      [| |intros [= _ <-]; now left].
    + destruct (cold_names _); [discriminate|intros [= _ <-]; now left].
    + destruct (pipeline_scores C E q site uid hist lat lon (c :: cs) st)
        as [[scores|e0] log]; [discriminate|].
      intros [= _ <-]. now left.
Qed.

(* ===================================================================== *)
(** ** The final suggestion list                                          *)
(* ===================================================================== *)

(** The loop invariant of the final deduplication: [seen] is the set of the
    lowercased entries of [final], which has no duplicates and fewer than
    five entries whenever the loop body is entered. *)
Lemma dedup_limit_cons seen final s rest :
  dedup_limit seen final (s :: rest) =
  if bool_decide (lower s ∈ seen)
  then (if (5 <=? length final)%nat then final
        else dedup_limit seen final rest)
  else (if (5 <=? length (final ++ [s]))%nat then final ++ [s]
        else dedup_limit ({[lower s]} ∪ seen) (final ++ [s]) rest).
Proof. cbn [dedup_limit]. now case_bool_decide. Qed.

Lemma dedup_limit_ok seen final l :
  (forall x, x ∈ seen <-> In x (map lower final)) ->
  NoDup (map lower final) ->
  length final < 5 ->
  suggestions_ok (dedup_limit seen final l).
Proof.
  revert seen final. induction l as [|s rest IH]; intros seen final Hseen Hnd Hlen.
  - simpl. split; [lia | exact Hnd].
  - rewrite dedup_limit_cons. case_bool_decide as Hs.
    + destruct (5 <=? length final)%nat eqn:H5.
      * apply Nat.leb_le in H5. lia.
      * now apply IH.
    + assert (Hnd' : NoDup (map lower (final ++ [s]))).
      { rewrite map_app. cbn [map]. apply NoDup_app. split; [exact Hnd|].
        split; [|apply NoDup_singleton].
        intros x Hx Hx'. apply list_elem_of_singleton in Hx'. subst x.
        apply Hs, Hseen. now apply list_elem_of_In. }
      assert (Hlen' : length (final ++ [s]) = S (length final)).
      { rewrite length_app. cbn [length]. lia. }
      destruct (5 <=? length (final ++ [s]))%nat eqn:H5.
      * split; [lia | exact Hnd'].
      * apply Nat.leb_gt in H5. apply IH; [|exact Hnd'|lia].
        intros x. rewrite map_app, in_app_iff, <- Hseen. cbn [map In].
        rewrite elem_of_union, elem_of_singleton. intuition.
Qed.

Lemma dedup_limit_subset seen final l x :
  In x (dedup_limit seen final l) -> In x final \/ In x l.
Proof.
  revert seen final. induction l as [|s rest IH]; intros seen final.
  - now left.
  - rewrite dedup_limit_cons. case_bool_decide.
    + destruct (5 <=? length final)%nat; [now left|].
      intros Hin. apply IH in Hin. cbn [In]. tauto.
    + destruct (5 <=? length (final ++ [s]))%nat.
      * rewrite in_app_iff. cbn [In]. tauto.
      * intros Hin. apply IH in Hin. rewrite in_app_iff in Hin.
        cbn [In] in *. tauto.
Qed.

(* ===================================================================== *)
(** ** The cold-start path                                                *)
(* ===================================================================== *)

Lemma dedup_nil l : dedup l = [] -> l = [].
Proof.
  destruct l as [|c l]; [reflexivity|]. unfold dedup. simpl.
  case_bool_decide as H; [|discriminate]. now apply not_elem_of_empty in H.
Qed.

Lemma mapM_concat_nil {A B : Type} (f : A -> exc (list B)) l ls :
  mapM f l = Ok ls -> concat ls = [] -> forall x, In x l -> f x = Ok [].
Proof.
  rewrite mapM_Ok_Forall2. induction 1 as [|x y l ls Hx Hl IH]; simpl.
  - intros _ x [].
  - intros Hc x' [<- | Hin].
    + apply app_eq_nil in Hc as [-> _]. exact Hx.
    + apply app_eq_nil in Hc as [_ Hc]. now apply IH.
Qed.

(** A manual category or profession row always yields a candidate (or an
    exception), never nothing. *)
Lemma manual_candidates_named ty content :
  ty = "category" \/ ty = "profession" ->
  manual_candidates (ty, content) <> Ok [].
Proof.
  intros [-> | ->]; unfold manual_candidates; simpl;
    destruct (dict_get content "name" (PStr "")) as [n|e]; simpl; try discriminate;
    destruct (text_of n); simpl; discriminate.
Qed.

Lemma no_rows_of_type manual ty :
  (forall r, In r manual -> fst r <> ty) -> get_manual_data manual ty = [].
Proof.
  unfold get_manual_data. induction manual as [|r manual IH]; intros H; simpl.
  - reflexivity.
  - destruct (String.eqb (fst r) ty) eqn:Hr.
    + apply String.eqb_eq in Hr. exfalso. apply (H r); [now left | exact Hr].
    + apply IH. intros r' Hin. apply H. now right.
Qed.

(** The cold-start path is taken only when the database holds no manual
    category and no manual profession: the names it collects are none. *)
Lemma cold_start_rows_empty manual site :
  build_candidates C manual site = Ok [] ->
  get_manual_data manual "category" = [] /\
  get_manual_data manual "profession" = [].
Proof.
  unfold build_candidates, emit_candidates. intros H.
  apply bind_Ok in H as (emitted & He & Hout).
  apply bind_Ok in He as (cats & _ & He).
  apply bind_Ok in He as (mems & _ & He).
  apply bind_Ok in He as (mans & Hmans & He).
  injection He as <-. injection Hout as Hout. apply dedup_nil in Hout.
  apply app_eq_nil in Hout as [_ Hout]. apply app_eq_nil in Hout as [_ ->].
  unfold manual_part in Hmans. apply bind_Ok in Hmans as (ls & Hls & Hc).
  injection Hc as Hc.
  pose proof (mapM_concat_nil _ _ _ Hls Hc) as Hrows.
  split; apply no_rows_of_type; intros [ty content] Hin Hty; simpl in Hty; subst ty;
    (eapply manual_candidates_named; [| apply Hrows; exact Hin]); tauto.
Qed.

Lemma cold_start_suggestions manual site names :
  build_candidates C manual site = Ok [] ->
  cold_names (get_manual_data manual "category"
              ++ get_manual_data manual "profession") = Ok names ->
  match firstn 5 names with
  | [] => ["Popular services near you"]
  | l => l
  end = ["Popular services near you"].
Proof.
  intros Hb. apply cold_start_rows_empty in Hb as [-> ->]. simpl.
  intros [= <-]. reflexivity.
Qed.

(* ===================================================================== *)
(** ** The cache invariant                                                *)
(* ===================================================================== *)

Lemma init_cache_ok manual rows : cache_ok (init_state manual rows).
Proof. intros k e H. simpl in H. rewrite lookup_empty in H. discriminate. Qed.

Lemma cache_lookup_Some E st k e :
  cache_lookup C E st k = Some e ->
  SUGGESTION_CACHE st !! k = Some e /\
  (now_ts E - ts e <= SUGGESTION_CACHE_TTL_SECONDS C)%Q.
Proof.
  unfold cache_lookup. destruct (SUGGESTION_CACHE st !! k) as [c|]; [|discriminate].
  destruct (Qle_bool _ _) eqn:Hq; [|discriminate].
  intros [= ->]. split; [reflexivity|]. now apply Qle_bool_iff.
Qed.

(** One call returns a well-formed list and keeps the cache well-formed. *)
Lemma rank_candidates_suggestions_ok E q site uid hist lat lon dbg st sugs cards d st' :
  cache_ok st ->
  rank_candidates C E q site uid hist lat lon dbg st = (Ok (sugs, cards, d), st') ->
  suggestions_ok sugs.
Proof.
  intros Hok H. apply rank_candidates_cases in H
    as (k & _ & [(e & Hl & -> & _) | [(_ & Hb & (names & Hn & ->) & _)
                | (_ & cands & scores & log & di & _ & _ & _ & -> & _)]]).
  - apply cache_lookup_Some in Hl as [Hl _]. exact (Hok _ _ Hl).
  - rewrite (cold_start_suggestions _ _ _ Hb Hn). split; simpl; [lia|].
    apply NoDup_singleton.
  - apply dedup_limit_ok; simpl; [|constructor|lia].
    intros x. rewrite elem_of_empty. tauto.
Qed.

Lemma rank_candidates_cache_ok E q site uid hist lat lon dbg st r st' :
  cache_ok st ->
  rank_candidates C E q site uid hist lat lon dbg st = (r, st') ->
  cache_ok st'.
Proof.
  intros Hok H. pose proof H as Hc. apply rank_candidates_cache in Hc
    as [Hc | (k & sugs & cards & d & di & _ & _ & -> & Hc)]; intros k' e; rewrite Hc.
  - apply Hok.
  - rewrite lookup_insert. case_decide as Hkk.
    + intros [= <-]. simpl. eapply rank_candidates_suggestions_ok; eauto.
    + apply Hok.
Qed.

Lemma reachable_cache_ok st : reachable C st -> cache_ok st.
Proof.
  induction 1 as [manual rows | st E q site uid hist lat lon dbg r st' _ IH H
                 | st st' _ IH Hc].
  - apply init_cache_ok.
  - eapply rank_candidates_cache_ok; eauto.
  - intros k e. rewrite Hc. apply IH.
Qed.

(** C4. Every rank request served by a running process returns at most
    five suggestion strings, no two of them equal when compared
    case-insensitively. This covers the three ways a request is answered:
    from the cache, by the cold-start fallback, and by a scored run. *)
Theorem suggestions_capped_and_distinct E q site uid hist lat lon dbg st sugs cards d st' :
  reachable C st ->
  rank_candidates C E q site uid hist lat lon dbg st = (Ok (sugs, cards, d), st') ->
  length sugs <= 5 /\ NoDup (map lower sugs).
Proof.
  intros Hr H. apply reachable_cache_ok in Hr.
  exact (rank_candidates_suggestions_ok _ _ _ _ _ _ _ _ _ _ _ _ _ Hr H).
Qed.
(* ===================================================================== *)
(** ** The result cache                                                   *)
(* ===================================================================== *)

Lemma cache_key_radius q site1 site2 uid lat lon :
  radius_setting site2 = radius_setting site1 ->
  cache_key C q site2 uid lat lon = cache_key C q site1 uid lat lon.
Proof.
  unfold radius_setting, cache_key. intros H.
  destruct (dict_get site1 "settings" (PDict [])) as [s1|e1];
    destruct (dict_get site2 "settings" (PDict [])) as [s2|e2]; simpl in *.
  - now rewrite H.
  - destruct (dict_get s1 "radius_km" PNone); [discriminate|simpl; congruence].
  - destruct (dict_get s2 "radius_km" PNone); [discriminate|simpl; congruence].
  - congruence.
Qed.

Lemma cache_lookup_fresh E st k e :
  SUGGESTION_CACHE st !! k = Some e ->
  (now_ts E - ts e <= SUGGESTION_CACHE_TTL_SECONDS C)%Q ->
  cache_lookup C E st k = Some e.
Proof.
  intros Hk Hq. unfold cache_lookup. rewrite Hk.
  apply Qle_bool_iff in Hq. now rewrite Hq.
Qed.

(** A hit returns what is stored and changes nothing. *)
Lemma rank_candidates_hit E q site uid hist lat lon dbg st k e :
  cache_key C q site uid lat lon = Ok k ->
  cache_lookup C E st k = Some e ->
  exists d, rank_candidates C E q site uid hist lat lon dbg st
            = (Ok (c_suggestions e, c_cards e, d), st).
Proof.
  intros Hk Hl. unfold rank_candidates. rewrite Hk, Hl. eauto.
Qed.

(** A request served while an entry is within its TTL leaves that entry in
    place: no request in the window can overwrite it. *)
Lemma fresh_entry_survives E q site uid hist lat lon dbg st r st' k e :
  SUGGESTION_CACHE st !! k = Some e ->
  (now_ts E - ts e <= SUGGESTION_CACHE_TTL_SECONDS C)%Q ->
  rank_candidates C E q site uid hist lat lon dbg st = (r, st') ->
  SUGGESTION_CACHE st' !! k = Some e.
Proof.
  intros Hk Hq H. apply rank_candidates_cache in H
    as [-> | (k' & sugs & cards & d & di & Hk' & Hl & _ & ->)]; [exact Hk|].
  rewrite lookup_insert. case_decide as Hkk; [|exact Hk].
  subst k'. rewrite (cache_lookup_fresh _ _ _ _ Hk Hq) in Hl. discriminate.
Qed.

(** C5 (as amended). When a rank request is answered from the cache or by a
    scored run (not by the cold-start path, whose result is never stored),
    its suggestions and cards sit in the cache under the key of the
    request, stamped with their creation time. Any later request with the
    same query, user, coordinates and radius setting, served while that
    entry is in place and at most the TTL after its creation, returns the
    same suggestion and card lists and leaves the whole state unchanged:
    in particular it calls neither the embedding provider nor the lexical
    scorer. *)
Theorem cached_result_replayed E1 q site1 uid hist1 lat lon dbg1 st sugs cards d1 st1 :
  rank_candidates C E1 q site1 uid hist1 lat lon dbg1 st
  = (Ok (sugs, cards, d1), st1) ->
  ~ cold_start C E1 q site1 uid lat lon st ->
  exists k e,
    cache_key C q site1 uid lat lon = Ok k /\
    SUGGESTION_CACHE st1 !! k = Some e /\
    c_suggestions e = sugs /\ c_cards e = cards /\
    (cache_lookup C E1 st k = Some e \/ ts e = now_ts E1) /\
    forall E2 site2 hist2 dbg2 st2,
      radius_setting site2 = radius_setting site1 ->
      SUGGESTION_CACHE st2 !! k = Some e ->
      (now_ts E2 - ts e <= SUGGESTION_CACHE_TTL_SECONDS C)%Q ->
      exists d2,
        rank_candidates C E2 q site2 uid hist2 lat lon dbg2 st2
        = (Ok (sugs, cards, d2), st2).
Proof.
  intros H Hcold. apply rank_candidates_cases in H
    as (k & Hk & [(e & Hl & -> & -> & ->) | [(Hl & Hb & _)
                | (Hl & cands & scores & log & di & _ & _ & _ & Hs & Hc & ->)]]).
  - exists k, e. pose proof (cache_lookup_Some _ _ _ _ Hl) as [Hin _].
    repeat split; auto.
    intros E2 site2 hist2 dbg2 st2 Hr Hin2 Hq.
    apply rank_candidates_hit with (k := k).
    + now rewrite (cache_key_radius _ _ _ _ _ _ Hr).
    + now apply cache_lookup_fresh.
  - exfalso. apply Hcold. exists k. auto.
  - eexists k, _. split; [exact Hk|]. split; [apply lookup_insert_eq|].
    cbn [c_suggestions c_cards ts]. repeat split; auto.
    intros E2 site2 hist2 dbg2 st2 Hr Hin2 Hq.
    match type of Hin2 with _ = Some ?e =>
      destruct (rank_candidates_hit E2 q site2 uid hist2 lat lon dbg2 st2 k e)
        as [d2 Hd2]
    end.
    + now rewrite (cache_key_radius _ _ _ _ _ _ Hr).
    + now apply cache_lookup_fresh.
    + exists d2. exact Hd2.
Qed.

(* ===================================================================== *)
(** ** The scored candidates                                              *)
(* ===================================================================== *)

Lemma hybrid_rank_In q cands st ranked log c sc :
  hybrid_rank C q cands st = (Ok ranked, log) ->
  In (c, sc) ranked -> In c cands.
Proof.
  unfold hybrid_rank.
  destruct (get_synonyms_map (manual_data st)); [|discriminate].
  destruct (semantic_scores C _ _); [|discriminate].
  destruct (bm25_scores C _ _); [|discriminate].
  destruct (_ && _); [|discriminate].
  intros [= <- _] Hin. now apply in_combine_l in Hin.
Qed.

Lemma score_all_In L ranked scores x :
  score_all C L ranked = Ok scores ->
  In x scores ->
  exists c sc, In (c, sc) ranked /\ score_candidate C L c sc = Ok (Some x).
Proof.
  revert scores. induction ranked as [|[c sc] ranked IH]; intros scores; simpl.
  - intros [= <-] [].
  - destruct (score_candidate C L c sc) as [o|e] eqn:Hc; [|discriminate]. simpl.
    destruct (score_all C L ranked) as [rest|e]; [|discriminate]. simpl.
    intros [= <-] Hin.
    assert (Hrest : In x rest -> exists c' sc', (((c, sc) = (c', sc')) \/ In (c', sc') ranked)
                                  /\ score_candidate C L c' sc' = Ok (Some x)).
    { intros Hr. destruct (IH rest eq_refl Hr) as (c' & sc' & Hin' & Hs).
      exists c', sc'. auto. }
    destruct o as [y|]; [|auto].
    destruct Hin as [<- | Hin]; [|auto].
    exists c, sc. auto.
Qed.

Lemma insert_by_score_In x y l :
  In y (insert_by_score x l) <-> y = x \/ In y l.
Proof.
  induction l as [|z l IH]; simpl; [intuition|].
  destruct (negb _); simpl; [rewrite IH|]; intuition.
Qed.

Lemma sort_scores_In l y : In y (sort_scores l) <-> In y l.
Proof.
  unfold sort_scores. induction l as [|x l IH]; simpl; [tauto|].
  rewrite insert_by_score_In, IH. intuition.
Qed.

Lemma post_geo_cand L c sc boost dist x :
  post_geo C L c sc boost dist = Ok (Some x) ->
  scored_cand x = c /\ scored_dist x = dist.
Proof.
  unfold post_geo.
  destruct (py_float C _); [|discriminate]. simpl.
  destruct (_is_open_now _ _); [|discriminate]. simpl.
  intros [= <-]. split; reflexivity.
Qed.

(** What it takes for a candidate to be appended to [scores]: it is not
    blacklisted and the coordinate step kept it. *)
Lemma score_candidate_Some L c sc x :
  score_candidate C L c sc = Ok (Some x) ->
  scored_cand x = c /\
  blacklisted (lc_blacklist L) (text c) = false /\
  exists boost boost',
    geo_step C (lc_user_lat L) (lc_user_lon L) (lc_radius_km L) c boost
    = Ok (GeoKeep boost' (scored_dist x)).
Proof.
  unfold score_candidate.
  destruct (blacklisted _ _); [discriminate|].
  destruct (pre_geo_boost L c) as [b|]; [|discriminate]. simpl.
  destruct (geo_step C _ _ _ c b) as [[|b' d']|] eqn:Hg; try discriminate. simpl.
  intros H. apply post_geo_cand in H as [H1 H2]. subst d'.
  split; [exact H1|]. split; [reflexivity|]. eauto.
Qed.

(** The loop context of a request. *)
Lemma pipeline_scores_In E q site uid hist lat lon cands st scores log x :
  pipeline_scores C E q site uid hist lat lon cands st = (Ok scores, log) ->
  In x scores ->
  exists bl wl sc,
    get_blacklist (manual_data st) = Ok bl /\
    get_whitelist (manual_data st) = Ok wl /\
    In (scored_cand x) cands /\
    score_candidate C
      {| lc_env := E;
         lc_city := head (detect_locations C q);
         lc_history := hist ++ history_of st uid;
         lc_user_lat := lat;
         lc_user_lon := lon;
         lc_radius_km := radius_of C site;
         lc_blacklist := bl;
         lc_whitelist := wl;
         lc_user_prefs := sql_user_preferences C (search_history st) uid;
         lc_user_negs := sql_user_negative_preferences C (search_history st) uid;
         lc_successful := successful_suggestions st |}
      (scored_cand x) sc = Ok (Some x).
Proof.
  unfold pipeline_scores.
  destruct (hybrid_rank C q cands st) as [[ranked|e] log'] eqn:Hh; [|discriminate].
  destruct (get_blacklist (manual_data st)) as [bl|]; [|discriminate]. simpl.
  destruct (get_whitelist (manual_data st)) as [wl|]; [|discriminate]. simpl.
  match goal with
  | |- context [score_all C ?L ranked] =>
      destruct (score_all C L ranked) as [unsorted|] eqn:Hs; [|discriminate]
  end.
  simpl. intros [= <- <-] Hin. apply (proj1 (sort_scores_In _ _)) in Hin.
  destruct (score_all_In _ _ _ _ Hs Hin) as (c & sc & Hr & Hc).
  pose proof (score_candidate_Some _ _ _ _ Hc) as [Hx _]. subst c.
  exists bl, wl, sc. repeat split; try assumption.
  eapply hybrid_rank_In; eauto.
Qed.

(** Cards and suggestion strings of a scored run come from its five best
    scored candidates and from nothing else. *)
Lemma cards_from_top top card :
  In card (flat_map card_of top) ->
  exists x, In x top /\ title card = text (scored_cand x).
Proof.
  rewrite in_flat_map. intros (x & Hx & Hc). exists x. split; [exact Hx|].
  unfold card_of in Hc. destruct (_ && _); [|destruct Hc].
  destruct Hc as [<- | []]. reflexivity.
Qed.

Lemma suggestions_from_top city intent top s :
  In s (dedup_limit ∅ []
          (flat_map (fun x => rewrite_with_intent (text (scored_cand x)) city intent)
                    top)) ->
  exists x, In x top /\ In s (rewrite_with_intent (text (scored_cand x)) city intent).
Proof.
  intros H. apply dedup_limit_subset in H as [[] | H].
  apply in_flat_map in H. exact H.
Qed.

Lemma firstn_In {A : Type} n (l : list A) x : In x (firstn n l) -> In x l.
Proof.
  revert l. induction n as [|n IH]; intros [|y l]; simpl; try tauto.
  intros [-> | H]; [now left | right; now apply IH].
Qed.

(* ===================================================================== *)
(** ** The blacklist filter                                               *)
(* ===================================================================== *)

Lemma blacklisted_false_contains bl txt b :
  blacklisted bl txt = false -> In b bl -> contains b (lower txt) = false.
Proof.
  unfold blacklisted. intros H Hin.
  destruct (contains b (lower txt)) eqn:Hc; [|reflexivity].
  assert (existsb (fun b0 => contains b0 (lower txt)) bl = true)
    by (apply existsb_exists; eauto).
  congruence.
Qed.

(** The shape of a scored run, as the hard-filter properties use it. *)
Lemma scored_run E q site uid hist lat lon dbg st sugs cards d st' k cands :
  cache_key C q site uid lat lon = Ok k ->
  cache_lookup C E st k = None ->
  rank_candidates C E q site uid hist lat lon dbg st = (Ok (sugs, cards, d), st') ->
  build_candidates C (manual_data st) site = Ok cands ->
  cands <> [] ->
  exists scores log,
    pipeline_scores C E q site uid hist lat lon cands st = (Ok scores, log) /\
    cards = flat_map card_of (firstn 5 scores) /\
    sugs = dedup_limit ∅ []
             (flat_map
                (fun x => rewrite_with_intent (text (scored_cand x))
                            (head (detect_locations C q)) (detect_intent q))
                (firstn 5 scores)).
Proof.
  intros Hk Hl H Hb Hin. apply rank_candidates_cases in H
    as (k' & Hk' & [(e & Hl' & _) | [(_ & Hb' & _)
                   | (_ & cands' & scores & log & di & _ & Hb' & Hp & Hs & Hc & _)]]).
  - rewrite Hk in Hk'. injection Hk' as <-. congruence.
  - rewrite Hb in Hb'. injection Hb' as ->. now destruct Hin.
  - rewrite Hb in Hb'. injection Hb' as <-. exists scores, log. auto.
Qed.

(** C6 (as amended). On a rank request that misses the cache, a candidate
    whose text contains a blacklist term (compared in lower case) is
    dropped before it is scored, whatever its base score: the cards and
    the suggestion strings are produced from at most five scored
    candidates, none of which is that candidate or contains a blacklist
    term, and no card carries the term in its title. *)
Theorem blacklisted_candidate_not_scored
        E q site uid hist lat lon dbg st sugs cards d st' k cands cand bl b :
  cache_key C q site uid lat lon = Ok k ->
  cache_lookup C E st k = None ->
  rank_candidates C E q site uid hist lat lon dbg st = (Ok (sugs, cards, d), st') ->
  build_candidates C (manual_data st) site = Ok cands ->
  In cand cands ->
  get_blacklist (manual_data st) = Ok bl ->
  In b bl ->
  contains b (lower (text cand)) = true ->
  exists top : list Scored,
    length top <= 5 /\
    (forall x, In x top ->
               In (scored_cand x) cands /\
               blacklisted bl (text (scored_cand x)) = false /\
               scored_cand x <> cand) /\
    cards = flat_map card_of top /\
    sugs = dedup_limit ∅ []
             (flat_map
                (fun x => rewrite_with_intent (text (scored_cand x))
                            (head (detect_locations C q)) (detect_intent q))
                top) /\
    (forall card, In card cards -> contains b (lower (title card)) = false).
Proof.
  intros Hk Hl H Hb Hin Hbl Hbin Hc.
  assert (Hne : cands <> []) by (intros ->; destruct Hin).
  destruct (scored_run _ _ _ _ _ _ _ _ _ _ _ _ _ _ _ Hk Hl H Hb Hne)
    as (scores & log & Hp & Hcards & Hsugs).
  assert (Htop : forall x, In x (firstn 5 scores) ->
                 In (scored_cand x) cands /\
                 blacklisted bl (text (scored_cand x)) = false /\
                 scored_cand x <> cand).
  { intros x Hx. apply firstn_In in Hx.
    destruct (pipeline_scores_In _ _ _ _ _ _ _ _ _ _ _ _ Hp Hx)
      as (bl' & wl & sc & Hbl' & _ & Hxc & Hs).
    rewrite Hbl in Hbl'. injection Hbl' as <-.
    apply score_candidate_Some in Hs as (_ & Hnb & _). simpl in Hnb.
    repeat split; try assumption.
    intros Heq. rewrite Heq in Hnb.
    rewrite (blacklisted_false_contains _ _ _ Hnb Hbin) in Hc. discriminate. }
  exists (firstn 5 scores). split; [|repeat split; try assumption].
  - rewrite length_firstn. lia.
  - apply Htop. assumption.
  - apply Htop. assumption.
  - apply Htop. assumption.
  - intros card Hcard. rewrite Hcards in Hcard.
    apply cards_from_top in Hcard as (x & Hx & ->).
    destruct (Htop x Hx) as (_ & Hnb & _).
    exact (blacklisted_false_contains _ _ _ Hnb Hbin).
Qed.

(* ===================================================================== *)
(** ** The radius filter and the distance boost                           *)
(* ===================================================================== *)

Lemma build_candidates_NoDup manual site out :
  build_candidates C manual site = Ok out -> NoDup (map key out).
Proof.
  unfold build_candidates. intros H. apply bind_Ok in H as (emitted & _ & [= <-]).
  apply (dedup_from_NoDup ∅).
Qed.

Lemma NoDup_map_inj {A B : Type} (f : A -> B) l a b :
  NoDup (map f l) -> In a l -> In b l -> f a = f b -> a = b.
Proof.
  induction l as [|x l IH]; simpl; [tauto|].
  intros Hnd. apply NoDup_cons in Hnd as [Hx Hnd].
  rewrite list_elem_of_In in Hx.
  intros [<- | Ha] [<- | Hb] Hf; auto.
  - exfalso. apply Hx. rewrite Hf. now apply in_map.
  - exfalso. apply Hx. rewrite <- Hf. now apply in_map.
Qed.

Lemma candidate_distance_coordinates lat lon cand dist :
  candidate_distance C lat lon cand = Ok dist ->
  is_not_none (cand_get cand "latitude" PNone) = true /\
  is_not_none (cand_get cand "longitude" PNone) = true.
Proof.
  unfold candidate_distance. intros H.
  apply bind_Ok in H as (lat1 & _ & H). apply bind_Ok in H as (lon1 & _ & H).
  apply bind_Ok in H as (lat2 & Hlat & H). apply bind_Ok in H as (lon2 & Hlon & _).
  split.
  - destruct (cand_get cand "latitude" PNone); auto; discriminate.
  - destruct (cand_get cand "longitude" PNone); auto; discriminate.
Qed.

(** Beyond the radius: [continue]. *)
Lemma geo_step_far lat lon r cand boost dist :
  truthy lat = true -> truthy lon = true ->
  candidate_distance C lat lon cand = Ok dist ->
  (r < dist)%Q ->
  geo_step C lat lon (Some r) cand boost = Ok GeoDrop.
Proof.
  intros Hlat Hlon Hd Hr. unfold geo_step. rewrite Hlat, Hlon.
  destruct (candidate_distance_coordinates _ _ _ _ Hd) as [-> ->]. simpl.
  rewrite Hd. destruct (Qle_bool dist r) eqn:Hq; [|reflexivity].
  apply Qle_bool_iff in Hq. lra.
Qed.

(** Within five kilometres and within the radius: [boost += 0.15]. *)
Lemma geo_step_near lat lon radius cand boost dist :
  truthy lat = true -> truthy lon = true ->
  candidate_distance C lat lon cand = Ok dist ->
  (dist <= 5)%Q ->
  match radius with Some r => (dist <= r)%Q | None => True end ->
  geo_step C lat lon radius cand boost = Ok (GeoKeep (boost + 0.15)%Q (Some dist)).
Proof.
  intros Hlat Hlon Hd H5 Hr. unfold geo_step. rewrite Hlat, Hlon.
  destruct (candidate_distance_coordinates _ _ _ _ Hd) as [-> ->]. simpl.
  rewrite Hd. apply Qle_bool_iff in H5. rewrite H5.
  destruct radius as [r|]; [|reflexivity].
  apply Qle_bool_iff in Hr. now rewrite Hr.
Qed.

Lemma geo_step_no_coordinates radius cand boost :
  geo_step C PNone PNone radius cand boost = Ok (GeoKeep boost None).
Proof. reflexivity. Qed.

(** The boosts after the coordinate step add to whatever boost they are
    handed. *)
Lemma post_geo_shift L c sc b d b' d' x :
  post_geo C L c sc b d = Ok (Some x) ->
  exists s, post_geo C L c sc b' d' = Ok (Some (c, s, d')) /\
            (s == scored_score x + (b' - b))%Q.
Proof.
  unfold post_geo.
  destruct (py_float C _) as [p|]; [|discriminate]. cbn [bind].
  destruct (_is_open_now _ _) as [o|]; [|discriminate]. cbn [bind].
  intros [= <-]. eexists. split; [reflexivity|].
  unfold scored_score. cbn [fst snd existsb].
  destruct (lc_user_prefs L !! _); destruct (lc_user_negs L !! _);
    destruct (lc_successful L !! _);
    destruct (truthy (cand_get c "featured" PNone)); destruct o;
    destruct (truthy (cand_get c "promo_badge" PNone));
    destruct (cand_get c "plan_level" PNone) as [| | | |p'| |];
    repeat match goal with
           | |- context [if ?t then _ else _] => destruct t
           end;
    unfold BOOST_LEARNED_PATTERN; lra.
Qed.


(** A candidate within five kilometres and within the radius ends with a
    score 0.15 above what it gets when the caller sends no coordinates. *)
Lemma near_boost L cand sc dist s0 d0 :
  truthy (lc_user_lat L) = true ->
  truthy (lc_user_lon L) = true ->
  candidate_distance C (lc_user_lat L) (lc_user_lon L) cand = Ok dist ->
  (dist <= 5)%Q ->
  match lc_radius_km L with Some r => (dist <= r)%Q | None => True end ->
  score_candidate C (without_coordinates L) cand sc = Ok (Some (cand, s0, d0)) ->
  exists s, score_candidate C L cand sc = Ok (Some (cand, s, Some dist)) /\
            (s == s0 + 0.15)%Q.
Proof.
  intros Hlat Hlon Hd H5 Hr. unfold score_candidate.
  change (lc_blacklist (without_coordinates L)) with (lc_blacklist L).
  destruct (blacklisted (lc_blacklist L) (text cand)); [discriminate|].
  change (pre_geo_boost (without_coordinates L) cand) with (pre_geo_boost L cand).
  destruct (pre_geo_boost L cand) as [b|]; [|discriminate]. cbn [bind].
  change (lc_user_lat (without_coordinates L)) with PNone.
  change (lc_user_lon (without_coordinates L)) with PNone.
  rewrite geo_step_no_coordinates. cbn [bind].
  rewrite (geo_step_near _ _ _ _ b _ Hlat Hlon Hd H5 Hr). cbn [bind].
  change (post_geo C (without_coordinates L) cand sc b None)
    with (post_geo C L cand sc b None).
  intros H.
  destruct (post_geo_shift L cand sc b None (b + 0.15)%Q (Some dist) _ H)
    as (s & Hs & Heq).
  exists s. split; [exact Hs|]. unfold scored_score in Heq. simpl in Heq.
  rewrite Heq. ring.
Qed.

(** Whatever the coordinate step keeps lies within the radius. *)
Lemma geo_step_keep_within lat lon r cand boost boost' d dist :
  truthy lat = true -> truthy lon = true ->
  geo_step C lat lon (Some r) cand boost = Ok (GeoKeep boost' d) ->
  candidate_distance C lat lon cand = Ok dist ->
  (dist <= r)%Q.
Proof.
  intros Hlat Hlon Hg Hd. destruct (Qlt_le_dec r dist) as [Hfar | Hle]; [|exact Hle].
  rewrite (geo_step_far _ _ _ _ boost _ Hlat Hlon Hd Hfar) in Hg. discriminate.
Qed.

(** C1 (as amended). On a rank request that misses the cache and whose
    latitude and longitude are both truthy, with a radius configured:
    the cards and suggestion strings are produced from at most five scored
    candidates, each of them a built candidate that is within the radius
    whenever its distance is known, and every suggestion string is a
    rewriting of the text of one of them; a candidate whose haversine
    distance from the caller exceeds the radius is none of them, shares
    its text with none of them (letter case apart) and is on no card; a
    candidate whose distance is at most 5 km and within the radius is
    scored with its distance, 0.15 above the score it gets without
    coordinates. *)
Theorem radius_filter_on_scored_run
        E q site uid hist lat lon dbg st sugs cards d st' k cands r :
  cache_key C q site uid lat lon = Ok k ->
  cache_lookup C E st k = None ->
  rank_candidates C E q site uid hist lat lon dbg st = (Ok (sugs, cards, d), st') ->
  build_candidates C (manual_data st) site = Ok cands ->
  cands <> [] ->
  truthy lat = true ->
  truthy lon = true ->
  radius_of C site = Some r ->
  (exists top : list Scored,
      length top <= 5 /\
      (forall x, In x top ->
                 In (scored_cand x) cands /\
                 forall dist,
                   candidate_distance C lat lon (scored_cand x) = Ok dist ->
                   (dist <= r)%Q) /\
      cards = flat_map card_of top /\
      sugs = dedup_limit ∅ []
               (flat_map
                  (fun x => rewrite_with_intent (text (scored_cand x))
                              (head (detect_locations C q)) (detect_intent q))
                  top) /\
      (forall s, In s sugs ->
                 exists x, In x top /\
                           In s (rewrite_with_intent (text (scored_cand x))
                                   (head (detect_locations C q))
                                   (detect_intent q))) /\
      forall cand dist,
        In cand cands ->
        candidate_distance C lat lon cand = Ok dist ->
        (r < dist)%Q ->
        (forall x, In x top ->
                   scored_cand x <> cand /\
                   lower (text (scored_cand x)) <> lower (text cand)) /\
        (forall card, In card cards ->
                      title card <> text cand /\
                      lower (title card) <> lower (text cand)))
  /\
  (forall L cand sc dist s0 d0,
      lc_user_lat L = lat ->
      lc_user_lon L = lon ->
      lc_radius_km L = Some r ->
      candidate_distance C lat lon cand = Ok dist ->
      (dist <= 5)%Q ->
      (dist <= r)%Q ->
      score_candidate C (without_coordinates L) cand sc = Ok (Some (cand, s0, d0)) ->
      exists s, score_candidate C L cand sc = Ok (Some (cand, s, Some dist)) /\
                (s == s0 + 0.15)%Q).
Proof.
  intros Hk Hl H Hb Hne Hlat Hlon Hrad. split.
  - destruct (scored_run _ _ _ _ _ _ _ _ _ _ _ _ _ _ _ Hk Hl H Hb Hne)
      as (scores & log & Hp & Hcards & Hsugs).
    pose proof (build_candidates_NoDup _ _ _ Hb) as Hnd.
    assert (Htop : forall x, In x (firstn 5 scores) ->
                   In (scored_cand x) cands /\
                   forall dist,
                     candidate_distance C lat lon (scored_cand x) = Ok dist ->
                     (dist <= r)%Q).
    { intros x Hx. apply firstn_In in Hx.
      destruct (pipeline_scores_In _ _ _ _ _ _ _ _ _ _ _ _ Hp Hx)
        as (bl & wl & sc & _ & _ & Hxc & Hs).
      split; [exact Hxc|].
      apply score_candidate_Some in Hs as (_ & _ & b1 & b2 & Hg). simpl in Hg.
      rewrite Hrad in Hg. intros dist Hd.
      exact (geo_step_keep_within _ _ _ _ _ _ _ _ Hlat Hlon Hg Hd). }
    assert (Hfar : forall cand dist x,
                   In cand cands ->
                   candidate_distance C lat lon cand = Ok dist ->
                   (r < dist)%Q ->
                   In x (firstn 5 scores) ->
                   scored_cand x <> cand /\
                   lower (text (scored_cand x)) <> lower (text cand)).
    { intros cand dist x Hin Hd Hlt Hx. destruct (Htop x Hx) as [Hxc Hw].
      assert (Hneq : scored_cand x <> cand).
      { intros Heq. rewrite Heq in Hw. specialize (Hw dist Hd). lra. }
      split; [exact Hneq|]. intros Heq. apply Hneq.
      apply (NoDup_map_inj key cands); auto. }
    exists (firstn 5 scores). split; [rewrite length_firstn; lia|].
    split; [exact Htop|]. split; [exact Hcards|]. split; [exact Hsugs|].
    split.
    { intros s Hs. rewrite Hsugs in Hs. now apply suggestions_from_top in Hs. }
    intros cand dist Hin Hd Hlt.
    split; [intros x Hx; now apply (Hfar cand dist)|].
    intros card Hcard. rewrite Hcards in Hcard.
    apply cards_from_top in Hcard as (x & Hx & Htitle).
    destruct (Hfar cand dist x Hin Hd Hlt Hx) as [_ Hlow].
    rewrite Htitle. split; [|exact Hlow]. intros Heq. apply Hlow. now rewrite Heq.
  - intros L cand sc dist s0 d0 <- <- HL Hd H5 Hr.
    apply near_boost; try assumption. now rewrite HL.
Qed.
(* ===================================================================== *)
(** ** The history boost                                                  *)
(* ===================================================================== *)

Lemma history_boost_count terms txt b :
  (history_boost terms txt b
   == b + BOOST_HISTORY * inject_Z (Z.of_nat (history_matches terms txt)))%Q.
Proof.
  unfold history_boost, history_matches. revert b.
  induction terms as [|h terms IH]; intros b.
  - simpl. unfold BOOST_HISTORY. ring.
  - cbn [fold_left List.filter].
    destruct (contains (lower h) (lower txt)).
    + rewrite IH. cbn [length]. rewrite Nat2Z.inj_succ, <- Z.add_1_r, inject_Z_plus.
      unfold BOOST_HISTORY. ring.
    + apply IH.
Qed.

Lemma history_matches_app t1 t2 txt :
  history_matches (t1 ++ t2) txt = history_matches t1 txt + history_matches t2 txt.
Proof. unfold history_matches. now rewrite List.filter_app, length_app. Qed.

(** The coordinate step keeps or drops a candidate whatever boost it is
    handed, and passes a shift of the boost on. *)
Lemma geo_step_shift lat lon radius cand b b' g :
  geo_step C lat lon radius cand b = Ok g ->
  match g with
  | GeoDrop => geo_step C lat lon radius cand b' = Ok GeoDrop
  | GeoKeep b1 d =>
      exists b1', geo_step C lat lon radius cand b' = Ok (GeoKeep b1' d) /\
                  (b1' == b1 + (b' - b))%Q
  end.
Proof.
  unfold geo_step.
  destruct (truthy lat && truthy lon && _ && _).
  - destruct (candidate_distance C lat lon cand) as [dist|].
    + destruct radius as [r|].
      * destruct (negb (Qle_bool dist r)).
        -- intros [= <-]. reflexivity.
        -- intros [= <-]. eexists. split; [reflexivity|].
           destruct (Qle_bool dist 5); [|destruct (Qle_bool dist 20)]; ring.
      * intros [= <-]. eexists. split; [reflexivity|].
        destruct (Qle_bool dist 5); [|destruct (Qle_bool dist 20)]; ring.
    + intros [= <-]. eexists. split; [reflexivity|]. ring.
  - destruct (truthy lat && truthy lon && _).
    + destruct (get_location_boost _ _ _) as [lb|]; [|discriminate]. cbn [bind].
      intros [= <-]. eexists. split; [reflexivity|]. ring.
    + intros [= <-]. eexists. split; [reflexivity|]. ring.
Qed.

(** Before the coordinate step, the history terms contribute
    [BOOST_HISTORY] per match and nothing else depends on them. *)
Lemma pre_geo_boost_history L cand b :
  pre_geo_boost L cand = Ok b ->
  exists b0, pre_geo_boost (with_history L []) cand = Ok b0 /\
             (b == b0 + BOOST_HISTORY
                       * inject_Z (Z.of_nat (history_matches (lc_history L) (text cand))))%Q.
Proof.
  unfold pre_geo_boost. cbn [lc_whitelist lc_history lc_city with_history].
  destruct (py_ge _ _) as [high|]; [|discriminate]. cbn [bind].
  match goal with
  | |- context [bind ?m _] => destruct m as [loc_match|]; [|discriminate]
  end.
  cbn [bind]. intros [= <-]. eexists. split; [reflexivity|].
  pose proof (history_boost_count (lc_history L) (text cand) 0.0%Q) as Hh.
  destruct (_ && _);
    change (history_boost [] (text cand) 0.0%Q) with 0.0%Q;
    destruct high, loc_match; rewrite Hh;
    unfold BOOST_HISTORY, BOOST_HIGH_RATING, BOOST_LOCATION_MATCH; ring.
Qed.

(** C2 (as amended). The history loop adds 0.10 to the candidate's score
    for every history term that is a case-insensitive substring of the
    candidate text: the terms of the caller-supplied history and those of
    the server-side history cache of the user are counted one by one, so a
    candidate matched by [n] terms gets [0.10 * n], not 0.10. *)
Theorem history_boost_per_match L history cached cand sc x :
  lc_history L = history ++ cached ->
  score_candidate C L cand sc = Ok (Some x) ->
  exists s0,
    score_candidate C (with_history L []) cand sc
    = Ok (Some (cand, s0, scored_dist x)) /\
    (scored_score x
     == s0 + 0.10 * inject_Z (Z.of_nat (history_matches history (text cand)
                                        + history_matches cached (text cand))))%Q.
Proof.
  intros HL. unfold score_candidate.
  change (lc_blacklist (with_history L [])) with (lc_blacklist L).
  destruct (blacklisted (lc_blacklist L) (text cand)); [discriminate|].
  destruct (pre_geo_boost L cand) as [b|] eqn:Hpre; [|discriminate]. cbn [bind].
  destruct (pre_geo_boost_history _ _ _ Hpre) as (b0 & -> & Hb). cbn [bind].
  change (lc_user_lat (with_history L [])) with (lc_user_lat L).
  change (lc_user_lon (with_history L [])) with (lc_user_lon L).
  change (lc_radius_km (with_history L [])) with (lc_radius_km L).
  destruct (geo_step C _ _ _ cand b) as [[|b1 d1]|] eqn:Hg; try discriminate.
  cbn [bind]. intros Hpost.
  destruct (geo_step_shift _ _ _ _ _ b0 _ Hg) as (b1' & -> & Hb1). cbn [bind].
  change (post_geo C (with_history L []) cand sc b1' d1)
    with (post_geo C L cand sc b1' d1).
  pose proof (post_geo_cand _ _ _ _ _ _ Hpost) as [_ Hd].
  destruct (post_geo_shift L cand sc b1 d1 b1' d1 _ Hpost) as (s & Hs & Heq).
  exists s. rewrite Hd. split; [exact Hs|].
  rewrite HL, history_matches_app in Hb.
  rewrite Heq, Hb1. rewrite Hb. unfold BOOST_HISTORY.
  rewrite Nat2Z.inj_add. ring.
Qed.

(** C9 (as amended). The term "dentist" is not a substring of
    "downtown dental", so the history loop leaves the boost of the
    candidate "Downtown Dental" as it finds it: with "dentist" as the only
    history term the candidate is scored exactly as with no history at
    all, and no 0.10 is added. *)
Theorem dentist_history_gives_no_boost :
  contains (lower "dentist") (lower "Downtown Dental") = false /\
  (forall b, history_boost ["dentist"] "Downtown Dental" b = b) /\
  (forall L ty attributes sc,
      score_candidate C (with_history L ["dentist"])
        (mkCand "Downtown Dental" ty attributes) sc
      = score_candidate C (with_history L [])
          (mkCand "Downtown Dental" ty attributes) sc).
Proof.
  split; [reflexivity|]. split; [reflexivity|]. reflexivity.
Qed.

(* ===================================================================== *)
(** ** The whitelist                                                      *)
(* ===================================================================== *)

Lemma get_manual_data_non_whitelist manual ty :
  ty <> "whitelist" ->
  get_manual_data (non_whitelist manual) ty = get_manual_data manual ty.
Proof.
  intros Hty. unfold get_manual_data, non_whitelist.
  induction manual as [|r manual IH]; [reflexivity|]. cbn [List.filter].
  destruct (String.eqb (fst r) "whitelist") eqn:Hw; cbn [negb].
  - apply String.eqb_eq in Hw.
    destruct (String.eqb (fst r) ty) eqn:Hr; [|exact IH].
    apply String.eqb_eq in Hr. congruence.
  - cbn [List.filter]. destruct (String.eqb (fst r) ty); cbn [map]; now rewrite IH.
Qed.

Lemma manual_part_cons r manual :
  manual_part (r :: manual) =
  (l <- manual_candidates r ;; ls <- manual_part manual ;; Ok (l ++ ls)).
Proof.
  unfold manual_part. cbn [mapM]. destruct (manual_candidates r); [|reflexivity].
  cbn [bind]. destruct (mapM manual_candidates manual); reflexivity.
Qed.

Lemma manual_candidates_whitelist r :
  String.eqb (fst r) "whitelist" = true -> manual_candidates r = Ok [].
Proof.
  destruct r as [ty content]. cbn [fst]. intros H.
  apply String.eqb_eq in H. subst ty. reflexivity.
Qed.

(** Whitelist rows yield no candidate. *)
Lemma manual_part_non_whitelist manual :
  manual_part (non_whitelist manual) = manual_part manual.
Proof.
  induction manual as [|r manual IH]; [reflexivity|].
  unfold non_whitelist. cbn [List.filter]. fold (non_whitelist manual).
  destruct (String.eqb (fst r) "whitelist") eqn:Hw; cbn [negb].
  - rewrite manual_part_cons, (manual_candidates_whitelist _ Hw), IH. cbn [bind].
    destruct (manual_part manual); reflexivity.
  - now rewrite !manual_part_cons, IH.
Qed.

Lemma build_candidates_non_whitelist manual site :
  build_candidates C (non_whitelist manual) site = build_candidates C manual site.
Proof.
  unfold build_candidates, emit_candidates. now rewrite manual_part_non_whitelist.
Qed.

(** The whitelist test of the loop changes nothing. *)
Lemma pre_geo_boost_whitelist E city h lat lon r bl wl1 wl2 p n s cand :
  pre_geo_boost (mkLoopCtx E city h lat lon r bl wl1 p n s) cand
  = pre_geo_boost (mkLoopCtx E city h lat lon r bl wl2 p n s) cand.
Proof.
  unfold pre_geo_boost. cbn [lc_whitelist lc_history lc_city].
  destruct (_ && _); destruct (_ && _); reflexivity.
Qed.

Lemma score_all_whitelist E city h lat lon r bl wl1 wl2 p n s ranked :
  score_all C (mkLoopCtx E city h lat lon r bl wl1 p n s) ranked
  = score_all C (mkLoopCtx E city h lat lon r bl wl2 p n s) ranked.
Proof.
  induction ranked as [|[c sc] ranked IH]; [reflexivity|]. cbn [score_all].
  rewrite IH. f_equal. unfold score_candidate.
  now rewrite (pre_geo_boost_whitelist E city h lat lon r bl wl1 wl2 p n s c).
Qed.

Lemma pipeline_scores_whitelist E q site uid hist lat lon cands st md1 md2 wl1 wl2 :
  non_whitelist md1 = non_whitelist md2 ->
  get_whitelist md1 = Ok wl1 ->
  get_whitelist md2 = Ok wl2 ->
  pipeline_scores C E q site uid hist lat lon cands (set_manual_data st md1)
  = pipeline_scores C E q site uid hist lat lon cands (set_manual_data st md2).
Proof.
  intros Hnw Hw1 Hw2. unfold pipeline_scores, hybrid_rank, get_synonyms_map, get_blacklist.
  cbn [manual_data set_manual_data provider_log search_history
       successful_suggestions].
  unfold history_of. cbn [USER_HISTORY_CACHE set_manual_data].
  rewrite Hw1, Hw2.
  rewrite <- (get_manual_data_non_whitelist md1 "synonym") by discriminate.
  rewrite <- (get_manual_data_non_whitelist md2 "synonym") by discriminate.
  rewrite <- (get_manual_data_non_whitelist md1 "blacklist") by discriminate.
  rewrite <- (get_manual_data_non_whitelist md2 "blacklist") by discriminate.
  rewrite Hnw.
  destruct (synonyms_from _ _) as [syn|]; [|reflexivity].
  destruct (semantic_scores C _ _) as [sem|]; [|reflexivity].
  destruct (bm25_scores C _ _) as [bm|]; [|reflexivity].
  destruct (_ && _); [|reflexivity].
  destruct (terms_of (get_manual_data (non_whitelist md2) "blacklist")) as [bl|];
    [|reflexivity].
  cbn [bind].
  match goal with
  | |- context [score_all C (mkLoopCtx ?E ?c ?h ?la ?lo ?r ?b wl1 ?p ?n ?s) ?rk] =>
      rewrite (score_all_whitelist E c h la lo r b wl1 wl2 p n s rk)
  end.
  reflexivity.
Qed.

(** C10 (as amended). Two runs of the ranking pipeline that differ only in
    the whitelist rows of the manual data, both whitelists being readable
    (every row an object whose term is a string or falsy), end the same
    way: the same suggestions, cards and debug trace, or the same error,
    and the same globals behind them. The whitelist is fetched, and the
    test made with it changes neither the inclusion nor the score of any
    candidate. *)
Theorem whitelist_does_not_influence_ranking
        E q site uid hist lat lon dbg st md1 md2 wl1 wl2 :
  non_whitelist md1 = non_whitelist md2 ->
  get_whitelist md1 = Ok wl1 ->
  get_whitelist md2 = Ok wl2 ->
  fst (rank_candidates C E q site uid hist lat lon dbg (set_manual_data st md1))
  = fst (rank_candidates C E q site uid hist lat lon dbg (set_manual_data st md2))
  /\ set_manual_data
       (snd (rank_candidates C E q site uid hist lat lon dbg (set_manual_data st md1))) []
     = set_manual_data
         (snd (rank_candidates C E q site uid hist lat lon dbg (set_manual_data st md2))) [].
Proof.
  intros Hnw Hw1 Hw2. unfold rank_candidates.
  destruct (cache_key C q site uid lat lon) as [k|]; [|split; reflexivity].
  change (cache_lookup C E (set_manual_data st md1) k) with (cache_lookup C E st k).
  change (cache_lookup C E (set_manual_data st md2) k) with (cache_lookup C E st k).
  destruct (cache_lookup C E st k) as [cached|]; [split; reflexivity|].
  cbn [manual_data set_manual_data].
  rewrite <- (build_candidates_non_whitelist md1), <- (build_candidates_non_whitelist md2).
  rewrite <- (get_manual_data_non_whitelist md1 "category") by discriminate.
  rewrite <- (get_manual_data_non_whitelist md2 "category") by discriminate.
  rewrite <- (get_manual_data_non_whitelist md1 "profession") by discriminate.
  rewrite <- (get_manual_data_non_whitelist md2 "profession") by discriminate.
  rewrite Hnw.
  destruct (build_candidates C (non_whitelist md2) site) as [[|c cs]|];
    [| |split; reflexivity].
  { destruct (cold_names _) as [names|]; split; reflexivity. }
  rewrite (pipeline_scores_whitelist E q site uid hist lat lon (c :: cs) st
             md1 md2 wl1 wl2 Hnw Hw1 Hw2).
  destruct (pipeline_scores C E q site uid hist lat lon (c :: cs) (set_manual_data st md2))
    as [[s2|] l2]; split; reflexivity.
Qed.

(** Without the condition on the whitelists: two such runs that both
    return, return the same suggestions, cards and debug trace. A run
    answered from the cache or by the cold start never reads the
    whitelist. *)
Lemma whitelist_unseen_when_both_return
      E q site uid hist lat lon dbg st md1 md2 out1 st1 out2 st2 :
  non_whitelist md1 = non_whitelist md2 ->
  rank_candidates C E q site uid hist lat lon dbg (set_manual_data st md1)
  = (Ok out1, st1) ->
  rank_candidates C E q site uid hist lat lon dbg (set_manual_data st md2)
  = (Ok out2, st2) ->
  out1 = out2 /\ set_manual_data st1 [] = set_manual_data st2 [].
Proof.
  intros Hnw. unfold rank_candidates.
  destruct (cache_key C q site uid lat lon) as [k|]; [|discriminate].
  change (cache_lookup C E (set_manual_data st md1) k) with (cache_lookup C E st k).
  change (cache_lookup C E (set_manual_data st md2) k) with (cache_lookup C E st k).
  destruct (cache_lookup C E st k) as [cached|].
  { intros [= <- <-] [= <- <-]. split; reflexivity. }
  cbn [manual_data set_manual_data].
  rewrite <- (build_candidates_non_whitelist md1), <- (build_candidates_non_whitelist md2).
  rewrite <- (get_manual_data_non_whitelist md1 "category") by discriminate.
  rewrite <- (get_manual_data_non_whitelist md2 "category") by discriminate.
  rewrite <- (get_manual_data_non_whitelist md1 "profession") by discriminate.
  rewrite <- (get_manual_data_non_whitelist md2 "profession") by discriminate.
  rewrite Hnw.
  destruct (build_candidates C (non_whitelist md2) site) as [[|c cs]|]; [| |discriminate].
  { destruct (cold_names _) as [names|]; [|discriminate].
    intros [= <- <-] [= <- <-]. split; reflexivity. }
  destruct (get_whitelist md1) as [wl1|] eqn:Hw1.
  2:{ unfold pipeline_scores. cbn [manual_data set_manual_data]. rewrite Hw1.
      destruct (hybrid_rank C q (c :: cs) (set_manual_data st md1)) as [[r|] l];
        [|discriminate].
      destruct (get_blacklist md1); discriminate. }
  destruct (get_whitelist md2) as [wl2|] eqn:Hw2.
  2:{ intros _. unfold pipeline_scores. cbn [manual_data set_manual_data]. rewrite Hw2.
      destruct (hybrid_rank C q (c :: cs) (set_manual_data st md2)) as [[r|] l];
        [|discriminate].
      destruct (get_blacklist md2); discriminate. }
  rewrite (pipeline_scores_whitelist E q site uid hist lat lon (c :: cs) st
             md1 md2 wl1 wl2 Hnw Hw1 Hw2).
  destruct (pipeline_scores C E q site uid hist lat lon (c :: cs) (set_manual_data st md2))
    as [[s2|] l2]; [|discriminate].
  intros [= <- <-] [= <- <-]. split; reflexivity.
Qed.
(* ===================================================================== *)
(** ** The [/suggest] endpoint and the interaction log                    *)
(* ===================================================================== *)

(** The write to the interaction log sits inside the [try] whose handler
    answers 500: when it raises, the suggestions already computed are
    discarded. (The update of the A/B variant just below it has a [try] of
    its own and cannot fail the request.) *)
Lemma log_write_failure_fails_request E req st sugs cards d st1 :
  db_write_fails E = true ->
  nonempty (strip (current_query req)) = true ->
  rank_candidates C E (strip (current_query req)) (site_data req) (user_id req)
    (user_search_history req) (user_latitude req) (user_longitude req)
    (debug req) st = (Ok (sugs, cards, d), st1) ->
  suggest C AuthTrue E req st = (Resp500 OperationalError, st1).
Proof.
  intros Hdb Hq Hrank. unfold suggest. rewrite Hq. cbn [negb].
  rewrite Hrank. unfold save_search_interaction. now rewrite Hdb.
Qed.

(** With the log writable the same request is answered with what the
    ranking returned. *)
Lemma log_write_success_answers E req st sugs cards d st1 :
  db_write_fails E = false ->
  is_ok (sqlite_bind (user_location req)) = true ->
  ~ (truthy (user_location req) = true /\ is_ok (py_lower (user_location req)) = false) ->
  nonempty (strip (current_query req)) = true ->
  rank_candidates C E (strip (current_query req)) (site_data req) (user_id req)
    (user_search_history req) (user_latitude req) (user_longitude req)
    (debug req) st = (Ok (sugs, cards, d), st1) ->
  exists dbg st2,
    suggest C AuthTrue E req st
    = (Resp200 (strip (current_query req)) sugs cards (user_id req) dbg, st2).
Proof.
  intros Hdb Hbind Hloc Hq Hrank. unfold suggest. rewrite Hq. cbn [negb].
  rewrite Hrank. unfold save_search_interaction. rewrite Hdb.
  destruct (sqlite_bind (user_location req)); [|discriminate Hbind].
  destruct (truthy (user_location req)) eqn:Ht; [|eauto].
  destruct (py_lower (user_location req)) eqn:Hl; [eauto|].
  exfalso. apply Hloc. auto.
Qed.


(** The test [shows_inb] is sound for [shows_in]. *)
Lemma shows_inb_shows_in q cand sugs cards :
  shows_inb C q cand sugs cards = true -> shows_in C q cand sugs cards.
Proof.
  unfold shows_inb, shows_in. intros H.
  apply orb_true_iff in H as [H|H]; apply existsb_exists in H as (x & Hx & Hm).
  - left. exists x. split; [exact Hx|]. now apply String.eqb_eq.
  - right. exists x. split; [exact Hx|].
    apply existsb_exists in Hm as (y & Hy & He).
    apply String.eqb_eq in He. now subst y.
Qed.

End Properties.

(* ===================================================================== *)
(** * Further properties of the service                                *)
(* ===================================================================== *)

Section Further.

Variable C : Collab.

(* ===================================================================== *)
(** ** Strings                                                            *)
(* ===================================================================== *)

Lemma lower_ascii_idem c : lower_ascii (lower_ascii c) = lower_ascii c.
Proof. destruct c as [[] [] [] [] [] [] [] []]; reflexivity. Qed.

Lemma lower_idem s : lower (lower s) = lower s.
Proof.
  induction s as [|c s IH]; [reflexivity|].
  cbn [lower]. now rewrite lower_ascii_idem, IH.
Qed.

Lemma lower_nonempty s : s <> "" -> lower s <> "".
Proof. destruct s; [congruence | discriminate]. Qed.

Lemma prefix_app a b : String.prefix a (a ++ b) = true.
Proof.
  induction a as [|c a IH]; [now destruct b|].
  simpl. destruct (ascii_dec c c); [exact IH | congruence].
Qed.

Lemma contains_here needle hay : String.prefix needle hay = true ->
  contains needle hay = true.
Proof. intros H. destruct hay; cbn [contains]; now rewrite H. Qed.

Lemma contains_skip needle c hay :
  contains needle hay = true -> contains needle (String c hay) = true.
Proof. intros H. cbn [contains]. rewrite H. now destruct (String.prefix _ _). Qed.

(** [needle in pre + needle + post] *)
Lemma contains_app needle pre post :
  contains needle (pre ++ needle ++ post) = true.
Proof.
  induction pre as [|c pre IH].
  - change (contains needle (needle ++ post) = true).
    apply contains_here, prefix_app.
  - change (contains needle (String c (pre ++ needle ++ post)) = true).
    now apply contains_skip.
Qed.

Lemma contains_app_r needle pre hay :
  contains needle hay = true -> contains needle (pre ++ hay) = true.
Proof.
  intros H. induction pre as [|c pre IH]; [exact H|].
  change (contains needle (String c (pre ++ hay)) = true).
  now apply contains_skip.
Qed.

(* ===================================================================== *)
(** ** Quality-control lists                                              *)
(* ===================================================================== *)

Lemma term_of_Some item t :
  term_of item = Ok (Some t) -> t <> "" /\ lower t = t.
Proof.
  unfold term_of. intros H. apply bind_Ok in H as (v & _ & H).
  destruct (truthy v) eqn:Hv; [|discriminate].
  apply bind_Ok in H as (s & Hs & [= <-]).
  unfold py_or in Hs. rewrite Hv in Hs.
  destruct v as [| | | |s0| |]; try discriminate.
  injection Hs as <-. split; [|apply lower_idem].
  apply lower_nonempty. intros ->. discriminate.
Qed.

Lemma terms_of_nonempty_lowercase items terms :
  terms_of items = Ok terms ->
  Forall (fun t => t <> "" /\ lower t = t) terms.
Proof.
  revert terms. induction items as [|item rest IH]; intros terms H.
  - injection H as <-. constructor.
  - cbn [terms_of] in H. apply bind_Ok in H as (o & Ho & H).
    apply bind_Ok in H as (ts & Hts & [= <-]).
    specialize (IH ts Hts). destruct o as [t|]; [|exact IH].
    constructor; [now apply term_of_Some in Ho | exact IH].
Qed.

(** X9. Whenever the blacklist or the whitelist can be read, each of its terms
    is a non-empty string in lower case: a row without a term, or with an
    empty or null one, contributes nothing. In particular no row can
    blacklist every candidate through the empty term, which is a substring
    of every text. *)
Theorem quality_terms_nonempty_lowercase manual terms :
  get_blacklist manual = Ok terms \/ get_whitelist manual = Ok terms ->
  Forall (fun t => t <> "" /\ lower t = t) terms
  /\ blacklisted terms "" = false.
Proof.
  intros H.
  assert (HF : Forall (fun t => t <> "" /\ lower t = t) terms)
    by (destruct H as [H|H]; exact (terms_of_nonempty_lowercase _ _ H)).
  split; [exact HF|]. clear H.
  unfold blacklisted. induction HF as [|t ts [Ht _] _ IH]; [reflexivity|].
  cbn [existsb]. rewrite IH, orb_false_r.
  destruct t; [congruence | reflexivity].
Qed.

(* ===================================================================== *)
(** ** Cold start                                                         *)
(* ===================================================================== *)

(** X11. A rank request that misses the cache and finds no candidate is answered
    with the fixed suggestion, no card and an unchanged state. The names of
    the manual categories and professions are never returned on this path:
    a manual category or profession row is itself a candidate, so with any
    such row the builder's result is not empty. *)
Theorem cold_start_answer E q site uid hist lat lon dbg st k :
  cache_key C q site uid lat lon = Ok k ->
  cache_lookup C E st k = None ->
  build_candidates C (manual_data st) site = Ok [] ->
  rank_candidates C E q site uid hist lat lon dbg st
  = (Ok (["Popular services near you"], [],
         if dbg then DbgReason "cold_start"
         else DbgTriple ["Popular services near you"] []), st)
  /\ get_manual_data (manual_data st) "category" = []
  /\ get_manual_data (manual_data st) "profession" = [].
Proof.
  intros Hk Hl Hb.
  destruct (cold_start_rows_empty C _ _ Hb) as [Hc Hp].
  split; [|split; assumption].
  unfold rank_candidates. rewrite Hk, Hl, Hb, Hc, Hp. reflexivity.
Qed.

(* ===================================================================== *)
(** ** Sorting of the scores                                              *)
(* ===================================================================== *)





(* ===================================================================== *)
(** ** Final deduplication                                                *)
(* ===================================================================== *)

Lemma dedup_limit_app seen final l :
  exists added, dedup_limit seen final l = final ++ added /\ sublist added l.
Proof.
  revert seen final. induction l as [|s rest IH]; intros seen final.
  - exists []. split; [now rewrite app_nil_r | constructor].
  - rewrite dedup_limit_cons. case_bool_decide.
    + destruct (5 <=? length final)%nat.
      * exists []. split; [now rewrite app_nil_r | apply sublist_nil_l].
      * destruct (IH seen final) as (added & -> & Hs).
        exists added. split; [reflexivity | now apply sublist_cons].
    + destruct (5 <=? length (final ++ [s]))%nat.
      * exists [s]. split; [reflexivity|].
        apply sublist_skip, sublist_nil_l.
      * destruct (IH ({[lower s]} ∪ seen) (final ++ [s])) as (added & -> & Hs).
        exists (s :: added). split; [now rewrite <- app_assoc|].
        now apply sublist_skip.
Qed.

Lemma dedup_limit_complete seen final l :
  (forall x, x ∈ seen -> In x (map lower final)) ->
  length (dedup_limit seen final l) < 5 ->
  forall s, In s l -> In (lower s) (map lower (dedup_limit seen final l)).
Proof.
  revert seen final. induction l as [|s0 rest IH]; intros seen final Hseen Hlen s Hin;
    [destruct Hin|].
  rewrite dedup_limit_cons in *. case_bool_decide as Hs0.
  - destruct (5 <=? length final)%nat eqn:H5.
    + apply Nat.leb_le in H5. lia.
    + destruct Hin as [<-|Hin]; [|now apply IH].
      destruct (dedup_limit_app seen final rest) as (added & -> & _).
      rewrite map_app, in_app_iff. left. now apply Hseen.
  - destruct (5 <=? length (final ++ [s0]))%nat eqn:H5.
    + apply Nat.leb_le in H5. lia.
    + assert (Hseen' : forall x, x ∈ {[lower s0]} ∪ seen ->
                                 In x (map lower (final ++ [s0]))).
      { intros x Hx. rewrite map_app, in_app_iff. cbn [map In].
        apply elem_of_union in Hx as [Hx|Hx].
        - apply elem_of_singleton in Hx. auto.
        - left. now apply Hseen. }
      destruct Hin as [<-|Hin]; [|now apply IH].
      destruct (dedup_limit_app ({[lower s0]} ∪ seen) (final ++ [s0]) rest)
        as (added & -> & _).
      rewrite !map_app, !in_app_iff. cbn [map In]. auto.
Qed.

(** X4. The final loop keeps the suggestions in their order, each at its first
    occurrence; and when it returns fewer than five, nothing but repeats
    was dropped: every suggestion it was given is there, up to case. *)
Theorem dedup_limit_first_occurrences l :
  sublist (dedup_limit ∅ [] l) l
  /\ (length (dedup_limit ∅ [] l) < 5 ->
      forall s, In s l -> In (lower s) (map lower (dedup_limit ∅ [] l))).
Proof.
  split.
  - destruct (dedup_limit_app ∅ [] l) as (added & -> & Hs). exact Hs.
  - apply dedup_limit_complete. intros x Hx.
    now apply not_elem_of_empty in Hx.
Qed.

(* ===================================================================== *)
(** ** Suggestion rewriting                                               *)
(* ===================================================================== *)

Lemma format_mentions_base tpl base city :
  In Base tpl -> contains base (format tpl base city) = true.
Proof.
  induction tpl as [|p tpl IH]; intros Hin; [destruct Hin|].
  destruct Hin as [->|Hin].
  - cbn [format].
    change (contains base ("" ++ base ++ format tpl base city) = true).
    apply contains_app.
  - specialize (IH Hin). destruct p; cbn [format]; now apply contains_app_r.
Qed.

Lemma templates_mention_base intent tpl :
  In tpl (default TEMPLATES (assoc intent INTENT_TEMPLATES)) -> In Base tpl.
Proof.
  unfold INTENT_TEMPLATES, TEMPLATES. cbn [assoc].
  repeat (destruct (String.eqb intent _));
    cbn [default In]; intros H;
    repeat (destruct H as [<-|H]; [cbn [In]; auto 6|]); destruct H.
Qed.

(** X5. Whatever the intent, every rewrite of a candidate text contains that
    text; one of the four specific intents gives three rewrites, and any
    other intent, known or not, the five generic ones of
    [rewrite_suggestion]. *)
Theorem rewrite_with_intent_mentions_base base city intent :
  Forall (fun s => contains base s = true) (rewrite_with_intent base city intent)
  /\ (if existsb (String.eqb intent) ["book"; "hire"; "review"; "compare"]
      then length (rewrite_with_intent base city intent) = 3
      else rewrite_with_intent base city intent = rewrite_suggestion base city).
Proof.
  split.
  - unfold rewrite_with_intent. apply Forall_forall. intros s Hs.
    apply list_elem_of_In, in_map_iff in Hs as (tpl & <- & Hin).
    apply format_mentions_base. now apply templates_mention_base in Hin.
  - unfold rewrite_with_intent, rewrite_suggestion, INTENT_TEMPLATES.
    cbn [assoc existsb].
    destruct (String.eqb intent "book"); [cbn [orb]; reflexivity|].
    destruct (String.eqb intent "hire"); [cbn [orb]; reflexivity|].
    destruct (String.eqb intent "review"); [cbn [orb]; reflexivity|].
    destruct (String.eqb intent "compare"); [cbn [orb]; reflexivity|].
    cbn [orb]. destruct (String.eqb intent "generic"); reflexivity.
Qed.

Lemma any_in_lower words q : any_in words (lower (lower q)) = any_in words (lower q).
Proof. now rewrite lower_idem. Qed.

(** X6. The intent of a query does not depend on its case, it is one of the
    five keys of the template table, and a query with a booking word is a
    booking query whatever else it contains; so each top candidate is
    rewritten three times, or five times under the generic intent. *)
Theorem detected_intent_rewrites q base city :
  detect_intent (lower q) = detect_intent q
  /\ In (detect_intent q) (map fst INTENT_TEMPLATES)
  /\ (any_in ["book"; "schedule"; "reserve"] (lower q) = true ->
      detect_intent q = "book")
  /\ length (rewrite_with_intent base city (detect_intent q))
     = (if String.eqb (detect_intent q) "generic" then 5 else 3).
Proof.
  split; [|split; [|split]].
  - unfold detect_intent. now rewrite lower_idem.
  - unfold detect_intent.
    repeat (destruct (any_in _ _); [cbn; auto 6|]). cbn. auto 6.
  - unfold detect_intent. now intros ->.
  - unfold detect_intent.
    repeat (destruct (any_in _ _); [reflexivity|]). reflexivity.
Qed.

(* ===================================================================== *)
(** ** Hybrid ranking                                                     *)
(* ===================================================================== *)

Lemma combine_scores_length sem bm :
  length (combine_scores sem bm) = Nat.min (length sem) (length bm).
Proof.
  revert bm. induction sem as [|s sem IH]; intros [|b bm]; cbn; auto.
Qed.

Lemma map_fst_combine_same {A B : Type} (l : list A) (l' : list B) :
  length l' = length l -> map fst (combine l l') = l.
Proof.
  revert l'. induction l as [|x l IH]; intros [|y l'] H; try discriminate;
    [reflexivity|].
  cbn. f_equal. apply IH. now injection H.
Qed.

Lemma map_snd_combine_same {A B : Type} (l : list A) (l' : list B) :
  length l' = length l -> map snd (combine l l') = l'.
Proof.
  revert l'. induction l as [|x l IH]; intros [|y l'] H; try discriminate;
    [reflexivity|].
  cbn. f_equal. apply IH. now injection H.
Qed.

Lemma prefix_refl p : String.prefix p p = true.
Proof.
  induction p as [|c p IH]; [reflexivity|].
  simpl. destruct (ascii_dec c c); [exact IH | congruence].
Qed.

Lemma join_prefix sep p rest : String.prefix p (join sep (p :: rest)) = true.
Proof.
  destruct rest as [|r rest]; cbn [join]; [apply prefix_refl | apply prefix_app].
Qed.

Lemma hybrid_rank_log q cands st ranked log :
  hybrid_rank C q cands st = (Ok ranked, log) ->
  length log = 2 + length (provider_log st).
Proof.
  unfold hybrid_rank.
  destruct (get_synonyms_map (manual_data st)) as [m|]; [|discriminate].
  destruct (semantic_scores C _ _) as [sem|]; [|discriminate].
  destruct (bm25_scores C _ _) as [bm|]; [|discriminate].
  destruct (_ && _); [|discriminate]. intros [= _ <-].
  rewrite !length_app. cbn [length]. lia.
Qed.

(** X2. Whenever the hybrid ranking returns, it returns the candidates it was
    given, in their order, each with [0.7 * semantic + 0.3 * bm25]; both
    collaborators were called once, with the same expanded query, which
    starts with the query as typed, and with the candidate texts. *)
Theorem hybrid_rank_scores_every_candidate q cands st ranked log :
  hybrid_rank C q cands st = (Ok ranked, log) ->
  map fst ranked = cands
  /\ exists m sem bm,
      get_synonyms_map (manual_data st) = Ok m /\
      String.prefix q (expand_query q m) = true /\
      semantic_scores C (expand_query q m) (map text cands) = Ok sem /\
      bm25_scores C (expand_query q m) (map text cands) = Ok bm /\
      map snd ranked = combine_scores sem bm /\
      log = provider_log st
            ++ [EmbedCall (expand_query q m :: map text cands);
                LexicalCall (expand_query q m) (map text cands)].
Proof.
  unfold hybrid_rank.
  destruct (get_synonyms_map (manual_data st)) as [m|]; [|discriminate].
  destruct (semantic_scores C _ _) as [sem|] eqn:Hsem; [|discriminate].
  destruct (bm25_scores C _ _) as [bm|] eqn:Hbm; [|discriminate].
  destruct (_ && _) eqn:Hlen; [|discriminate].
  apply andb_true_iff in Hlen as [Hs Hb].
  apply Nat.eqb_eq in Hs, Hb. intros [= <- <-].
  assert (Hc : length (combine_scores sem bm) = length cands)
    by (rewrite combine_scores_length, Hs, Hb; apply Nat.min_id).
  split; [now apply map_fst_combine_same|].
  exists m, sem, bm. repeat split; try assumption.
  - apply join_prefix.
  - now apply map_snd_combine_same.
  - now rewrite <- app_assoc.
Qed.

(* ===================================================================== *)
(** ** Location keyword boost                                             *)
(* ===================================================================== *)

Lemma keyword_fold_bounds (p : string -> bool) ks b0 :
  (b0 <= fold_left (fun boost k => if p k then (boost + 0.05)%Q else boost) ks b0)%Q.
Proof.
  revert b0. induction ks as [|k ks IH]; intros b0; cbn [fold_left].
  - apply Qle_refl.
  - eapply Qle_trans; [|apply IH]. destruct (p k); lra.
Qed.

(** X7. The keyword boost, whenever it is computed, lies between 0 and 0.2, and
    it is 0 as soon as the caller's latitude or longitude or the
    candidate's location is missing, zero or empty. *)
Theorem get_location_boost_bounds lat lon loc b :
  get_location_boost lat lon loc = Ok b ->
  (0 <= b)%Q /\ (b <= 0.2)%Q
  /\ (truthy lat && truthy lon && truthy loc = false -> b = 0%Q).
Proof.
  unfold get_location_boost.
  destruct (truthy lat), (truthy lon), (truthy loc); cbn [negb orb andb];
    try (intros [= <-]; split; [lra | split; [lra | reflexivity]]).
  intros H. apply bind_Ok in H as (l & _ & [= <-]).
  split; [|split; [apply Q.le_min_r | discriminate]].
  apply Q.min_glb; [|lra].
  exact (keyword_fold_bounds (fun k => contains k l) location_keywords 0%Q).
Qed.

(* ===================================================================== *)
(** ** Opening hours                                                      *)
(* ===================================================================== *)

Lemma open_in_intervals current ivs :
  open_in current (map interval_of ivs) = Ok (existsb (within current) ivs).
Proof.
  induction ivs as [|[s e] ivs IH]; [reflexivity|].
  cbn [map interval_of open_in py_iter bind fst snd existsb].
  change (within current (s, e))
    with (String.leb s current && String.leb current e).
  destruct (String.leb s current); cbn [andb orb]; [|exact IH].
  destruct (String.leb current e); cbn [orb]; [reflexivity | exact IH].
Qed.

(** X8. A member is open now exactly when one of today's intervals contains
    the current time, both ends included (times compare as strings);
    anything but a non-empty object for [hours], and a day that [hours]
    does not list, count as closed. *)
Theorem is_open_now_intervals E hours :
  (forall d ivs,
      hours = PDict d -> d <> [] ->
      assoc (weekday E) d = Some (PList (map interval_of ivs)) ->
      _is_open_now E hours = Ok (existsb (within (hhmm E)) ivs))
  /\ (forall d, hours = PDict d -> assoc (weekday E) d = None ->
                _is_open_now E hours = Ok false)
  /\ ((forall d, hours <> PDict d) -> _is_open_now E hours = Ok false).
Proof.
  split; [|split].
  - intros d ivs -> Hd Hday. unfold _is_open_now. rewrite Hday.
    destruct d; [congruence|]. cbn [truthy default py_iter bind].
    apply open_in_intervals.
  - intros d -> Hday. unfold _is_open_now. rewrite Hday.
    destruct d; reflexivity.
  - intros Hn. destruct hours; try reflexivity. now destruct (Hn d).
Qed.

(* ===================================================================== *)
(** ** API keys and rate limiting                                         *)
(* ===================================================================== *)

Lemma existsb_eqb_In k keys : existsb (String.eqb k) keys = true <-> In k keys.
Proof.
  rewrite existsb_exists. split.
  - intros (x & Hx & He). apply String.eqb_eq in He. now subst.
  - intros H. exists k. split; [exact H | apply String.eqb_refl].
Qed.

Lemma nonempty_true s : nonempty s = true <-> s <> "".
Proof.
  unfold nonempty. rewrite negb_true_iff. split.
  - intros H ->. discriminate.
  - intros H. apply String.eqb_neq. exact H.
Qed.

(** X18. With the keys configured through the environment variable, a header is
    accepted (answered [True] or ["rate_limited"]) exactly when it is the
    stripped form, not empty, of one of the comma-separated pieces of the
    variable; a request without header, or with any other one, is refused
    and changes no counter. *)
Theorem api_key_accepted_iff env limit key window rl :
  (fst (require_api_key (parse_api_keys env) limit key window rl) <> AuthFalse
   <-> exists piece, In piece (split ","%char env) /\ strip piece <> "" /\
                     key = Some (strip piece))
  /\ (fst (require_api_key (parse_api_keys env) limit key window rl) = AuthFalse ->
      snd (require_api_key (parse_api_keys env) limit key window rl) = rl).
Proof.
  assert (Hin : forall k, In k (parse_api_keys env) <->
                          exists piece, In piece (split ","%char env) /\
                                        strip piece <> "" /\ k = strip piece).
  { intros k. unfold parse_api_keys. rewrite filter_In, in_map_iff, nonempty_true.
    split.
    - intros [(piece & <- & Hp) Hne]. exists piece. auto.
    - intros (piece & Hp & Hne & ->). split; [exists piece; auto | exact Hne]. }
  unfold require_api_key. destruct key as [k|]; cbn [fst snd].
  - destruct (nonempty k) eqn:Hk; cbn [negb orb].
    + destruct (existsb (String.eqb k) (parse_api_keys env)) eqn:Hex; cbn [negb fst snd].
      * apply existsb_eqb_In, Hin in Hex as (piece & Hp & Hne & ->).
        split; [|now destruct (_ <? _)%Z].
        split; [intros _; exists piece; auto | now destruct (_ <? _)%Z].
      * split; [|reflexivity]. split; [intros Hf; exfalso; now apply Hf|].
        intros (piece & Hp & Hne & [= ->]).
        assert (Hc : existsb (String.eqb (strip piece)) (parse_api_keys env) = true)
          by (apply existsb_eqb_In, Hin; exists piece; auto).
        congruence.
    + split; [|reflexivity]. split; [intros Hf; exfalso; now apply Hf|].
      intros (piece & Hp & Hne & [= ->]). apply nonempty_true in Hne. congruence.
  - split; [|reflexivity]. split; [intros Hf; exfalso; now apply Hf|]. now intros (piece & _ & _ & [=]).
Qed.

Lemma require_api_key_valid keys limit k window rl :
  nonempty k = true -> existsb (String.eqb k) keys = true ->
  require_api_key keys limit (Some k) window rl
  = (answer_at limit (counted rl k window + 1),
     <[k := mkRate window (counted rl k window + 1)]> rl).
Proof.
  intros Hk Hin. unfold require_api_key, counted, answer_at. rewrite Hk, Hin.
  cbn [negb orb]. destruct (rl !! k) as [state|]; [|reflexivity].
  destruct (Z.eqb (rl_window state) window); reflexivity.
Qed.

Lemma counted_insert rl k window n :
  counted (<[k := mkRate window n]> rl) k window = n.
Proof.
  unfold counted. rewrite lookup_insert_eq. cbn [rl_window rl_count].
  now rewrite Z.eqb_refl.
Qed.

(** X19. Requests of one valid key within one minute are counted one by one,
    starting from what was already counted in that minute (from nothing
    when the minute is new): the request that brings the count to [c] is
    answered [True] if [c] is at most the limit and ["rate_limited"]
    otherwise. Refused requests are counted too, and the counters of the
    other keys are not touched. *)
Theorem rate_limit_counts_per_minute keys limit k window n rl :
  nonempty k = true ->
  existsb (String.eqb k) keys = true ->
  fst (requests keys limit (Some k) window n rl)
  = map (fun i => answer_at limit (counted rl k window + Z.of_nat i)) (seq 1 n)
  /\ counted (snd (requests keys limit (Some k) window n rl)) k window
     = (counted rl k window + Z.of_nat n)%Z
  /\ forall k', k' <> k ->
                snd (requests keys limit (Some k) window n rl) !! k' = rl !! k'.
Proof.
  intros Hk Hin. revert rl. induction n as [|n IH]; intros rl.
  - cbn [requests fst snd seq map]. split; [reflexivity|].
    split; [now rewrite Z.add_0_r | reflexivity].
  - cbn [requests]. rewrite (require_api_key_valid _ _ _ _ _ Hk Hin).
    specialize (IH (<[k := mkRate window (counted rl k window + 1)]> rl)).
    destruct (requests keys limit (Some k) window n _) as [answers rl2].
    cbn [fst snd] in *. destruct IH as (Ha & Hc & Ho).
    rewrite counted_insert in Ha, Hc. split; [|split].
    + cbn [seq map]. change (Z.of_nat 1) with 1%Z. f_equal.
      rewrite Ha, <- (seq_shift n 1), map_map. apply map_ext. intros i.
      f_equal. lia.
    + rewrite Hc. lia.
    + intros k' Hk'. rewrite (Ho k' Hk'). now apply lookup_insert_ne.
Qed.

(* ===================================================================== *)
(** ** Manual data endpoints                                              *)
(* ===================================================================== *)

Lemma set_manual_data_same st : set_manual_data st (manual_data st) = st.
Proof. now destruct st. Qed.

Lemma get_manual_data_app manual added ty :
  get_manual_data (manual ++ added) ty
  = get_manual_data manual ty ++ get_manual_data added ty.
Proof. unfold get_manual_data. now rewrite List.filter_app, map_app. Qed.

Lemma get_manual_data_other added ty :
  Forall (fun row => fst row <> ty) added -> get_manual_data added ty = [].
Proof.
  unfold get_manual_data. induction 1 as [|row added Hrow _ IH]; [reflexivity|].
  cbn [List.filter]. apply String.eqb_neq in Hrow. now rewrite Hrow.
Qed.

(** The answers of [POST /data] that store nothing. *)
Ltac nothing_stored :=
  intros [= <- <-];
  split; [now intros t [=] | split; [now intros _ | reflexivity]].

Lemma add_data_added db_ok data st t st' :
  add_data AuthTrue db_ok data st = (Ok (DataAdded t), st') ->
  exists content,
    dict_get data "content" (PDict []) = Ok content /\
    manual_data st' = manual_data st ++ [(t, content)].
Proof.
  unfold add_data.
  destruct (dict_get data "type" (PStr "")) as [tv|]; cbn [bind]; [|discriminate].
  destruct (py_strip tv) as [ty|]; cbn [bind]; [|discriminate].
  destruct (dict_get data "content" (PDict [])) as [content|]; cbn [bind];
    [|discriminate].
  destruct (negb (nonempty ty) || negb (truthy content)); [discriminate|].
  destruct (negb (existsb (String.eqb ty) valid_types)); [discriminate|].
  unfold add_manual_data. destruct db_ok; [|discriminate].
  intros [= <- <-]. exists content. split; reflexivity.
Qed.

(** X20. [POST /data] stores a row exactly when it answers [data_added]: the
    type is then one of the seven valid ones, the content is what the body
    carried, and reading the rows of that type back gives the old ones
    followed by the new content. Every other answer leaves the state as it
    was. The result cache is never touched, so results stored before the
    change are still replayed. *)
Theorem add_data_round_trip auth db_ok data st r st' :
  add_data auth db_ok data st = (r, st') ->
  (forall t, r = Ok (DataAdded t) ->
             In t valid_types /\
             exists content,
               dict_get data "content" (PDict []) = Ok content /\
               truthy content = true /\
               manual_data st' = manual_data st ++ [(t, content)] /\
               get_manual_data (manual_data st') t
               = get_manual_data (manual_data st) t ++ [content])
  /\ ((forall t, r <> Ok (DataAdded t)) -> st' = st)
  /\ SUGGESTION_CACHE st' = SUGGESTION_CACHE st.
Proof.
  unfold add_data. destruct auth; try nothing_stored.
  destruct (dict_get data "type" (PStr "")) as [tv|] eqn:Htv; cbn [bind];
    [|nothing_stored].
  destruct (py_strip tv) as [ty|] eqn:Hty; cbn [bind];
    [|nothing_stored].
  destruct (dict_get data "content" (PDict [])) as [content|] eqn:Hc; cbn [bind];
    [|nothing_stored].
  destruct (nonempty ty) eqn:Hne; cbn [negb orb];
    [|nothing_stored].
  destruct (truthy content) eqn:Htr; cbn [negb];
    [|nothing_stored].
  destruct (existsb (String.eqb ty) valid_types) eqn:Hv; cbn [negb];
    [|nothing_stored].
  unfold add_manual_data. destruct db_ok; intros [= <- <-].
  - split; [|split; [|reflexivity]].
    + intros t [= <-]. split; [now apply existsb_eqb_In|].
      exists content. repeat split; try assumption.
      cbn [set_manual_data manual_data]. rewrite get_manual_data_app.
      unfold get_manual_data at 2. cbn [List.filter fst].
      now rewrite String.eqb_refl.
    + intros Hn. now destruct (Hn ty).
  - split; [discriminate|]. split; [|reflexivity].
    intros _. apply set_manual_data_same.
Qed.

Lemma terms_of_app items1 items2 ts1 ts2 :
  terms_of items1 = Ok ts1 -> terms_of items2 = Ok ts2 ->
  terms_of (items1 ++ items2) = Ok (ts1 ++ ts2).
Proof.
  revert ts1. induction items1 as [|item rest IH]; intros ts1 H1 H2.
  - injection H1 as <-. exact H2.
  - cbn [terms_of app] in *. apply bind_Ok in H1 as (o & Ho & H1).
    apply bind_Ok in H1 as (ts & Hts & [= <-]).
    rewrite Ho. cbn [bind]. rewrite (IH ts Hts H2). cbn [bind].
    now destruct o.
Qed.

(** X21. A blacklist row added through [POST /data] is read back by
    [get_blacklist] as the last term, in lower case. *)
Theorem added_blacklist_term_is_listed db_ok data st st' d term bl :
  add_data AuthTrue db_ok data st = (Ok (DataAdded "blacklist"), st') ->
  dict_get data "content" (PDict []) = Ok (PDict d) ->
  assoc "term" d = Some (PStr term) ->
  term <> "" ->
  get_blacklist (manual_data st) = Ok bl ->
  get_blacklist (manual_data st') = Ok (bl ++ [lower term]).
Proof.
  intros Hadd Hd Hterm Hne Hbl.
  destruct (add_data_added _ _ _ _ _ Hadd) as (content & Hc & Hget).
  rewrite Hd in Hc. injection Hc as <-.
  unfold get_blacklist in *. rewrite Hget, get_manual_data_app.
  change (get_manual_data [("blacklist", PDict d)] "blacklist") with [PDict d].
  apply terms_of_app; [exact Hbl|].
  cbn [terms_of term_of dict_get bind]. rewrite Hterm.
  cbn [truthy py_or]. destruct term; [congruence|]. reflexivity.
Qed.

Lemma import_item_spec db_ok it manual ok manual' :
  import_item db_ok it manual = (ok, manual') ->
  (ok = false /\ manual' = manual)
  \/ (ok = true /\ exists row, manual' = manual ++ [row] /\ In (fst row) batch_types).
Proof.
  unfold import_item.
  destruct (_ <- dict_get it "type" PNone ;; _) as [[t c]|];
    [|intros [= <- <-]; now left].
  destruct (existsb (String.eqb t) batch_types) eqn:Ht; cbn [negb orb];
    [|intros [= <- <-]; now left].
  destruct (truthy c); cbn [negb]; [|intros [= <- <-]; now left].
  unfold add_manual_data. destruct db_ok; intros [= <- <-]; [|now left].
  right. split; [reflexivity|]. exists (t, c). split; [reflexivity|].
  now apply existsb_eqb_In.
Qed.

Lemma import_items_spec db_ok i items success failed manual s f manual' :
  import_items db_ok i items success failed manual = (s, f, manual') ->
  s + f = success + failed + length items
  /\ exists added,
      manual' = manual ++ added /\ success + length added = s /\
      Forall (fun row => In (fst row) batch_types) added.
Proof.
  revert i success failed manual.
  induction items as [|it rest IH]; intros i success failed manual H.
  - injection H as <- <- <-. split; [cbn; lia|].
    exists []. rewrite app_nil_r. cbn. auto.
  - cbn [import_items] in H.
    destruct (import_item (db_ok i) it manual) as [ok manual1] eqn:Hit.
    apply import_item_spec in Hit as [[-> ->] | [-> (row & -> & Hrow)]].
    + apply IH in H as (Hsum & added & -> & Hlen & Hall).
      split; [cbn [length]; lia|]. exists added. auto.
    + apply IH in H as (Hsum & added & -> & Hlen & Hall).
      split; [cbn [length]; lia|]. exists (row :: added).
      rewrite <- app_assoc. cbn [app length]. repeat split; [lia|].
      now constructor.
Qed.

(** X22. [POST /batch_import] accounts for every item: the numbers it reports
    as imported and failed add up to the number of items, the database
    gains exactly one row per imported item and loses none, and every new
    row is a category, member, profession or location. A batch can
    therefore never change the blacklist, the whitelist or the
    synonyms. *)
Theorem batch_import_accounting db_ok data st imported failed st' :
  batch_import AuthTrue db_ok data st = (Ok (BatchOk imported failed), st') ->
  exists items added,
    dict_get data "items" (PList []) = Ok (PList items) /\
    imported + failed = length items /\
    manual_data st' = manual_data st ++ added /\
    length added = imported /\
    Forall (fun row => In (fst row) batch_types) added /\
    get_blacklist (manual_data st') = get_blacklist (manual_data st) /\
    get_whitelist (manual_data st') = get_whitelist (manual_data st) /\
    get_synonyms_map (manual_data st') = get_synonyms_map (manual_data st).
Proof.
  unfold batch_import.
  destruct (dict_get data "items" (PList [])) as [[| | | | |[|it its]|]|] eqn:Hd;
    try discriminate.
  destruct (import_items db_ok 0 (it :: its) 0 0 (manual_data st))
    as [[s f] manual] eqn:Hi.
  intros [= <- <- <-]. apply import_items_spec in Hi as (Hsum & added & -> & Hlen & Hall).
  exists (it :: its), added. cbn [set_manual_data manual_data].
  assert (Hother : forall ty, ~ In ty batch_types ->
                              get_manual_data (manual_data st ++ added) ty
                              = get_manual_data (manual_data st) ty).
  { intros ty Hty.
    rewrite get_manual_data_app, (get_manual_data_other added ty);
      [apply app_nil_r|].
    eapply Forall_impl; [exact Hall|]. intros row Hrow Heq. subst ty. contradiction. }
  assert (Hnot : forall ty, existsb (String.eqb ty) batch_types = false ->
                            ~ In ty batch_types).
  { intros ty Hf Hin. apply existsb_eqb_In in Hin. congruence. }
  repeat split; try assumption; try lia;
    unfold get_blacklist, get_whitelist, get_synonyms_map;
    rewrite Hother; try reflexivity; now apply Hnot.
Qed.

(* ===================================================================== *)
(** ** Tokenizer                                                          *)
(* ===================================================================== *)

Lemma list_ascii_app r s :
  list_ascii_of_string (r ++ s) = list_ascii_of_string r ++ list_ascii_of_string s.
Proof. induction r as [|c r IH]; [reflexivity|]. simpl. now rewrite IH. Qed.

Lemma length_app_one w c : String.length (w ++ String c "") = S (String.length w).
Proof. induction w as [|c0 w IH]; [reflexivity|]. simpl. now rewrite IH. Qed.

Lemma is_word_snoc w c :
  is_word w = true -> is_word_char c = true -> is_word (w ++ String c "") = true.
Proof.
  destruct w as [|c0 r]; [discriminate|]. cbn [is_word]. intros H Hc.
  apply andb_true_iff in H as [H0 Hr].
  change (String c0 r ++ String c "")%string with (String c0 (r ++ String c "")).
  cbn [is_word]. rewrite H0, list_ascii_app, forallb_app, Hr. cbn. now rewrite Hc.
Qed.

Lemma emit_word_ok cur :
  (forall w, cur = Some w -> is_word w = true) ->
  Forall (fun w => (2 <= String.length w)%nat /\ is_word w = true) (emit_word cur).
Proof.
  intros H. destruct cur as [w|]; [|constructor]. cbn [emit_word].
  destruct (2 <=? String.length w)%nat eqn:Hl; [|constructor].
  apply Nat.leb_le in Hl. constructor; [|constructor]. auto.
Qed.

Lemma findall_words_ok cur s :
  (forall w, cur = Some w -> is_word w = true) ->
  Forall (fun w => (2 <= String.length w)%nat /\ is_word w = true)
         (findall_words cur s).
Proof.
  revert cur. induction s as [|c s IH]; intros cur Hcur; cbn [findall_words].
  - now apply emit_word_ok.
  - destruct cur as [w|].
    + destruct (is_word_char c) eqn:Hc.
      * apply IH. intros w' [= <-]. apply is_word_snoc; auto.
      * apply Forall_app. split; [now apply emit_word_ok|].
        apply IH. discriminate.
    + destruct (is_letter c) eqn:Hc; apply IH; [|discriminate].
      intros w' [= <-]. cbn. now rewrite Hc.
Qed.

Lemma lower_length w : String.length (lower w) = String.length w.
Proof. induction w as [|c w IH]; [reflexivity|]. simpl. now rewrite IH. Qed.

Lemma is_letter_lower c : is_letter c = true -> is_letter (lower_ascii c) = true.
Proof. destruct c as [[] [] [] [] [] [] [] []]; intros H; exact H || reflexivity. Qed.

Lemma is_word_char_lower c :
  is_word_char c = true -> is_word_char (lower_ascii c) = true.
Proof. destruct c as [[] [] [] [] [] [] [] []]; intros H; exact H || reflexivity. Qed.

Lemma forallb_word_lower r :
  forallb is_word_char (list_ascii_of_string r) = true ->
  forallb is_word_char (list_ascii_of_string (lower r)) = true.
Proof.
  induction r as [|c r IH]; [reflexivity|]. cbn [lower list_ascii_of_string forallb].
  intros H. apply andb_true_iff in H as [Hc Hr].
  now rewrite (is_word_char_lower _ Hc), (IH Hr).
Qed.

Lemma is_word_lower w : is_word w = true -> is_word (lower w) = true.
Proof.
  destruct w as [|c r]; [discriminate|]. cbn [is_word lower]. intros H.
  apply andb_true_iff in H as [Hc Hr].
  now rewrite (is_letter_lower _ Hc), (forallb_word_lower _ Hr).
Qed.

(** X23. Every token has at least two characters, starts with a letter, consists
    of letters, hyphens and apostrophes, and is in lower case: one-letter
    words, digits and punctuation never reach the lexical scorer. *)
Theorem tokenize_words s :
  Forall (fun t => (2 <= String.length t)%nat /\ is_word t = true /\ lower t = t)
         (tokenize s).
Proof.
  unfold tokenize. apply Forall_map.
  eapply Forall_impl; [apply (findall_words_ok None s); discriminate|].
  intros w [Hl Hw]. cbn beta. rewrite lower_length, lower_idem.
  auto using is_word_lower.
Qed.

(* ===================================================================== *)
(** ** What a rank request changes                                        *)
(* ===================================================================== *)

(** A rank request writes the three caches of the process and, in the
    model, the provider log; the database and the learning counters are
    not touched. *)
Lemma rank_candidates_frame E q site uid hist lat lon dbg st r st' :
  rank_candidates C E q site uid hist lat lon dbg st = (r, st') ->
  manual_data st' = manual_data st /\
  search_history st' = search_history st /\
  query_patterns st' = query_patterns st /\
  successful_suggestions st' = successful_suggestions st /\
  location_patterns st' = location_patterns st.
Proof.
  unfold rank_candidates.
  destruct (cache_key C q site uid lat lon) as [k|]; [|intros [= _ <-]; auto].
  destruct (cache_lookup C E st k); [intros [= _ <-]; auto|].
  destruct (build_candidates C (manual_data st) site) as [[|c cs]|];
    [| |intros [= _ <-]; auto].
  - destruct (cold_names _); intros [= _ <-]; auto.
  - destruct (pipeline_scores C E q site uid hist lat lon (c :: cs) st)
      as [[scores|] log]; intros [= _ <-]; auto.
Qed.

Lemma rank_candidates_Raise E q site uid hist lat lon dbg st e st' :
  rank_candidates C E q site uid hist lat lon dbg st = (Raise e, st') ->
  set_provider_log st' (provider_log st) = st.
Proof.
  unfold rank_candidates.
  destruct (cache_key C q site uid lat lon) as [k|];
    [|intros [= _ <-]; now destruct st].
  destruct (cache_lookup C E st k); [discriminate|].
  destruct (build_candidates C (manual_data st) site) as [[|c cs]|];
    [| |intros [= _ <-]; now destruct st].
  - destruct (cold_names _); [discriminate|intros [= _ <-]; now destruct st].
  - destruct (pipeline_scores C E q site uid hist lat lon (c :: cs) st)
      as [[scores|] log]; [discriminate|].
    intros [= _ <-]. now destruct st.
Qed.

(** X16. When the ranking raises (a malformed catalog record, a failure of the
    embedding provider or of the lexical scorer, an unreadable blacklist),
    [/suggest] answers 500 with that error; nothing is cached, no
    interaction is logged and no counter moves: apart from the provider
    log of the model the state is as before. *)
Theorem failed_ranking_changes_nothing E req st e st1 :
  nonempty (strip (current_query req)) = true ->
  rank_candidates C E (strip (current_query req)) (site_data req) (user_id req)
    (user_search_history req) (user_latitude req) (user_longitude req)
    (debug req) st = (Raise e, st1) ->
  suggest C AuthTrue E req st = (Resp500 e, st1)
  /\ set_provider_log st1 (provider_log st) = st.
Proof.
  intros Hq Hr. split; [|exact (rank_candidates_Raise _ _ _ _ _ _ _ _ _ _ _ Hr)].
  unfold suggest. rewrite Hq. cbn [negb]. now rewrite Hr.
Qed.

Lemma NoDup_snoc {A : Type} (l : list A) (x : A) :
  ~ In x l -> NoDup l -> NoDup (l ++ [x]).
Proof.
  intros Hx Hl. apply NoDup_app. split; [exact Hl|]. split.
  - intros y Hy Hy'. apply list_elem_of_In in Hy.
    apply list_elem_of_singleton in Hy'. now subst.
  - apply NoDup_singleton.
Qed.

Lemma history_of_record_result st k q uid entry u :
  history_of (record_result st k q uid entry) u
  = if String.eqb u uid
    then (if existsb (String.eqb q) (history_of st uid)
          then history_of st uid else history_of st uid ++ [q])
    else history_of st u.
Proof.
  unfold history_of at 1. cbn [record_result USER_HISTORY_CACHE].
  destruct (String.eqb_spec u uid) as [->|Hu].
  - destruct (existsb _ _); now rewrite lookup_insert_eq.
  - destruct (existsb _ _); rewrite lookup_insert_ne by congruence; reflexivity.
Qed.

(** X13. A scored run records the query in the history cache of the user,
    unless it is there already, so a history without repeats stays
    without repeats; it leaves the histories of the other users alone and
    counts the query, in lower case, once more as popular. *)
Theorem scored_run_learns_query
        E q site uid hist lat lon dbg st sugs cards d st' k cands :
  cache_key C q site uid lat lon = Ok k ->
  cache_lookup C E st k = None ->
  build_candidates C (manual_data st) site = Ok cands ->
  cands <> [] ->
  rank_candidates C E q site uid hist lat lon dbg st = (Ok (sugs, cards, d), st') ->
  In q (history_of st' uid)
  /\ (In q (history_of st uid) -> history_of st' uid = history_of st uid)
  /\ (~ In q (history_of st uid) -> history_of st' uid = history_of st uid ++ [q])
  /\ (NoDup (history_of st uid) -> NoDup (history_of st' uid))
  /\ (forall u, u <> uid -> history_of st' u = history_of st u)
  /\ POPULAR_QUERIES st' !! lower q
     = Some (default 0%Z (POPULAR_QUERIES st !! lower q) + 1)%Z.
Proof.
  intros Hk Hl Hb Hne H. apply rank_candidates_cases in H
    as (k' & Hk' & [(e & Hl' & _) | [(_ & Hb' & _)
                   | (_ & cands' & scores & log & di & _ & _ & _ & _ & _ & ->)]]).
  - rewrite Hk in Hk'. injection Hk' as <-. congruence.
  - rewrite Hb in Hb'. now injection Hb' as ->.
  - assert (Hu : forall u, u <> uid ->
                           history_of (record_result (set_provider_log st log) k' q uid
                                         {| ts := now_ts E; c_suggestions := sugs;
                                            c_cards := cards; c_debug := di |}) u
                           = history_of st u).
    { intros u Hu. rewrite history_of_record_result.
      destruct (String.eqb_spec u uid); [contradiction | reflexivity]. }
    assert (Hp : POPULAR_QUERIES
                   (record_result (set_provider_log st log) k' q uid
                      {| ts := now_ts E; c_suggestions := sugs;
                         c_cards := cards; c_debug := di |}) !! lower q
                 = Some (default 0%Z (POPULAR_QUERIES st !! lower q) + 1)%Z).
    { cbn [record_result POPULAR_QUERIES]. unfold bump.
      now rewrite lookup_insert_eq. }
    rewrite history_of_record_result, String.eqb_refl.
    change (history_of (set_provider_log st log) uid) with (history_of st uid).
    destruct (existsb (String.eqb q) (history_of st uid)) eqn:Hex.
    + apply existsb_eqb_In in Hex.
      split; [exact Hex|]. split; [reflexivity|].
      split; [intros Hn; contradiction|]. split; [auto|]. split; [exact Hu | exact Hp].
    + assert (Hnin : ~ In q (history_of st uid)).
      { intros Hin. apply existsb_eqb_In in Hin. congruence. }
      split; [apply in_app_iff; right; now left|].
      split; [intros Hin; contradiction|]. split; [reflexivity|].
      split; [intros Hnd; now apply NoDup_snoc|]. split; [exact Hu | exact Hp].
Qed.
(* ===================================================================== *)
(** ** The interaction logged by [/suggest]                               *)
(* ===================================================================== *)





(* ===================================================================== *)
(** ** Member cards                                                       *)
(* ===================================================================== *)

Lemma flat_map_card_length top : length (flat_map card_of top) <= length top.
Proof.
  induction top as [|x top IH]; [reflexivity|].
  cbn [flat_map]. rewrite length_app. cbn [length].
  assert (length (card_of x) <= 1)
    by (unfold card_of; destruct (_ && _); cbn; lia).
  lia.
Qed.

Lemma rank_candidates_cards E q site uid hist lat lon dbg st sugs cards d st' :
  cards_ok st ->
  rank_candidates C E q site uid hist lat lon dbg st = (Ok (sugs, cards, d), st') ->
  length cards <= 5.
Proof.
  intros Hc H. apply rank_candidates_cases in H
    as (k & Hk & [(e & Hl & _ & -> & _) | [(_ & _ & _ & -> & _)
                 | (_ & cands & scores & log & di & _ & _ & _ & _ & -> & _)]]).
  - unfold cache_lookup in Hl.
    destruct (SUGGESTION_CACHE st !! k) as [e'|] eqn:He; [|discriminate].
    destruct (Qle_bool _ _); [|discriminate]. injection Hl as <-.
    exact (Hc k e' He).
  - cbn. lia.
  - etransitivity; [apply flat_map_card_length|]. apply firstn_le_length.
Qed.

Lemma reachable_cards_ok st : reachable C st -> cards_ok st.
Proof.
  induction 1 as [manual rows | st E q site uid hist lat lon dbg r st' _ IH H
                 | st st' _ IH Hc].
  - intros k e He. cbn in He. now rewrite lookup_empty in He.
  - destruct (rank_candidates_cache C _ _ _ _ _ _ _ _ _ _ _ H)
      as [Hsame | (k & sugs & cards & d & di & _ & _ & -> & Hins)].
    + intros k e. rewrite Hsame. apply IH.
    + intros k' e. rewrite Hins, lookup_insert. case_decide.
      * intros [= <-]. cbn [c_cards].
        exact (rank_candidates_cards _ _ _ _ _ _ _ _ _ _ _ _ _ IH H).
      * apply IH.
  - intros k e. rewrite Hc. apply IH.
Qed.

(** X14. Every rank request served by a running process returns at most five
    member cards, also when they are replayed from the cache. *)
Theorem cards_capped E q site uid hist lat lon dbg st sugs cards d st' :
  reachable C st ->
  rank_candidates C E q site uid hist lat lon dbg st = (Ok (sugs, cards, d), st') ->
  length cards <= 5.
Proof.
  intros Hr H. apply reachable_cards_ok in Hr.
  exact (rank_candidates_cards _ _ _ _ _ _ _ _ _ _ _ _ _ Hr H).
Qed.

Lemma card_of_In x card :
  In card (card_of x) ->
  title card = text (scored_cand x) /\
  In (type (scored_cand x)) card_types /\
  (truthy (card_profile_url card) = true \/ truthy (member_id card) = true) /\
  distance_km card = option_map (fun dist => py_round dist 2) (scored_dist x).
Proof.
  unfold card_of, card_types.
  destruct (existsb (String.eqb (type (scored_cand x))) _) eqn:Ht;
    cbn [andb]; [|intros H; now apply in_nil in H].
  destruct (truthy (cand_get (scored_cand x) "profile_url" PNone)
            || truthy (cand_get (scored_cand x) "id" PNone)) eqn:Hp;
    [|intros H; now apply in_nil in H].
  intros [<- | H]; [|now apply in_nil in H].
  cbn [title card_profile_url member_id distance_km].
  apply existsb_eqb_In in Ht. apply orb_true_iff in Hp. tauto.
Qed.

(** X15. On a scored run every card shows one of the built candidates: its
    title is the text of a candidate that comes from a catalog member
    (its name, a tag or its review) and that has a profile address or an
    identifier. Categories and manual rows never get a card. *)
Theorem cards_show_member_candidates
        E q site uid hist lat lon dbg st sugs cards d st' k cands :
  cache_key C q site uid lat lon = Ok k ->
  cache_lookup C E st k = None ->
  rank_candidates C E q site uid hist lat lon dbg st = (Ok (sugs, cards, d), st') ->
  build_candidates C (manual_data st) site = Ok cands ->
  cands <> [] ->
  Forall (fun card =>
            exists cand, In cand cands /\ title card = text cand /\
                         In (type cand) card_types /\
                         (truthy (card_profile_url card) = true
                          \/ truthy (member_id card) = true))
         cards.
Proof.
  intros Hk Hl H Hb Hne.
  destruct (scored_run C _ _ _ _ _ _ _ _ _ _ _ _ _ _ _ Hk Hl H Hb Hne)
    as (scores & log & Hp & -> & _).
  apply Forall_forall. intros card Hin. apply list_elem_of_In, in_flat_map in Hin
    as (x & Hx & Hc).
  apply firstn_In in Hx.
  destruct (pipeline_scores_In C _ _ _ _ _ _ _ _ _ _ _ _ Hp Hx)
    as (_ & _ & _ & _ & _ & Hcand & _).
  apply card_of_In in Hc as (Ht & Hty & Hurl & _).
  exists (scored_cand x). auto.
Qed.

(* ===================================================================== *)
(** ** Texts and types of the built candidates                            *)
(* ===================================================================== *)

Lemma mapM_concat_Forall {A B : Type} (P : B -> Prop) (f : A -> exc (list B)) l ys :
  (forall x out, f x = Ok out -> Forall P out) ->
  mapM f l = Ok ys -> Forall P (concat ys).
Proof.
  intros Hf. revert ys. induction l as [|x l IH]; intros ys H.
  - injection H as <-. constructor.
  - cbn [mapM] in H. destruct (f x) as [out|] eqn:Hx; [|discriminate].
    destruct (mapM f l) as [outs|]; [|discriminate]. injection H as <-.
    cbn [concat]. apply Forall_app. split; [now apply (Hf x) | now apply IH].
Qed.

(** Membership in one of the literal lists of types. *)
Ltac pick :=
  unfold candidate_types, unnamed_types; cbn [In type text];
  repeat (first [left; reflexivity | right]).

Lemma named_well_formed t ty attributes :
  nonempty t = true -> In ty candidate_types ->
  well_formed_candidate (mkCand t ty attributes).
Proof.
  intros Ht Hty. split; [exact Hty|]. cbn [text]. intros ->. discriminate.
Qed.

Lemma nonempty_app_l a b : nonempty a = true -> nonempty (a ++ b) = true.
Proof. destruct a; [discriminate | reflexivity]. Qed.

Lemma category_candidates_well_formed cat out :
  category_candidates cat = Ok out -> Forall well_formed_candidate out.
Proof.
  unfold category_candidates. intros H.
  apply bind_Ok in H as (topv & _ & H). apply bind_Ok in H as (top & _ & H).
  apply bind_Ok in H as (subv & _ & H). apply bind_Ok in H as (sub & _ & H).
  apply bind_Ok in H as (ssv & _ & H). apply bind_Ok in H as (subsub & _ & [= <-]).
  destruct (nonempty top) eqn:Ht; cbn [andb app]; [|constructor].
  constructor; [apply named_well_formed; cbn; auto|].
  destruct (nonempty sub); cbn [andb app]; [|constructor].
  constructor; [apply named_well_formed; [now apply nonempty_app_l | pick]|].
  destruct (nonempty subsub); [|constructor].
  constructor; [|constructor].
  apply named_well_formed; [now apply nonempty_app_l | pick].
Qed.

Lemma member_candidates_well_formed mem out :
  member_candidates C mem = Ok out -> Forall well_formed_candidate out.
Proof.
  unfold member_candidates. intros H.
  do 21 (apply bind_Ok in H as (? & _ & H)).
  match type of H with
  | bind (if truthy ?rv then _ else _) _ = _ =>
      destruct (truthy rv) eqn:Hrv
  end.
  - apply bind_Ok in H as (revs & Hr & [= <-]).
    apply bind_Ok in Hr as (r & Hr & [= <-]).
    apply Forall_app. split; [|apply Forall_app; split].
    + destruct (nonempty _) eqn:Hn; constructor; [|constructor].
      apply named_well_formed; [exact Hn | pick].
    + apply Forall_map, Forall_forall. intros t Ht.
      apply list_elem_of_In, filter_In in Ht as [_ Ht].
      apply named_well_formed; [exact Ht | pick].
    + constructor; [|constructor]. apply named_well_formed; [|pick].
      match type of Hr with text_of ?v = _ => destruct v; try discriminate end.
      injection Hr as <-. exact Hrv.
  - cbn [bind] in H. injection H as <-.
    apply Forall_app. split; [|apply Forall_app; split; [|constructor]].
    + destruct (nonempty _) eqn:Hn; constructor; [|constructor].
      apply named_well_formed; [exact Hn | pick].
    + apply Forall_map, Forall_forall. intros t Ht.
      apply list_elem_of_In, filter_In in Ht as [_ Ht].
      apply named_well_formed; [exact Ht | pick].
Qed.

Lemma manual_candidates_well_formed item out :
  manual_candidates item = Ok out -> Forall well_formed_candidate out.
Proof.
  unfold manual_candidates.
  destruct (String.eqb (fst item) "category");
    [|destruct (String.eqb (fst item) "member");
      [|destruct (String.eqb (fst item) "profession");
        [|destruct (String.eqb (fst item) "location")]]]; intros H.
  - apply bind_Ok in H as (n & _ & H). apply bind_Ok in H as (t & _ & [= <-]).
    constructor; [|constructor]. split; [pick | intros _; pick].
  - apply bind_Ok in H as (n & _ & H). apply bind_Ok in H as (l & _ & H).
    apply bind_Ok in H as (r & _ & H).
    destruct (truthy n) eqn:Hn; [|injection H as <-; constructor].
    apply bind_Ok in H as (t & Ht & [= <-]). constructor; [|constructor].
    apply named_well_formed; [|pick].
    destruct n; try discriminate. injection Ht as <-. exact Hn.
  - apply bind_Ok in H as (n & _ & H). apply bind_Ok in H as (t & _ & [= <-]).
    constructor; [|constructor]. split; [pick | intros _; pick].
  - apply bind_Ok in H as (n & _ & H). apply bind_Ok in H as (t & _ & [= <-]).
    constructor; [|constructor]. split; [pick | intros _; pick].
  - injection H as <-. constructor.
Qed.

(** X1. Whenever the builder returns, every candidate has one of the ten
    types, and a candidate with an empty text can only be a manual
    category, profession or location row that was stored without a name:
    whatever comes from the catalog, and every manual member, has a
    non-empty text. *)
Theorem built_candidates_well_formed manual site out :
  build_candidates C manual site = Ok out ->
  Forall well_formed_candidate out.
Proof.
  unfold build_candidates, emit_candidates. intros H.
  apply bind_Ok in H as (emitted & He & [= <-]).
  apply bind_Ok in He as (cats & Hc & He).
  apply bind_Ok in He as (mems & Hm & He).
  apply bind_Ok in He as (mans & Hn & [= <-]).
  assert (Hall : Forall well_formed_candidate (cats ++ mems ++ mans)).
  { apply Forall_app. split; [|apply Forall_app; split].
    - unfold category_part in Hc. apply bind_Ok in Hc as (v & _ & Hc).
      apply bind_Ok in Hc as (l & _ & Hc). apply bind_Ok in Hc as (ys & Hy & [= <-]).
      exact (mapM_concat_Forall _ _ _ _ category_candidates_well_formed Hy).
    - unfold member_part in Hm. apply bind_Ok in Hm as (v & _ & Hm).
      apply bind_Ok in Hm as (l & _ & Hm). apply bind_Ok in Hm as (ys & Hy & [= <-]).
      exact (mapM_concat_Forall _ _ _ _ member_candidates_well_formed Hy).
    - unfold manual_part in Hn. apply bind_Ok in Hn as (ys & Hy & [= <-]).
      exact (mapM_concat_Forall _ _ _ _ manual_candidates_well_formed Hy). }
  unfold dedup. eapply Forall_forall. intros c Hc'.
  rewrite Forall_forall in Hall. apply Hall.
  eapply elem_of_sublist; [exact Hc'|]. apply dedup_from_sublist.
Qed.

(* ===================================================================== *)
(** ** Synonym map                                                        *)
(* ===================================================================== *)

Lemma dict_set_keys {A : Type} k (v : A) d :
  map fst (dict_set k v d)
  = if existsb (String.eqb k) (map fst d) then map fst d else map fst d ++ [k].
Proof.
  induction d as [|[k' v'] d IH]; [reflexivity|].
  cbn [dict_set map fst existsb].
  destruct (String.eqb_spec k k') as [->|Hk]; cbn [orb map fst]; [reflexivity|].
  rewrite IH. now destruct (existsb _ _).
Qed.

Lemma dict_set_Forall {A : Type} (P : string * A -> Prop) k v d :
  P (k, v) -> Forall P d -> Forall P (dict_set k v d).
Proof.
  intros Hkv. induction 1 as [|[k' v'] d Hx Hd IH]; cbn [dict_set].
  - repeat constructor. exact Hkv.
  - destruct (String.eqb k k'); constructor; assumption.
Qed.

Lemma synonyms_from_bases items maps m :
  synonyms_from items maps = Ok m ->
  Forall (fun bt => fst bt <> "" /\ lower (fst bt) = fst bt) maps ->
  NoDup (map fst maps) ->
  Forall (fun bt => fst bt <> "" /\ lower (fst bt) = fst bt) m /\ NoDup (map fst m).
Proof.
  revert maps. induction items as [|item rest IH]; intros maps H HF HN.
  - injection H as <-. auto.
  - cbn [synonyms_from] in H. apply bind_Ok in H as ([base terms] & He & H).
    cbn [fst snd] in H. revert H.
    destruct (String.eqb_spec base "") as [->|Hb]; intros H;
      [exact (IH maps H HF HN)|].
    apply (IH _ H).
    + apply dict_set_Forall; [|exact HF]. cbn [fst]. split; [exact Hb|].
      unfold synonym_entry in He. apply bind_Ok in He as (b & _ & He).
      apply bind_Ok in He as (base' & Hl & He).
      apply bind_Ok in He as (tv & _ & He). apply bind_Ok in He as (tl & _ & He).
      apply bind_Ok in He as (ts & _ & [= <- <-]).
      destruct (py_or b (PStr "")); try discriminate. injection Hl as <-.
      apply lower_idem.
    + rewrite dict_set_keys. destruct (existsb _ _) eqn:Hex; [exact HN|].
      apply NoDup_snoc; [|exact HN]. intros Hin.
      apply existsb_eqb_In in Hin. congruence.
Qed.

(** X10. Whenever the synonym map can be read, its bases are pairwise distinct,
    non-empty and in lower case (a later row for a base replaces the terms
    of an earlier one). In particular no row can attach its terms to every
    query through the empty base, which is a substring of every query. *)
Theorem synonym_bases_distinct_nonempty manual m :
  get_synonyms_map manual = Ok m ->
  Forall (fun bt => fst bt <> "" /\ lower (fst bt) = fst bt) m
  /\ NoDup (map fst m).
Proof.
  intros H. apply (synonyms_from_bases _ [] m H); constructor.
Qed.

(* ===================================================================== *)
(** ** Expiry of cached results                                           *)
(* ===================================================================== *)

(** X12. A stored result that is older than the TTL is not replayed: the
    request is ranked afresh, both collaborators are called, and the entry
    under the key of the request is replaced by the new result, stamped
    with the time of this request. *)
Theorem expired_entry_is_recomputed
        E q site uid hist lat lon dbg st k e cands sugs cards d st' :
  cache_key C q site uid lat lon = Ok k ->
  SUGGESTION_CACHE st !! k = Some e ->
  (SUGGESTION_CACHE_TTL_SECONDS C < now_ts E - ts e)%Q ->
  build_candidates C (manual_data st) site = Ok cands ->
  cands <> [] ->
  rank_candidates C E q site uid hist lat lon dbg st = (Ok (sugs, cards, d), st') ->
  (exists entry,
      SUGGESTION_CACHE st' !! k = Some entry /\ ts entry = now_ts E /\
      c_suggestions entry = sugs /\ c_cards entry = cards)
  /\ exists scores,
      pipeline_scores C E q site uid hist lat lon cands st
      = (Ok scores, provider_log st')
      /\ length (provider_log st') = 2 + length (provider_log st).
Proof.
  intros Hk He Hold Hb Hne H.
  assert (Hl : cache_lookup C E st k = None).
  { unfold cache_lookup. rewrite He.
    destruct (Qle_bool _ _) eqn:Hle; [|reflexivity].
    apply Qle_bool_iff in Hle. now apply Qlt_not_le in Hold. }
  apply rank_candidates_cases in H
    as (k' & Hk' & [(e' & Hl' & _) | [(_ & Hb' & _)
                   | (_ & cands' & scores & log & di & _ & Hb' & Hp & _ & _ & ->)]]);
    rewrite Hk in Hk'; injection Hk' as <-.
  - congruence.
  - rewrite Hb in Hb'. now injection Hb' as ->.
  - rewrite Hb in Hb'. injection Hb' as <-. split.
    + eexists. cbn [record_result SUGGESTION_CACHE]. rewrite lookup_insert_eq.
      split; [reflexivity|]. cbn. auto.
    + exists scores. cbn [record_result set_provider_log provider_log].
      split; [exact Hp|].
      unfold pipeline_scores in Hp.
      destruct (hybrid_rank C q cands st) as [[ranked|] log'] eqn:Hh;
        [|discriminate].
      assert (log = log') by (now injection Hp). subst log'.
      exact (hybrid_rank_log _ _ _ _ _ Hh).
Qed.

(* ===================================================================== *)
(** ** What drops a candidate                                             *)
(* ===================================================================== *)

Lemma post_geo_keeps L c sc boost dist : post_geo C L c sc boost dist <> Ok None.
Proof.
  unfold post_geo.
  destruct (py_float C _); [|discriminate]. cbn [bind].
  destruct (_is_open_now _ _); [|discriminate]. cbn [bind]. discriminate.
Qed.

Lemma geo_step_drop lat lon radius cand boost :
  geo_step C lat lon radius cand boost = Ok GeoDrop ->
  truthy lat = true /\ truthy lon = true /\
  exists r dist, radius = Some r /\
                 candidate_distance C lat lon cand = Ok dist /\ (r < dist)%Q.
Proof.
  unfold geo_step.
  destruct (truthy lat); cbn [andb]; [|discriminate].
  destruct (truthy lon); cbn [andb]; [|discriminate].
  destruct (is_not_none (cand_get cand "latitude" PNone)
            && is_not_none (cand_get cand "longitude" PNone)).
  - destruct (candidate_distance C lat lon cand) as [dist|]; [|discriminate].
    destruct radius as [r|]; [|discriminate].
    destruct (Qle_bool dist r) eqn:Hle; [discriminate|]. intros _.
    repeat split. exists r, dist. repeat split.
    apply Qnot_le_lt. intros Hc. apply Qle_bool_iff in Hc. congruence.
  - destruct (truthy (cand_get cand "location" PNone)); [|discriminate].
    destruct (get_location_boost lat lon _); discriminate.
Qed.

Lemma score_candidate_drops L cand sc :
  score_candidate C L cand sc = Ok None ->
  blacklisted (lc_blacklist L) (text cand) = true
  \/ geo_step C (lc_user_lat L) (lc_user_lon L) (lc_radius_km L) cand
        (try_except (pre_geo_boost L cand) 0%Q) = Ok GeoDrop.
Proof.
  unfold score_candidate.
  destruct (blacklisted (lc_blacklist L) (text cand)); [now left|].
  intros H. right. apply bind_Ok in H as (boost & Hb & H).
  apply bind_Ok in H as (g & Hg & H). rewrite Hb. cbn [try_except].
  destruct g as [|boost' dist]; [exact Hg | now apply post_geo_keeps in H].
Qed.

(** X24. The scoring loop skips a candidate ([continue]) for two reasons only:
    its text contains a blacklist term, or the caller sent non-zero
    coordinates, the catalog configures a radius, and the candidate's
    distance exceeds it. No boost, preference or business rule ever removes
    a candidate. *)
Theorem dropped_only_by_hard_filters L cand sc :
  score_candidate C L cand sc = Ok None ->
  blacklisted (lc_blacklist L) (text cand) = true
  \/ (truthy (lc_user_lat L) = true /\ truthy (lc_user_lon L) = true /\
      exists r dist,
        lc_radius_km L = Some r /\
        candidate_distance C (lc_user_lat L) (lc_user_lon L) cand = Ok dist /\
        (r < dist)%Q).
Proof.
  intros H. apply score_candidate_drops in H as [Hbl | Hg]; [now left | right].
  exact (geo_step_drop _ _ _ _ _ Hg).
Qed.

(* ===================================================================== *)
(** ** A location that is not a string                                    *)
(* ===================================================================== *)

(** X26. When the body carries a non-zero integer that fits in 64 signed bits
    as [user_location] and the ranking succeeds, [/suggest] answers 500
    although the interaction has been stored: the row is written and the
    query pattern counted before [location.lower()] raises. *)
Theorem numeric_location_fails_after_logging E req st z sugs cards d st1 :
  db_write_fails E = false ->
  user_location req = PInt z -> z <> 0%Z ->
  (- 2 ^ 63 <= z < 2 ^ 63)%Z ->
  nonempty (strip (current_query req)) = true ->
  rank_candidates C E (strip (current_query req)) (site_data req) (user_id req)
    (user_search_history req) (user_latitude req) (user_longitude req)
    (debug req) st = (Ok (sugs, cards, d), st1) ->
  exists st' row,
    suggest C AuthTrue E req st = (Resp500 AttributeError, st') /\
    search_history st' = search_history st ++ [row] /\
    row_user_id row = user_id req /\
    row_query row = strip (current_query req) /\
    row_suggestions row = sugs /\
    row_ab_variant row = None /\
    row_timestamp row = db_second E /\
    query_patterns st' !! lower (strip (current_query req))
    = Some (default 0%Z (query_patterns st !! lower (strip (current_query req))) + 1)%Z.
Proof.
  intros Hdb Hloc Hz [Hlo Hhi] Hq Hr.
  destruct (rank_candidates_frame _ _ _ _ _ _ _ _ _ _ _ Hr) as (_ & Hsh & Hqp & _ & _).
  unfold suggest. rewrite Hq. cbn [negb]. rewrite Hr.
  unfold save_search_interaction. rewrite Hdb, Hloc. unfold sqlite_bind.
  apply Z.leb_le in Hlo. apply Z.ltb_lt in Hhi. rewrite Hlo, Hhi. cbn [andb truthy].
  apply Z.eqb_neq in Hz. rewrite Hz. cbn [negb py_lower].
  eexists. eexists. split; [reflexivity|]. cbn [search_history query_patterns].
  rewrite Hsh, Hqp. split; [reflexivity|]. cbn [row_user_id row_query row_suggestions
    row_ab_variant row_timestamp].
  do 5 (split; [reflexivity|]). unfold bump. now rewrite lookup_insert_eq.
Qed.

(** A location that [sqlite3] cannot bind, such as an integer beyond 64
    bits, a list or an object, makes the INSERT raise: the answer is 500
    and neither a row nor a counter is written. *)
Lemma unbindable_location_writes_nothing E req st e sugs cards d st1 :
  db_write_fails E = false ->
  sqlite_bind (user_location req) = Raise e ->
  nonempty (strip (current_query req)) = true ->
  rank_candidates C E (strip (current_query req)) (site_data req) (user_id req)
    (user_search_history req) (user_latitude req) (user_longitude req)
    (debug req) st = (Ok (sugs, cards, d), st1) ->
  suggest C AuthTrue E req st = (Resp500 e, st1).
Proof.
  intros Hdb Hb Hq Hr. unfold suggest. rewrite Hq. cbn [negb]. rewrite Hr.
  unfold save_search_interaction. now rewrite Hdb, Hb.
Qed.

(* ===================================================================== *)
(** ** Completeness of the scoring loop                                   *)
(* ===================================================================== *)

Lemma hybrid_rank_fst q cands st ranked log :
  hybrid_rank C q cands st = (Ok ranked, log) -> map fst ranked = cands.
Proof.
  unfold hybrid_rank.
  destruct (get_synonyms_map (manual_data st)) as [m|]; [|discriminate].
  destruct (semantic_scores C _ _) as [sem|]; [|discriminate].
  destruct (bm25_scores C _ _) as [bm|]; [|discriminate].
  destruct (_ && _) eqn:Hlen; [|discriminate].
  apply andb_true_iff in Hlen as [Hs Hb]. apply Nat.eqb_eq in Hs, Hb.
  intros [= <- _]. apply map_fst_combine_same.
  rewrite combine_scores_length, Hs, Hb. apply Nat.min_id.
Qed.

Lemma score_all_complete L ranked scores c sc :
  score_all C L ranked = Ok scores ->
  In (c, sc) ranked ->
  score_candidate C L c sc = Ok None
  \/ exists x, In x scores /\ score_candidate C L c sc = Ok (Some x).
Proof.
  revert scores. induction ranked as [|[c' sc'] ranked IH]; intros scores H Hin;
    [destruct Hin|].
  cbn [score_all] in H. apply bind_Ok in H as (o & Ho & H).
  apply bind_Ok in H as (rest & Hrest & [= <-]).
  destruct Hin as [[= -> ->] | Hin].
  - destruct o as [x|]; [right | now left]. exists x. split; [now left | exact Ho].
  - destruct (IH rest Hrest Hin) as [Hn | (x & Hx & Hs)]; [now left | right].
    exists x. split; [|exact Hs]. destruct o; [now right | exact Hx].
Qed.

(** X25. When the scoring of a request returns, every built candidate is among
    the scored ones unless one of the two hard filters removed it: its
    text contains a blacklist term, or it is beyond the configured radius
    of a caller with non-zero coordinates. *)
Theorem scored_unless_hard_filtered
        E q site uid hist lat lon cands st scores log cand :
  pipeline_scores C E q site uid hist lat lon cands st = (Ok scores, log) ->
  In cand cands ->
  (exists x, In x scores /\ scored_cand x = cand)
  \/ (exists bl, get_blacklist (manual_data st) = Ok bl /\
                 blacklisted bl (text cand) = true)
  \/ (truthy lat = true /\ truthy lon = true /\
      exists r dist,
        radius_of C site = Some r /\
        candidate_distance C lat lon cand = Ok dist /\ (r < dist)%Q).
Proof.
  unfold pipeline_scores.
  destruct (hybrid_rank C q cands st) as [[ranked|e] log'] eqn:Hh; [|discriminate].
  destruct (get_blacklist (manual_data st)) as [bl|]; [|discriminate]. cbn [bind].
  destruct (get_whitelist (manual_data st)) as [wl|]; [|discriminate]. cbn [bind].
  match goal with
  | |- context [score_all C ?L ranked] =>
      destruct (score_all C L ranked) as [unsorted|] eqn:Hs; [|discriminate]
  end.
  cbn [bind]. intros [= <- <-] Hin.
  apply hybrid_rank_fst in Hh. rewrite <- Hh in Hin.
  apply in_map_iff in Hin as ([c sc] & <- & Hin). cbn [fst].
  destruct (score_all_complete _ _ _ _ _ Hs Hin) as [Hn | (x & Hx & Hsome)].
  - right. apply score_candidate_drops in Hn as [Hbl | Hgeo].
    + left. exists bl. split; [reflexivity | exact Hbl].
    + right. exact (geo_step_drop _ _ _ _ _ Hgeo).
  - left. exists x. split; [now apply sort_scores_In|].
    now apply (score_candidate_Some C) in Hsome.
Qed.

(* ===================================================================== *)
(** ** Answers from the cache                                             *)
(* ===================================================================== *)


End Further.

Import Scenario.

(* ===================================================================== *)
(** ** The properties on concrete requests                                *)
(* ===================================================================== *)


(** *** Candidate builder *)

(** The theorem of C7 on a catalog that spells "plumber" three ways: the
    category is kept, the member and the tag of the same text are not. *)
Lemma build_candidates_unique_first_wins_witness :
  build_candidates Sample.collab manual_duplicates catalog_duplicates
  = Ok duplicates_out
  /\ map text duplicates_out = ["Plumber"; "drains"]
  /\ NoDup (map (fun c => lower (text c)) duplicates_out).
Proof.
  assert (H : build_candidates Sample.collab manual_duplicates catalog_duplicates
              = Ok duplicates_out) by (vm_compute; reflexivity).
  split; [exact H|]. split; [vm_compute; reflexivity|].
  exact (proj1 (build_candidates_unique_first_wins
                  Sample.collab manual_duplicates catalog_duplicates
                  duplicates_out H)).
Defined.

(** C8 at a catalog of two members, the first with a null name: the build
    raises [AttributeError] at [mem.get("name", "").strip()] and emits
    nothing, the well-formed member after it included; that member alone
    is built into a candidate carrying its name. *)
Theorem null_name_aborts_build :
  build_candidates Sample.collab [] catalog_null_name = Raise AttributeError
  /\ match build_candidates Sample.collab [] catalog_anna with
     | Ok cands => existsb (fun c => String.eqb (text c) "Anna's Bakery") cands = true
     | Raise _ => False
     end.
Proof. split; vm_compute; reflexivity. Qed.

(** The defaults of the builder on records that miss most of their fields. *)
Lemma build_candidates_defaults_missing_fields_witness :
  site_typed Sample.collab catalog_sparse = true
  /\ forallb manual_typed manual_duplicates = true
  /\ is_ok (build_candidates Sample.collab manual_duplicates catalog_sparse) = true
  /\ build_candidates Sample.collab manual_duplicates (fill_site catalog_sparse)
     = build_candidates Sample.collab manual_duplicates catalog_sparse.
Proof.
  assert (Hs : site_typed Sample.collab catalog_sparse = true)
    by (vm_compute; reflexivity).
  assert (Hm : forallb manual_typed manual_duplicates = true)
    by (vm_compute; reflexivity).
  split; [exact Hs|]. split; [exact Hm|].
  destruct (build_candidates_defaults_missing_fields
              Sample.collab manual_duplicates catalog_sparse Hs Hm)
    as [(cats & mems & mans & _ & _ & _ & Hb) Hfill].
  split; [now rewrite Hb | exact Hfill].
Defined.

(** *** Suggestion list *)

(** The theorem of C4 on the second request of a process, which is served
    from the cache. *)
Lemma suggestions_capped_and_distinct_witness :
  reachable Sample.collab (snd first_run)
  /\ match fst (rank_candidates Sample.collab Sample.env "plumber near me"
                  catalog_far "u1" [] nyc_lat nyc_lon true (snd first_run)) with
     | Ok (sugs, _, _) => length sugs <= 5 /\ NoDup (map lower sugs)
     | Raise _ => False
     end.
Proof.
  assert (Hr : reachable Sample.collab (snd first_run)).
  { eapply reach_rank; [apply (reach_init Sample.collab [] [])|].
    unfold first_run. apply surjective_pairing. }
  split; [exact Hr|].
  assert (Hok : is_ok (fst (rank_candidates Sample.collab Sample.env
                              "plumber near me" catalog_far "u1" [] nyc_lat
                              nyc_lon true (snd first_run))) = true)
    by (vm_compute; reflexivity).
  destruct (rank_candidates Sample.collab Sample.env "plumber near me"
              catalog_far "u1" [] nyc_lat nyc_lon true (snd first_run))
    as [[[[sugs cards] d]|e] st'] eqn:H; cbn [fst] in *; [|discriminate Hok].
  exact (suggestions_capped_and_distinct Sample.collab _ _ _ _ _ _ _ _ _ _ _ _ _ Hr H).
Defined.


(** *** Result cache *)

(** C5, as the specification states it, fails: a request answered by the
    cold-start fallback stores nothing, so an identical request a moment
    later, once the catalog has a category, is ranked afresh; it returns
    other suggestions and calls both scoring collaborators. *)
Lemma cold_start_result_not_replayed :
  ~ cache_property_as_stated Sample.collab.
Proof.
  intros H.
  assert (H1 : rank_candidates Sample.collab Sample.env "plumber" catalog_empty
                 "u1" [] PNone PNone false start
               = (Ok (["Popular services near you"], [],
                      DbgTriple ["Popular services near you"] []), start))
    by (vm_compute; reflexivity).
  assert (Hlo : (0 <= now_ts Sample.env - now_ts Sample.env)%Q)
    by (vm_compute; discriminate).
  assert (Hhi : (now_ts Sample.env - now_ts Sample.env
                 <= SUGGESTION_CACHE_TTL_SECONDS Sample.collab)%Q)
    by (vm_compute; discriminate).
  destruct (H Sample.env Sample.env "plumber" catalog_empty catalog_plumbers
              "u1" [] [] PNone PNone false false start _ _ _ start _ _
              (reach_init Sample.collab [] []) eq_refl H1 Hlo Hhi
              (surjective_pairing _))
    as [_ Hlog].
  vm_compute in Hlog. discriminate Hlog.
Qed.

(** The amended C5 on the first request of a process and a second one that
    differs from it in catalog, history and debug flag. *)
Lemma cached_result_replayed_witness :
  match first_run with
  | (Ok (sugs, cards, _), st1) =>
      exists d2,
        rank_candidates Sample.collab Sample.env "plumber near me" catalog_far
          "u1" ["dentist"] nyc_lat nyc_lon true st1
        = (Ok (sugs, cards, d2), st1)
  | (Raise _, _) => False
  end.
Proof.
  assert (Hok : is_ok (fst first_run) = true) by (vm_compute; reflexivity).
  destruct first_run as [[[[sugs cards] d1]|e] st1] eqn:H1; unfold first_run in H1;
    [|discriminate Hok].
  assert (Hwarm : ~ cold_start Sample.collab Sample.env "plumber near me"
                    catalog_near "u1" nyc_lat nyc_lon start).
  { intros (k & _ & _ & Hb). vm_compute in Hb. discriminate Hb. }
  destruct (cached_result_replayed Sample.collab Sample.env "plumber near me"
              catalog_near "u1" ["plumber"] nyc_lat nyc_lon false start
              sugs cards d1 st1 H1 Hwarm)
    as (k & e & _ & Hst & _ & _ & Hts & Hreplay).
  apply (Hreplay Sample.env catalog_far ["dentist"] true st1 eq_refl Hst).
  destruct Hts as [Hold | ->].
  - unfold cache_lookup, start in Hold. cbn in Hold.
    rewrite lookup_empty in Hold. discriminate Hold.
  - vm_compute. discriminate.
Defined.

(** *** Blacklist *)

(** C6, as the specification states it, fails: a result stored before a
    term was blacklisted is replayed afterwards, with the suggestions made
    from the candidate that now carries the term. *)
Lemma cached_result_ignores_blacklist :
  ~ blacklist_filter_as_stated Sample.collab.
Proof.
  intros H.
  assert (Hr : reachable Sample.collab spam_state).
  { apply reach_other with (st := snd spam_run); [|reflexivity].
    eapply reach_rank; [apply (reach_init Sample.collab [] [])|].
    unfold spam_run. apply surjective_pairing. }
  assert (Hshow :
            match fst (rank_candidates Sample.collab Sample.env "cleaners"
                         catalog_spam "u1" [] PNone PNone false spam_state) with
            | Ok (sugs, cards, _) =>
                shows_inb Sample.collab "cleaners" spam_candidate sugs cards = true
            | Raise _ => False
            end) by (vm_compute; reflexivity).
  destruct (rank_candidates Sample.collab Sample.env "cleaners" catalog_spam
              "u1" [] PNone PNone false spam_state)
    as [[[[sugs cards] d]|e] st'] eqn:Hrank; cbn [fst] in Hshow; [|exact Hshow].
  assert (Hb : build_candidates Sample.collab (manual_data spam_state) catalog_spam
               = Ok [spam_candidate]) by (vm_compute; reflexivity).
  assert (Hbl : get_blacklist (manual_data spam_state) = Ok ["spam"])
    by (vm_compute; reflexivity).
  apply (H Sample.env "cleaners" catalog_spam "u1" [] PNone PNone false spam_state
           sugs cards d st' [spam_candidate] spam_candidate ["spam"] "spam"
           Hr Hrank Hb (or_introl eq_refl) Hbl (or_introl eq_refl) eq_refl).
  apply shows_inb_shows_in, Hshow.
Qed.

(** The amended C6 on a process that starts with the blacklist: of the two
    categories only the one without the term is scored. *)
Lemma blacklisted_candidate_not_scored_witness :
  match two_run with
  | (Ok (sugs, cards, _), _) =>
      sugs <> [] /\
      exists top : list Scored,
        (forall x, In x top -> scored_cand x <> spam_candidate) /\
        sugs = dedup_limit ∅ []
                 (flat_map
                    (fun x => rewrite_with_intent (text (scored_cand x))
                                (head (detect_locations Sample.collab "cleaners"))
                                (detect_intent "cleaners"))
                    top)
  | (Raise _, _) => False
  end.
Proof.
  assert (Hok : match fst two_run with
                | Ok (sugs, _, _) => sugs <> []
                | Raise _ => False
                end) by (vm_compute; discriminate).
  assert (Hk : is_ok (cache_key Sample.collab "cleaners" catalog_two "u1"
                        PNone PNone) = true) by reflexivity.
  destruct (cache_key Sample.collab "cleaners" catalog_two "u1" PNone PNone)
    as [k|] eqn:Hkey; [clear Hk|discriminate Hk].
  assert (Hb : build_candidates Sample.collab
                 (manual_data (init_state blacklist_spam [])) catalog_two
               = Ok [spam_candidate; mkCand "Plumbers" "category" []])
    by (vm_compute; reflexivity).
  destruct two_run as [[[[sugs cards] d]|e] st'] eqn:Hrank;
    unfold two_run in Hrank; cbn [fst] in Hok; [|exact Hok].
  split; [exact Hok|].
  destruct (blacklisted_candidate_not_scored Sample.collab Sample.env "cleaners"
              catalog_two "u1" [] PNone PNone false (init_state blacklist_spam [])
              sugs cards d st' k [spam_candidate; mkCand "Plumbers" "category" []]
              spam_candidate ["spam"] "spam"
              Hkey (lookup_empty k) Hrank Hb (or_introl eq_refl) eq_refl
              (or_introl eq_refl) eq_refl)
    as (top & _ & Htop & _ & Hsugs & _).
  exists top. split; [|exact Hsugs].
  intros x Hx. apply (Htop x Hx).
Defined.

(** *** Radius filter *)

(** C1, as the specification states it, fails: the member moved from
    Manhattan to Los Angeles after the first request; the second request,
    for the same query from the same place, is served from the cache and
    still carries the member's card, 3900 km beyond a radius of 50 km. *)
Lemma stale_card_beyond_radius :
  ~ radius_filter_as_stated Sample.collab.
Proof.
  intros H.
  assert (Hr : reachable Sample.collab (snd first_run)).
  { eapply reach_rank; [apply (reach_init Sample.collab [] [])|].
    unfold first_run. apply surjective_pairing. }
  assert (Hshow :
            match fst (rank_candidates Sample.collab Sample.env "plumber near me"
                         catalog_far "u1" ["plumber"] nyc_lat nyc_lon false
                         (snd first_run)) with
            | Ok (sugs, cards, _) =>
                shows_inb Sample.collab "plumber near me" far_mike sugs cards = true
            | Raise _ => False
            end) by (vm_compute; reflexivity).
  destruct (rank_candidates Sample.collab Sample.env "plumber near me"
              catalog_far "u1" ["plumber"] nyc_lat nyc_lon false (snd first_run))
    as [[[[sugs cards] d]|e] st'] eqn:Hrank; cbn [fst] in Hshow; [|exact Hshow].
  assert (Hb : build_candidates Sample.collab (manual_data (snd first_run))
                 catalog_far = Ok far_candidates) by (vm_compute; reflexivity).
  assert (Hin : In far_mike far_candidates) by (vm_compute; auto).
  assert (Hrad : radius_of Sample.collab catalog_far = Some 50%Q)
    by (vm_compute; reflexivity).
  assert (Hd : candidate_distance Sample.collab nyc_lat nyc_lon far_mike
               = Ok far_distance) by (vm_compute; reflexivity).
  assert (Hfar : (50 < far_distance)%Q) by (vm_compute; reflexivity).
  apply (H Sample.env "plumber near me" catalog_far "u1" ["plumber"]
           nyc_lat nyc_lon false (snd first_run) sugs cards d st'
           far_candidates far_mike 50%Q far_distance
           Hr eq_refl eq_refl Hrad Hrank Hb Hin Hd Hfar).
  apply shows_inb_shows_in, Hshow.
Qed.

(** A caller on the equator: the latitude [0.0] is falsy, the coordinate
    step is skipped, and a member 9300 km away is carried with no
    distance although the radius is 50 km. *)
Lemma zero_latitude_skips_radius_filter :
  match candidate_distance Sample.collab equator_lat equator_lon equator_mike with
  | Ok dist => (50 < dist)%Q
  | Raise _ => False
  end
  /\ match fst (rank_candidates Sample.collab Sample.env "plumber near me"
                  catalog_equator "u1" [] equator_lat equator_lon false start) with
     | Ok (sugs, cards, _) =>
         shows_inb Sample.collab "plumber near me" equator_mike sugs cards = true
         /\ forallb (fun c => match distance_km c with None => true | Some _ => false end)
                    cards = true
     | Raise _ => False
     end.
Proof. split; [vm_compute; reflexivity|]. vm_compute. split; reflexivity. Qed.

(** The amended C1 on a fresh process and a catalog with one member a few
    blocks away and one in Los Angeles: the latter has no card, the former
    scores 0.15 more than it would without the caller's coordinates. *)
Lemma radius_filter_on_scored_run_witness :
  match both_run with
  | (Ok (sugs, cards, _), _) =>
      cards <> [] /\
      (forall card, In card cards -> title card <> "Lara's Plumbing") /\
      exists s,
        score_candidate Sample.collab nyc_ctx near_mike 0.5%Q
        = Ok (Some (near_mike, s, Some near_distance)) /\
        (s == scored_score near_blind + 0.15)%Q
  | (Raise _, _) => False
  end.
Proof.
  assert (Hok : match fst both_run with
                | Ok (_, cards, _) => cards <> []
                | Raise _ => False
                end) by (vm_compute; discriminate).
  assert (Hk : is_ok (cache_key Sample.collab "plumber near me" catalog_both "u1"
                        nyc_lat nyc_lon) = true) by reflexivity.
  destruct (cache_key Sample.collab "plumber near me" catalog_both "u1"
              nyc_lat nyc_lon) as [k|] eqn:Hkey; [clear Hk|discriminate Hk].
  assert (Hb : build_candidates Sample.collab (manual_data start) catalog_both
               = Ok both_candidates) by (vm_compute; reflexivity).
  assert (Hne : both_candidates <> []) by (vm_compute; discriminate).
  assert (Hrad : radius_of Sample.collab catalog_both = Some 50%Q)
    by (vm_compute; reflexivity).
  destruct both_run as [[[[sugs cards] d]|e] st'] eqn:Hrank;
    unfold both_run in Hrank; cbn [fst] in Hok; [|exact Hok].
  destruct (radius_filter_on_scored_run Sample.collab Sample.env "plumber near me"
              catalog_both "u1" ["plumber"] nyc_lat nyc_lon false start
              sugs cards d st' k both_candidates 50%Q
              Hkey (lookup_empty k) Hrank Hb Hne eq_refl eq_refl Hrad)
    as [(top & _ & _ & _ & _ & _ & Hfar) Hboost].
  split; [exact Hok|]. split.
  - assert (Hin : In lara_candidate both_candidates) by (vm_compute; auto 10).
    assert (Hd : candidate_distance Sample.collab nyc_lat nyc_lon lara_candidate
                 = Ok lara_distance) by (vm_compute; reflexivity).
    assert (Hlt : (50 < lara_distance)%Q) by (vm_compute; reflexivity).
    intros card Hcard.
    exact (proj1 (proj2 (Hfar lara_candidate lara_distance Hin Hd Hlt) card Hcard)).
  - assert (Hd : candidate_distance Sample.collab nyc_lat nyc_lon near_mike
                 = Ok near_distance) by (vm_compute; reflexivity).
    assert (H5 : (near_distance <= 5)%Q) by (vm_compute; discriminate).
    assert (H50 : (near_distance <= 50)%Q) by (vm_compute; discriminate).
    assert (Hs : score_candidate Sample.collab (without_coordinates nyc_ctx)
                   near_mike 0.5%Q
                 = Ok (Some (near_mike, scored_score near_blind, None)))
      by (vm_compute; reflexivity).
    exact (Hboost nyc_ctx near_mike 0.5%Q near_distance (scored_score near_blind)
             None eq_refl eq_refl eq_refl Hd H5 H50 Hs).
Defined.

(** *** History boost *)

(** C2, as the specification states it, fails: two history terms occur in
    the member's name and the boost is 0.20. *)
Lemma two_matching_terms_boost_twice :
  ~ history_boost_as_stated.
Proof.
  intros H.
  assert (Hm : exists h, In h ["plumb"; "plumbing"] /\
                         contains (lower h) (lower "Mike's Plumbing") = true)
    by (exists "plumb"; split; [left|]; reflexivity).
  specialize (H ["plumb"; "plumbing"] "Mike's Plumbing" Hm).
  vm_compute in H. discriminate H.
Qed.

(** The amended C2 on the Manhattan member: one matching term from the
    request, one from the server-side cache, and one that does not occur. *)
Lemma history_boost_per_match_witness :
  history_matches ["plumb"] (text near_mike)
  + history_matches ["plumbing"; "dentist"] (text near_mike) = 2
  /\ exists s0,
       score_candidate Sample.collab (with_history nyc_ctx []) near_mike 0.5%Q
       = Ok (Some (near_mike, s0, scored_dist near_scored)) /\
       (scored_score near_scored
        == s0 + 0.10 * inject_Z (Z.of_nat
                                   (history_matches ["plumb"] (text near_mike)
                                    + history_matches ["plumbing"; "dentist"]
                                        (text near_mike))))%Q.
Proof.
  split; [reflexivity|].
  assert (Hs : score_candidate Sample.collab nyc_ctx near_mike 0.5%Q
               = Ok (Some near_scored)) by (vm_compute; reflexivity).
  exact (history_boost_per_match Sample.collab nyc_ctx ["plumb"]
           ["plumbing"; "dentist"] near_mike 0.5%Q near_scored eq_refl Hs).
Defined.

(** C9, as the specification states it, fails: with "dentist" in the
    history the boost of "Downtown Dental" is not 0.10. *)
Lemma dentist_boost_is_not_a_tenth :
  ~ (history_boost ["dentist"] "Downtown Dental" 0 == 0.10)%Q.
Proof. intros H. vm_compute in H. discriminate H. Qed.

(** *** Whitelist *)

(** C10, as the specification states it, fails: a whitelist row whose
    term is a number makes the run raise where the run under another
    whitelist returns its suggestions. *)
Lemma malformed_whitelist_row_fails_ranking :
  ~ whitelist_independence_as_stated Sample.collab.
Proof.
  intros H.
  assert (Ha : is_ok (fst run_whitelist_a) = true) by (vm_compute; reflexivity).
  assert (Hn : is_ok (fst run_whitelist_number) = false) by (vm_compute; reflexivity).
  assert (He : fst run_whitelist_a = fst run_whitelist_number).
  { exact (H Sample.env "plumber near me" catalog_near "u1" ["plumber"]
             nyc_lat nyc_lon true start whitelist_a whitelist_number
             (reach_init Sample.collab [] []) eq_refl). }
  destruct (fst run_whitelist_a); destruct (fst run_whitelist_number);
    discriminate.
Qed.

(** The run under the whitelist with a number ends in the error of
    [(item.get("term") or "").lower()]; the whitelist itself cannot be
    read. *)
Lemma whitelist_number_raises :
  get_whitelist whitelist_number = Raise AttributeError
  /\ fst run_whitelist_number = Raise AttributeError.
Proof. split; vm_compute; reflexivity. Qed.

(** The amended C10 on two processes whose manual data differ in the
    whitelist only. *)
Lemma whitelist_does_not_influence_ranking_witness :
  non_whitelist whitelist_a = non_whitelist whitelist_b
  /\ get_whitelist whitelist_a = Ok ["plumber"]
  /\ get_whitelist whitelist_b = Ok ["dentist"; "bakery"]
  /\ is_ok (fst run_whitelist_a) = true
  /\ fst run_whitelist_a = fst run_whitelist_b.
Proof.
  assert (Ha : is_ok (fst run_whitelist_a) = true) by (vm_compute; reflexivity).
  split; [reflexivity|]. split; [reflexivity|]. split; [reflexivity|].
  split; [exact Ha|].
  exact (proj1 (whitelist_does_not_influence_ranking Sample.collab Sample.env
                  "plumber near me" catalog_near "u1" ["plumber"] nyc_lat nyc_lon
                  true start whitelist_a whitelist_b ["plumber"] ["dentist"; "bakery"]
                  eq_refl eq_refl eq_refl)).
Defined.

(** *** Interaction log *)

(** C3 at a request whose ranking succeeds while the interaction log cannot
    be written: the ranking returns five suggestions, the endpoint answers
    500 with the error of the write and none of them; with the log writable
    the same request is answered 200. *)
Theorem log_write_failure_returns_500 :
  match fst (rank_candidates Sample.collab env_log_down "plumber near me"
               catalog_near "u1" ["plumber"] nyc_lat nyc_lon false start) with
  | Ok (sugs, _, _) => length sugs = 5
  | Raise _ => False
  end
  /\ fst (suggest Sample.collab AuthTrue env_log_down request_plumber start)
     = Resp500 OperationalError
  /\ match fst (suggest Sample.collab AuthTrue Sample.env request_plumber start) with
     | Resp200 _ sugs _ _ _ => length sugs = 5
     | _ => False
     end.
Proof.
  split; [vm_compute; reflexivity|].
  split; vm_compute; reflexivity.
Qed.

(* ===================================================================== *)
(** ** The further properties on concrete inputs                          *)
(* ===================================================================== *)

(** Of three blacklist rows only the one with a non-empty term counts. *)
Lemma quality_terms_nonempty_lowercase_witness :
  get_blacklist manual_quality = Ok ["spam"]
  /\ Forall (fun t => t <> "" /\ lower t = t) ["spam"]
  /\ blacklisted ["spam"] "" = false.
Proof.
  assert (H : get_blacklist manual_quality = Ok ["spam"]) by reflexivity.
  split; [exact H|].
  exact (quality_terms_nonempty_lowercase manual_quality ["spam"] (or_introl H)).
Defined.

(** Of three synonym rows the one with the empty base is skipped and the
    two for "plumber" leave one entry, with the terms of the later. *)
Lemma synonym_bases_distinct_nonempty_witness :
  get_synonyms_map manual_quality = Ok [("plumber", ["drain"])]
  /\ Forall (fun bt : string * list string => fst bt <> "" /\ lower (fst bt) = fst bt)
            [("plumber", ["drain"])]
  /\ NoDup (map fst [("plumber", ["drain"])]).
Proof.
  assert (H : get_synonyms_map manual_quality = Ok [("plumber", ["drain"])])
    by reflexivity.
  split; [exact H|].
  exact (synonym_bases_distinct_nonempty manual_quality _ H).
Defined.

(** An empty catalog on a fresh process. *)
Lemma cold_start_answer_witness :
  fst (rank_candidates Sample.collab Sample.env "plumber" catalog_empty "u1" []
         PNone PNone true start)
  = Ok (["Popular services near you"], [], DbgReason "cold_start").
Proof.
  assert (Hk : is_ok (cache_key Sample.collab "plumber" catalog_empty "u1"
                        PNone PNone) = true) by reflexivity.
  destruct (cache_key Sample.collab "plumber" catalog_empty "u1" PNone PNone)
    as [k|] eqn:Hkey; [clear Hk|discriminate Hk].
  assert (Hb : build_candidates Sample.collab (manual_data start) catalog_empty
               = Ok []) by reflexivity.
  rewrite (proj1 (cold_start_answer Sample.collab Sample.env "plumber"
                    catalog_empty "u1" [] PNone PNone true start k
                    Hkey (lookup_empty k) Hb)).
  reflexivity.
Defined.

(** The hybrid ranking of the four candidates of the two-member catalog. *)
Lemma hybrid_rank_scores_every_candidate_witness :
  match fst (hybrid_rank Sample.collab "plumber near me" both_candidates start) with
  | Ok ranked => map fst ranked = both_candidates /\ length ranked = 4
  | Raise _ => False
  end.
Proof.
  assert (Hok : is_ok (fst (hybrid_rank Sample.collab "plumber near me"
                              both_candidates start)) = true)
    by (vm_compute; reflexivity).
  destruct (hybrid_rank Sample.collab "plumber near me" both_candidates start)
    as [[ranked|] log] eqn:H; [|discriminate Hok]. cbn [fst].
  pose proof (proj1 (hybrid_rank_scores_every_candidate Sample.collab _ _ _ _ _ H))
    as Hm.
  split; [exact Hm|]. rewrite <- (length_map fst), Hm. reflexivity.
Defined.

(** Four keywords would add up to 0.2; the cap makes no difference here,
    and without a latitude there is no boost. *)
Lemma get_location_boost_bounds_witness :
  match get_location_boost nyc_lat nyc_lon location_nearby with
  | Ok b => (0 <= b)%Q /\ (b <= 0.2)%Q
  | Raise _ => False
  end
  /\ get_location_boost (PFloat 0) nyc_lon location_nearby = Ok 0%Q.
Proof.
  split; [|reflexivity].
  assert (Hok : is_ok (get_location_boost nyc_lat nyc_lon location_nearby) = true)
    by reflexivity.
  destruct (get_location_boost nyc_lat nyc_lon location_nearby) as [b|] eqn:H;
    [|discriminate Hok].
  destruct (get_location_boost_bounds _ _ _ _ H) as (H0 & H2 & _). auto.
Defined.

(** Four requests of the demo key within one minute under a limit of
    two. *)
Lemma rate_limit_counts_per_minute_witness :
  fst (requests (parse_api_keys "demo-key, ,other") 2 (Some "demo-key") 0 4 ∅)
  = [AuthTrue; AuthTrue; AuthRateLimited; AuthRateLimited]
  /\ counted (snd (requests (parse_api_keys "demo-key, ,other") 2
                     (Some "demo-key") 0 4 ∅)) "demo-key" 0 = 4%Z.
Proof.
  destruct (rate_limit_counts_per_minute (parse_api_keys "demo-key, ,other") 2
              "demo-key" 0 4 ∅ eq_refl eq_refl) as (Ha & Hc & _).
  split; [exact Ha | exact Hc].
Defined.

(** Noon on Monday is the first minute of the afternoon interval. *)
Lemma is_open_now_intervals_witness :
  _is_open_now Sample.env (PDict monday_hours) = Ok true
  /\ _is_open_now env_later (PDict [("tue", PList [])]) = Ok false.
Proof.
  destruct (is_open_now_intervals Sample.env (PDict monday_hours))
    as (Hopen & _ & _).
  destruct (is_open_now_intervals env_later (PDict [("tue", PList [])]))
    as (_ & Hday & _).
  split.
  - exact (Hopen monday_hours [("08:00", "11:30"); ("12:00", "18:00")]
             eq_refl ltac:(discriminate) eq_refl).
  - exact (Hday _ eq_refl eq_refl).
Defined.

(** A blacklist row posted with spaces around its type. *)
Lemma add_data_round_trip_witness :
  fst (add_data AuthTrue true body_blacklist start) = Ok (DataAdded "blacklist")
  /\ get_manual_data
       (manual_data (snd (add_data AuthTrue true body_blacklist start))) "blacklist"
     = [PDict [("term", PStr "Spam")]].
Proof.
  split; [reflexivity|].
  destruct (add_data_round_trip AuthTrue true body_blacklist start _ _
              (surjective_pairing _)) as (Hok & _ & _).
  destruct (Hok "blacklist" eq_refl) as (_ & content & Hc & _ & _ & Hget).
  injection Hc as <-. exact Hget.
Defined.

Lemma added_blacklist_term_is_listed_witness :
  get_blacklist (manual_data (snd (add_data AuthTrue true body_blacklist start)))
  = Ok ["spam"].
Proof.
  exact (added_blacklist_term_is_listed true body_blacklist start
           (snd (add_data AuthTrue true body_blacklist start))
           [("term", PStr "Spam")] "Spam" []
           eq_refl eq_refl eq_refl ltac:(discriminate) eq_refl).
Defined.

(** Five items: a category, a blacklist term, a number, a member without
    content, and a location whose type carries spaces. *)
Lemma batch_import_accounting_witness :
  fst (batch_import AuthTrue (fun _ => true) body_batch start) = Ok (BatchOk 2 3)
  /\ map fst (manual_data (snd (batch_import AuthTrue (fun _ => true)
                                  body_batch start)))
     = ["category"; "location"]
  /\ get_blacklist (manual_data (snd (batch_import AuthTrue (fun _ => true)
                                        body_batch start)))
     = Ok [].
Proof.
  split; [reflexivity|]. split; [reflexivity|].
  destruct (batch_import_accounting (fun _ => true) body_batch start 2 3
              (snd (batch_import AuthTrue (fun _ => true) body_batch start))
              eq_refl)
    as (items & added & _ & _ & _ & _ & _ & Hbl & _).
  rewrite Hbl. reflexivity.
Defined.

(** A null name in the catalog: the ranking raises, the endpoint answers
    500, and the state is the one of the start. *)
Lemma failed_ranking_changes_nothing_witness :
  suggest Sample.collab AuthTrue Sample.env request_null_name start
  = (Resp500 AttributeError, start).
Proof.
  assert (Hr : rank_candidates Sample.collab Sample.env
                 (strip (current_query request_null_name))
                 (site_data request_null_name) (user_id request_null_name)
                 (user_search_history request_null_name)
                 (user_latitude request_null_name)
                 (user_longitude request_null_name)
                 (debug request_null_name) start
               = (Raise AttributeError, start)) by reflexivity.
  exact (proj1 (failed_ranking_changes_nothing Sample.collab Sample.env
                  request_null_name start AttributeError start eq_refl Hr)).
Defined.

(** The first request of a process. *)
Lemma scored_run_learns_query_witness :
  history_of (snd first_run) "u1" = ["plumber near me"]
  /\ POPULAR_QUERIES (snd first_run) !! "plumber near me" = Some 1%Z.
Proof.
  assert (Hok : is_ok (fst first_run) = true) by (vm_compute; reflexivity).
  assert (Hk : is_ok (cache_key Sample.collab "plumber near me" catalog_near "u1"
                        nyc_lat nyc_lon) = true) by reflexivity.
  destruct (cache_key Sample.collab "plumber near me" catalog_near "u1"
              nyc_lat nyc_lon) as [k|] eqn:Hkey; [clear Hk|discriminate Hk].
  assert (Hb : build_candidates Sample.collab (manual_data start) catalog_near
               = Ok near_candidates) by (vm_compute; reflexivity).
  assert (Hne : near_candidates <> []) by (vm_compute; discriminate).
  destruct first_run as [[[[sugs cards] d]|e] st'] eqn:Hrank;
    unfold first_run in Hrank; [|discriminate Hok]. cbn [snd].
  destruct (scored_run_learns_query Sample.collab Sample.env "plumber near me"
              catalog_near "u1" ["plumber"] nyc_lat nyc_lon false start
              sugs cards d st' k near_candidates
              Hkey (lookup_empty k) Hb Hne Hrank)
    as (_ & _ & Hnew & _ & _ & Hpop).
  split; [apply Hnew; intros [] | exact Hpop].
Defined.


(** The second request of a process, answered from the cache. *)
Lemma cards_capped_witness :
  match fst (rank_candidates Sample.collab Sample.env "plumber near me"
               catalog_far "u1" [] nyc_lat nyc_lon true (snd first_run)) with
  | Ok (_, cards, _) => 0 < length cards <= 5
  | Raise _ => False
  end.
Proof.
  assert (Hr : reachable Sample.collab (snd first_run)).
  { eapply reach_rank; [apply (reach_init Sample.collab [] [])|].
    unfold first_run. apply surjective_pairing. }
  assert (Hok : match fst (rank_candidates Sample.collab Sample.env
                             "plumber near me" catalog_far "u1" [] nyc_lat
                             nyc_lon true (snd first_run)) with
                | Ok (_, cards, _) => 0 < length cards
                | Raise _ => False
                end) by (vm_compute; lia).
  destruct (rank_candidates Sample.collab Sample.env "plumber near me"
              catalog_far "u1" [] nyc_lat nyc_lon true (snd first_run))
    as [[[[sugs cards] d]|e] st'] eqn:H; cbn [fst] in *; [|exact Hok].
  split; [exact Hok|].
  exact (cards_capped Sample.collab _ _ _ _ _ _ _ _ _ _ _ _ _ Hr H).
Defined.

(** The three cards of the first request. *)
Lemma cards_show_member_candidates_witness :
  match fst first_run with
  | Ok (_, cards, _) =>
      length cards = 3 /\
      Forall (fun card =>
                exists cand, In cand near_candidates /\ title card = text cand /\
                             In (type cand) card_types /\
                             (truthy (card_profile_url card) = true
                              \/ truthy (member_id card) = true))
             cards
  | Raise _ => False
  end.
Proof.
  assert (Hok : match fst first_run with
                | Ok (_, cards, _) => length cards = 3
                | Raise _ => False
                end) by (vm_compute; reflexivity).
  assert (Hk : is_ok (cache_key Sample.collab "plumber near me" catalog_near "u1"
                        nyc_lat nyc_lon) = true) by reflexivity.
  destruct (cache_key Sample.collab "plumber near me" catalog_near "u1"
              nyc_lat nyc_lon) as [k|] eqn:Hkey; [clear Hk|discriminate Hk].
  assert (Hb : build_candidates Sample.collab (manual_data start) catalog_near
               = Ok near_candidates) by (vm_compute; reflexivity).
  assert (Hne : near_candidates <> []) by (vm_compute; discriminate).
  destruct first_run as [[[[sugs cards] d]|e] st'] eqn:Hrank;
    unfold first_run in Hrank; cbn [fst] in *; [|exact Hok].
  split; [exact Hok|].
  exact (cards_show_member_candidates Sample.collab Sample.env "plumber near me"
           catalog_near "u1" ["plumber"] nyc_lat nyc_lon false start
           sugs cards d st' k near_candidates
           Hkey (lookup_empty k) Hrank Hb Hne).
Defined.

(** The catalog that spells one text three ways, with a manual row. *)
Lemma built_candidates_well_formed_witness :
  build_candidates Sample.collab manual_duplicates catalog_duplicates
  = Ok duplicates_out
  /\ Forall well_formed_candidate duplicates_out.
Proof.
  assert (H : build_candidates Sample.collab manual_duplicates catalog_duplicates
              = Ok duplicates_out) by (vm_compute; reflexivity).
  split; [exact H|].
  exact (built_candidates_well_formed Sample.collab _ _ _ H).
Defined.

(** The request of the first run again, seventeen minutes later and with
    the member moved to Los Angeles: the stored result has expired, and
    the new one has no card. *)
Lemma expired_entry_is_recomputed_witness :
  match rank_candidates Sample.collab env_later "plumber near me" catalog_far
          "u1" ["plumber"] nyc_lat nyc_lon false (snd first_run) with
  | (Ok (sugs, cards, _), st') =>
      cards = [] /\
      exists k entry,
        cache_key Sample.collab "plumber near me" catalog_far "u1" nyc_lat nyc_lon
        = Ok k /\
        SUGGESTION_CACHE st' !! k = Some entry /\ ts entry = 2020%Q /\
        c_cards entry = []
  | (Raise _, _) => False
  end.
Proof.
  assert (Hok : match fst (rank_candidates Sample.collab env_later
                             "plumber near me" catalog_far "u1" ["plumber"]
                             nyc_lat nyc_lon false (snd first_run)) with
                | Ok (_, cards, _) => cards = []
                | Raise _ => False
                end) by (vm_compute; reflexivity).
  assert (Hk : is_ok (cache_key Sample.collab "plumber near me" catalog_far "u1"
                        nyc_lat nyc_lon) = true) by reflexivity.
  destruct (cache_key Sample.collab "plumber near me" catalog_far "u1"
              nyc_lat nyc_lon) as [k|] eqn:Hkey; [clear Hk|discriminate Hk].
  assert (He : is_Some (SUGGESTION_CACHE (snd first_run) !! k)).
  { assert (Hhit : match cache_key Sample.collab "plumber near me" catalog_far
                           "u1" nyc_lat nyc_lon with
                   | Ok k0 => bool_decide
                                (is_Some (SUGGESTION_CACHE (snd first_run) !! k0))
                   | Raise _ => false
                   end = true) by (vm_compute; reflexivity).
    rewrite Hkey in Hhit. now apply bool_decide_eq_true in Hhit. }
  destruct He as [e He].
  assert (Hold : (SUGGESTION_CACHE_TTL_SECONDS Sample.collab
                  < now_ts env_later - ts e)%Q).
  { assert (Hts : match cache_key Sample.collab "plumber near me" catalog_far
                          "u1" nyc_lat nyc_lon with
                  | Ok k0 =>
                      match SUGGESTION_CACHE (snd first_run) !! k0 with
                      | Some e0 => Qle_bool (now_ts env_later - ts e0)
                                     (SUGGESTION_CACHE_TTL_SECONDS Sample.collab)
                      | None => true
                      end
                  | Raise _ => true
                  end = false) by (vm_compute; reflexivity).
    rewrite Hkey, He in Hts. apply Qnot_le_lt. intros Hle.
    apply Qle_bool_iff in Hle. congruence. }
  assert (Hb : build_candidates Sample.collab (manual_data (snd first_run))
                 catalog_far = Ok far_candidates) by (vm_compute; reflexivity).
  assert (Hne : far_candidates <> []) by (vm_compute; discriminate).
  destruct (rank_candidates Sample.collab env_later "plumber near me" catalog_far
              "u1" ["plumber"] nyc_lat nyc_lon false (snd first_run))
    as [[[[sugs cards] d]|e0] st'] eqn:Hrank; cbn [fst] in Hok; [|exact Hok].
  split; [exact Hok|].
  destruct (expired_entry_is_recomputed Sample.collab env_later "plumber near me"
              catalog_far "u1" ["plumber"] nyc_lat nyc_lon false (snd first_run)
              k e far_candidates sugs cards d st' Hkey He Hold Hb Hne Hrank)
    as [(entry & Hent & Hts & _ & Hcards) _].
  exists k, entry. rewrite Hcards. auto.
Defined.

(** The member in Los Angeles is skipped for its distance; no blacklist is
    involved. *)
Lemma dropped_only_by_hard_filters_witness :
  score_candidate Sample.collab nyc_ctx far_mike 0.5%Q = Ok None
  /\ exists r dist,
      lc_radius_km nyc_ctx = Some r /\
      candidate_distance Sample.collab nyc_lat nyc_lon far_mike = Ok dist /\
      (r < dist)%Q.
Proof.
  assert (H : score_candidate Sample.collab nyc_ctx far_mike 0.5%Q = Ok None)
    by (vm_compute; reflexivity).
  split; [exact H|].
  destruct (dropped_only_by_hard_filters Sample.collab nyc_ctx far_mike 0.5%Q H)
    as [Hbl | (_ & _ & Hex)]; [discriminate Hbl | exact Hex].
Defined.

(** A ZIP code as location: the answer is 500 and the log has the row. *)
Lemma numeric_location_fails_after_logging_witness :
  (- 2 ^ 63 <= 10001 < 2 ^ 63)%Z
  /\ fst (suggest Sample.collab AuthTrue Sample.env request_zip start)
     = Resp500 AttributeError
  /\ map row_query
       (search_history (snd (suggest Sample.collab AuthTrue Sample.env
                               request_zip start)))
     = ["plumber near me"].
Proof.
  assert (Hz : (- 2 ^ 63 <= 10001 < 2 ^ 63)%Z) by (split; [discriminate | reflexivity]).
  split; [exact Hz|].
  assert (Hok : is_ok (fst first_run) = true) by (vm_compute; reflexivity).
  destruct first_run as [[[[sugs cards] d]|e] st1] eqn:Hrank;
    unfold first_run in Hrank; [|discriminate Hok].
  assert (Hnz : 10001%Z <> 0%Z) by discriminate.
  destruct (numeric_location_fails_after_logging Sample.collab Sample.env
              request_zip start 10001 sugs cards d st1
              eq_refl eq_refl Hnz Hz eq_refl Hrank)
    as (st' & row & Hs & Hrows & _ & Hq & _).
  rewrite (surjective_pairing (suggest Sample.collab AuthTrue Sample.env
                                 request_zip start)) in Hs.
  assert (Hf : fst (suggest Sample.collab AuthTrue Sample.env request_zip start)
               = Resp500 AttributeError) by congruence.
  assert (Hst : snd (suggest Sample.collab AuthTrue Sample.env request_zip start)
                = st') by congruence.
  split; [exact Hf|]. rewrite Hst, Hrows.
  change (search_history start) with (@nil Row). cbn [app map]. rewrite Hq.
  reflexivity.
Defined.

(** Of the two members the one in Manhattan is scored. *)
Lemma scored_unless_hard_filtered_witness :
  match fst (pipeline_scores Sample.collab Sample.env "plumber near me"
               catalog_both "u1" ["plumber"] nyc_lat nyc_lon both_candidates
               start) with
  | Ok scores => exists x, In x scores /\ scored_cand x = near_mike
  | Raise _ => False
  end.
Proof.
  assert (Hok : is_ok (fst (pipeline_scores Sample.collab Sample.env
                              "plumber near me" catalog_both "u1" ["plumber"]
                              nyc_lat nyc_lon both_candidates start)) = true)
    by (vm_compute; reflexivity).
  destruct (pipeline_scores Sample.collab Sample.env "plumber near me"
              catalog_both "u1" ["plumber"] nyc_lat nyc_lon both_candidates start)
    as [[scores|] log] eqn:H; [|discriminate Hok]. cbn [fst].
  assert (Hin : In near_mike both_candidates) by (vm_compute; auto 10).
  destruct (scored_unless_hard_filtered Sample.collab _ _ _ _ _ _ _ _ _ _ _ _ H Hin)
    as [Hx | [(bl & Hbl & Hb) | (_ & _ & r & dist & Hr & Hd & Hlt)]].
  - exact Hx.
  - injection Hbl as <-. discriminate Hb.
  - assert (Hr' : radius_of Sample.collab catalog_both = Some 50%Q)
      by (vm_compute; reflexivity).
    assert (Hd' : candidate_distance Sample.collab nyc_lat nyc_lon near_mike
                  = Ok near_distance) by (vm_compute; reflexivity).
    assert (r = 50%Q) by congruence. assert (dist = near_distance) by congruence.
    subst r dist.
    assert (Hle : (near_distance <= 50)%Q) by (vm_compute; discriminate).
    destruct (Qlt_not_le _ _ Hlt Hle).
Defined.

